(** * subnetcalc: the address arithmetic of [Utils] and the calculations of [App]

    A shallow embedding of the TypeScript class [Utils] and of the computing
    parts of [App] (main.ts), followed by the properties of the
    specification that concern them and by further properties of the code.

    - [JS]    : the JavaScript primitives the program relies on (numbers,
                32-bit operators, [parseInt], string and array methods);
    - [Utils] : the functions of the class, one Rocq definition per method,
                in the order of the source;
    - [App]   : the texts of [renderSubnetList], the subnet shift of
                [handleProcess], [generateCalculationResult] and
                [compressIPv6];
    - the rest of the file states and proves the properties. *)

From Stdlib Require Import ZArith List String Ascii Bool Lia.
From Stdlib Require DecimalString HexadecimalString.
Import ListNotations.

Local Open Scope list_scope.
Local Open Scope string_scope.
Local Open Scope Z_scope.

(* ================================================================== *)
(** * JavaScript primitives *)
(* ================================================================== *)

Module JS.

(** ** Numbers

    Every number the program stores is an integer-valued double, an infinity
    or NaN ([Math.floor] is applied at once to the only quotient, and the
    single fractional power is treated where it occurs).  [-0] is identified
    with [0]: the program never divides by a number nor prints one without
    going through an operator that maps both to the same result. *)

Inductive number : Type :=
| NaN
| Inf (negative : bool)
| Fin (z : Z).

(** Round an integer to the nearest double (53 significant bits, ties to
    even). *)
Definition roundDouble (z : Z) : Z :=
  let a := Z.abs z in
  let bits := Z.log2 a + 1 in
  if bits <=? 53 then z
  else
    let e := bits - 53 in
    let q := Z.shiftr a e in
    let r := Z.land a (Z.ones e) in
    let half := 2 ^ (e - 1) in
    let q' := if r <? half then q
              else if half <? r then q + 1
              else if Z.even q then q else q + 1 in
    Z.sgn z * (q' * 2 ^ e).

(** The double nearest to an integer: infinite from [2^1024] on. *)
Definition double (z : Z) : number :=
  let r := roundDouble z in
  if 2 ^ 1024 <=? Z.abs r then Inf (r <? 0) else Fin r.

(** [x + y] on numbers. *)
Definition add (x y : number) : number :=
  match x, y with
  | NaN, _ | _, NaN => NaN
  | Inf a, Inf b => if Bool.eqb a b then Inf a else NaN
  | Inf a, Fin _ | Fin _, Inf a => Inf a
  | Fin a, Fin b => double (a + b)
  end.

(** [x * y] on numbers. *)
Definition mul (x y : number) : number :=
  match x, y with
  | NaN, _ | _, NaN => NaN
  | Inf a, Inf b => Inf (xorb a b)
  | Inf a, Fin z | Fin z, Inf a => if z =? 0 then NaN else Inf (xorb a (z <? 0))
  | Fin a, Fin b => double (a * b)
  end.

(** [Math.pow(2, n)] for [0 <= n]. *)
Definition pow2 (n : Z) : number := double (2 ^ n).

(** [x === y] on numbers. *)
Definition strictEq (x y : number) : bool :=
  match x, y with
  | Fin a, Fin b => a =? b
  | Inf a, Inf b => Bool.eqb a b
  | _, _ => false
  end.

(** The integer a 32-bit operator starts from: ToInt32 and ToUint32 send
    NaN and the infinities to 0. *)
Definition integral (x : number) : Z :=
  match x with
  | Fin z => z
  | _ => 0
  end.

(** ** 32-bit operators, on integers *)

Definition ToUint32 (z : Z) : Z := z mod 2 ^ 32.

Definition ToInt32 (z : Z) : Z :=
  let u := z mod 2 ^ 32 in
  if u <? 2 ^ 31 then u else u - 2 ^ 32.

(** [a << b]: the shift count is taken modulo 32, the result is signed. *)
Definition shl (a b : Z) : Z := ToInt32 (Z.shiftl (ToInt32 a) (b mod 32)).

(** [a >>> b]: unsigned, the shift count is taken modulo 32. *)
Definition shru (a b : Z) : Z := Z.shiftr (ToUint32 a) (b mod 32).

(** [a & b], [a | b] and [~a]: signed 32-bit results. *)
Definition band (a b : Z) : Z := Z.land (ToInt32 a) (ToInt32 b).
Definition bor (a b : Z) : Z := Z.lor (ToInt32 a) (ToInt32 b).
Definition bnot (a : Z) : Z := Z.lnot (ToInt32 a).

(** ** Strings

    A string is a sequence of code units; the model keeps the code units
    below 256, which include every character the program looks for. *)

Definition charCode (c : ascii) : Z := Z.of_N (N_of_ascii c).

(** [s.startsWith(p)] *)
Fixpoint startsWith (p s : string) : bool :=
  match p with
  | "" => true
  | String a p' =>
      match s with
      | "" => false
      | String b s' => Ascii.eqb a b && startsWith p' s'
      end
  end.

(** [s.includes(p)] *)
Fixpoint includes (p s : string) : bool :=
  startsWith p s ||
  match s with
  | "" => false
  | String _ s' => includes p s'
  end.

(** [s.split(sep)] for a non-empty separator: the pieces between the
    occurrences of [sep], found from left to right without overlap.
    [skip] counts the characters of a separator still to be passed over; the
    head of the result is the piece being read. *)
Fixpoint splitFrom (sep : string) (skip : nat) (s : string) : list string :=
  match s with
  | "" => [""]
  | String c s' =>
      match skip with
      | S k => splitFrom sep k s'
      | O =>
          if startsWith sep s
          then "" :: splitFrom sep (Nat.pred (String.length sep)) s'
          else match splitFrom sep O s' with
               | piece :: pieces => String c piece :: pieces
               | [] => [String c ""]
               end
      end
  end.

Definition split (sep s : string) : list string := splitFrom sep O s.

(** [a.join(sep)] on an array of strings. *)
Fixpoint join (sep : string) (a : list string) : string :=
  match a with
  | [] => ""
  | [x] => x
  | x :: rest => x ++ sep ++ join sep rest
  end.

Fixpoint repeatChar (c : ascii) (n : nat) : string :=
  match n with
  | O => ""
  | S k => String c (repeatChar c k)
  end.

(** [s.padStart(n, c)] for a one-character filler. *)
Definition padStart (n : nat) (c : ascii) (s : string) : string :=
  repeatChar c (n - String.length s) ++ s.

(** ** parseInt(s, radix), for [2 <= radix <= 36]

    White space and a sign are passed over, the prefix [0x] too when the
    radix is 16; the digits that follow are read as far as they go and their
    value is rounded to a double once; what comes after them is ignored. *)

Definition isWhiteSpace (c : ascii) : bool :=
  let n := charCode c in
  ((9 <=? n) && (n <=? 13)) || (n =? 32) || (n =? 160).

Fixpoint trimStart (s : string) : string :=
  match s with
  | "" => ""
  | String c s' => if isWhiteSpace c then trimStart s' else s
  end.

Definition digitValue (c : ascii) : option Z :=
  let n := charCode c in
  if (48 <=? n) && (n <=? 57) then Some (n - 48)
  else if (97 <=? n) && (n <=? 122) then Some (n - 87)
  else if (65 <=? n) && (n <=? 90) then Some (n - 55)
  else None.

(** The value of the longest prefix of digits of the radix, [None] when the
    prefix is empty. *)
Fixpoint digits (radix : Z) (s : string) (acc : option Z) : option Z :=
  match s with
  | "" => acc
  | String c s' =>
      match digitValue c with
      | Some d =>
          if d <? radix
          then digits radix s'
                 (Some (match acc with Some a => a * radix + d | None => d end))
          else acc
      | None => acc
      end
  end.

Definition stripSign (s : string) : bool * string :=
  match s with
  | String "-" r => (true, r)
  | String "+" r => (false, r)
  | _ => (false, s)
  end.

Definition stripHexPrefix (s : string) : string :=
  match s with
  | String "0" (String "x" r) => r
  | String "0" (String "X" r) => r
  | _ => s
  end.

Definition parseInt (s : string) (radix : Z) : number :=
  let '(negative, s1) := stripSign (trimStart s) in
  let s2 := if radix =? 16 then stripHexPrefix s1 else s1 in
  match digits radix s2 None with
  | None => NaN
  | Some v => double (if negative then - v else v)
  end.

(** ** Number to string *)

(** [String(z)] for an integer (below [10^21] in absolute value, where
    JavaScript still prints every digit). *)
Definition toString (z : Z) : string :=
  DecimalString.NilZero.string_of_int (Z.to_int z).

(** [x.toString(16)] *)
Definition toString16 (x : number) : string :=
  match x with
  | NaN => "NaN"
  | Inf false => "Infinity"
  | Inf true => "-Infinity"
  | Fin z =>
      let h := HexadecimalString.NilZero.string_of_uint
                 (N.to_hex_uint (Z.to_N (Z.abs z))) in
      if z <? 0 then "-" ++ h else h
  end.

(** [s.trim()]: the white space of both ends is taken off. *)
Fixpoint trimEnd (s : string) : string :=
  match s with
  | "" => ""
  | String c s' =>
      let r := trimEnd s' in
      if isWhiteSpace c && (r =? "")%string then "" else String c r
  end.

Definition trim (s : string) : string := trimEnd (trimStart s).

(** A word character of a regular expression: [[A-Za-z0-9_]]. *)
Definition isWordChar (c : ascii) : bool :=
  let n := charCode c in
  ((48 <=? n) && (n <=? 57)) || ((65 <=? n) && (n <=? 90))
  || ((97 <=? n) && (n <=? 122)) || (n =? 95).

(** The line feed of a template that runs over several lines. *)
Definition newline : string := String (ascii_of_nat 10) "".

(** [x.toString(2)] *)
Fixpoint binaryDigits (p : positive) (acc : string) : string :=
  match p with
  | xH => String "1" acc
  | xO q => binaryDigits q (String "0" acc)
  | xI q => binaryDigits q (String "1" acc)
  end.

Definition toString2 (x : number) : string :=
  match x with
  | NaN => "NaN"
  | Inf false => "Infinity"
  | Inf true => "-Infinity"
  | Fin Z0 => "0"
  | Fin (Zpos p) => binaryDigits p ""
  | Fin (Zneg p) => "-" ++ binaryDigits p ""
  end.

(** [s.toUpperCase()] for a text of ASCII characters, as [toString(16)]
    gives. *)
Definition upperChar (c : ascii) : ascii :=
  let n := charCode c in
  if (97 <=? n) && (n <=? 122) then ascii_of_N (Z.to_N (n - 32)) else c.

Fixpoint toUpperCase (s : string) : string :=
  match s with
  | "" => ""
  | String c s' => String (upperChar c) (toUpperCase s')
  end.

End JS.


(* ================================================================== *)
(** * The class [Utils] *)
(* ================================================================== *)

Module Utils.
Import JS.

(** [ipVersion: 4 | 6] *)
Inductive IPVersion : Type := V4 | V6.

(** [interface SubnetInfo]; an optional field is an [option]. *)
Record SubnetInfo : Type := mkSubnetInfo {
  network : string;
  broadcast : option string;
  firstHost : option string;
  lastHost : option string;
  subnetMask : option string;
  wildcardMask : option string;
  totalHosts : Z;
  usableHosts : Z;
  cidr : Z;
  ipVersion : IPVersion;
  networkClass : option string;
  isPrivate : option bool;
  prefix : option string
}.

(** [Number.MAX_SAFE_INTEGER] *)
Definition MAX_SAFE_INTEGER : Z := 2 ^ 53 - 1.

(** [intToIPv4(int)]: the argument is the integer the 32-bit operators
    start from. *)
Definition intToIPv4 (int : Z) : string :=
  join "." (map toString
              [ band (shru int 24) 0xFF;
                band (shru int 16) 0xFF;
                band (shru int 8) 0xFF;
                band int 0xFF ]).

(** [isPrivateIPv4(ipInt)] *)
Definition isPrivateIPv4 (ipInt : Z) : bool :=
  let ip0 := band (shru ipInt 24) 0xFF in
  let ip1 := band (shru ipInt 16) 0xFF in
  (ip0 =? 10)
  || ((ip0 =? 172) && (16 <=? ip1) && (ip1 <=? 31))
  || ((ip0 =? 192) && (ip1 =? 168)).

(** The callback of [ipParts.map] in [calculateIPv4Subnet] and in
    [isIPv4InSubnet]: the octet, or [null]. *)
Definition octet (part : string) : option Z :=
  match parseInt part 10 with
  | Fin num => if (num <? 0) || (255 <? num) then None else Some num
  | Inf _ => None
  | NaN => None
  end.

(** The network class of a first octet. *)
Definition classOf (firstOctet : Z) : string :=
  if (1 <=? firstOctet) && (firstOctet <=? 126) then "A"
  else if (128 <=? firstOctet) && (firstOctet <=? 191) then "B"
  else if (192 <=? firstOctet) && (firstOctet <=? 223) then "C"
  else if (224 <=? firstOctet) && (firstOctet <=? 239) then "D (Multicast)"
  else if (240 <=? firstOctet) && (firstOctet <=? 255) then "E (Reserved)"
  else "".

(** [calculateIPv4Subnet(ip, cidr)]; [None] is [null]. *)
Definition calculateIPv4Subnet (ip : string) (cidr : Z) : option SubnetInfo :=
  if (cidr <? 0) || (32 <? cidr) then None
  else
    let ipParts := split "." ip in
    if negb (List.length ipParts =? 4)%nat then None
    else
      match map octet ipParts with
      | [Some o0; Some o1; Some o2; Some o3] =>
          let ipInt := shl o0 24 + shl o1 16 + shl o2 8 + o3 in
          let hostBits := 32 - cidr in
          let subnetMask := shru (shl 0xFFFFFFFF hostBits) 0 in
          let networkInt := shru (band ipInt subnetMask) 0 in
          let broadcastInt := shru (bor networkInt (shru 0xFFFFFFFF cidr)) 0 in
          let network := intToIPv4 networkInt in
          let broadcast := intToIPv4 broadcastInt in
          let subnetMaskStr := intToIPv4 subnetMask in
          let wildcardMask := intToIPv4 (shru (bnot subnetMask) 0) in
          let firstHostInt := networkInt + 1 in
          let lastHostInt := broadcastInt - 1 in
          let firstHost := if 1 <? hostBits then intToIPv4 firstHostInt else network in
          let lastHost := if 1 <? hostBits then intToIPv4 lastHostInt else network in
          let totalHosts := 2 ^ hostBits in
          let usableHosts := Z.max 0 (totalHosts - 2) in
          let networkClass := classOf o0 in
          let isPrivate := isPrivateIPv4 networkInt in
          Some {| network := network;
                  broadcast := Some broadcast;
                  firstHost := Some firstHost;
                  lastHost := Some lastHost;
                  subnetMask := Some subnetMaskStr;
                  wildcardMask := Some wildcardMask;
                  totalHosts := totalHosts;
                  usableHosts := usableHosts;
                  cidr := cidr;
                  ipVersion := V4;
                  networkClass := Some networkClass;
                  isPrivate := Some isPrivate;
                  prefix := None |}
      | _ => None
      end.

(** [expandIPv6(ip)].  [Array(missingParts)] throws a RangeError on a
    negative length, which the [catch] turns into [null]. *)
Definition expandIPv6 (ip : string) : option string :=
  if includes "::" ip then
    let parts := split "::" ip in
    if (2 <? List.length parts)%nat then None
    else
      let parts0 := nth 0 parts "" in
      let parts1 := nth 1 parts "" in
      let leftParts := if (parts0 =? "")%string then [] else split ":" parts0 in
      let rightParts := if (parts1 =? "")%string then [] else split ":" parts1 in
      let missingParts :=
        8 - Z.of_nat (List.length leftParts) - Z.of_nat (List.length rightParts) in
      if missingParts <? 0 then None
      else
        let expandedParts :=
          (leftParts ++ repeat "0000" (Z.to_nat missingParts) ++ rightParts)%list in
        Some (join ":" (map (padStart 4 "0") expandedParts))
  else
    let parts := split ":" ip in
    if negb (List.length parts =? 8)%nat then None
    else Some (join ":" (map (padStart 4 "0") parts)).

(** The loop of [calculateIPv6Network]: [count] iterations from index [i].
    A missing [parts[i]] is [undefined], which [join] prints as the empty
    string and [parseInt] reads as NaN, like the empty string. *)
Fixpoint networkParts (parts : list string) (count i : nat) (remainingBits : Z)
  : list string :=
  match count with
  | O => []
  | S count' =>
      if 16 <=? remainingBits then
        nth i parts "" :: networkParts parts count' (S i) (remainingBits - 16)
      else if 0 <? remainingBits then
        let hexVal := parseInt (nth i parts "") 16 in
        let mask := band (shl 0xFFFF (16 - remainingBits)) 0xFFFF in
        let networkVal := shru (band (integral hexVal) mask) 0 in
        padStart 4 "0" (toString16 (Fin networkVal))
          :: networkParts parts count' (S i) 0
      else
        "0000" :: networkParts parts count' (S i) remainingBits
  end.

(** [calculateIPv6Network(expandedIP, cidr)] *)
Definition calculateIPv6Network (expandedIP : string) (cidr : Z) : string :=
  let parts := split ":" expandedIP in
  join ":" (networkParts parts 8 0 cidr).

(** [isPrivateIPv6(expandedIP)] *)
Definition isPrivateIPv6 (expandedIP : string) : bool :=
  startsWith "fd" expandedIP
  || startsWith "fc" expandedIP
  || startsWith "fe80" expandedIP
  || (expandedIP =? "0000:0000:0000:0000:0000:0000:0000:0001")%string.

(** [calculateIPv6Subnet(ip, cidr)]; the subtraction [totalHosts - 2] is a
    subtraction of doubles. *)
Definition calculateIPv6Subnet (ip : string) (cidr : Z) : option SubnetInfo :=
  if (cidr <? 0) || (128 <? cidr) then None
  else
    match expandIPv6 ip with
    | None => None
    | Some expandedIP =>
        if (expandedIP =? "")%string then None
        else
          let network := calculateIPv6Network expandedIP cidr in
          let hostBits := 128 - cidr in
          let totalHosts :=
            if 64 <=? hostBits then MAX_SAFE_INTEGER else 2 ^ hostBits in
          let usableHosts := Z.max 0 (roundDouble (totalHosts - 2)) in
          let firstHost := network in
          let lastHost := network in
          let isPrivate := isPrivateIPv6 expandedIP in
          Some {| network := network;
                  broadcast := None;
                  firstHost := Some firstHost;
                  lastHost := Some lastHost;
                  subnetMask := None;
                  wildcardMask := None;
                  totalHosts := totalHosts;
                  usableHosts := usableHosts;
                  cidr := cidr;
                  ipVersion := V6;
                  networkClass := None;
                  isPrivate := Some isPrivate;
                  prefix := Some (network ++ "/" ++ toString cidr) |}
    end.

(** [calculateSubnet(input)].  An infinite [cidr] fails the range test of
    either branch. *)
Definition calculateSubnet (input : string) : option SubnetInfo :=
  if negb (includes "/" input) then
    let ipStr := input in
    if includes ":" ipStr
    then calculateIPv6Subnet ipStr 128
    else calculateIPv4Subnet ipStr 32
  else
    let parts := split "/" input in
    let ipStr := nth 0 parts "" in
    match parseInt (nth 1 parts "") 10 with
    | NaN => None
    | Inf _ => None
    | Fin cidr =>
        if includes ":" ipStr
        then calculateIPv6Subnet ipStr cidr
        else calculateIPv4Subnet ipStr cidr
    end.

(** The result of a containment check: [{result: boolean, error?: string}]. *)
Record CheckResult : Type := mkCheckResult {
  result : bool;
  error : option string
}.

(** The integer of a dotted network text, as [isIPv4InSubnet] and
    [generateSubnetList] compute it: the octets are not validated, a missing
    one is [undefined], which the operators treat as NaN. *)
Definition networkIntOf (network : string) : number :=
  let networkParts := split "." network in
  let networkOctets := map (fun part => parseInt part 10) networkParts in
  let o k := nth k networkOctets NaN in
  add (Fin (shl (integral (o 0%nat)) 24
            + shl (integral (o 1%nat)) 16
            + shl (integral (o 2%nat)) 8))
      (o 3%nat).

(** [isIPv4InSubnet(ip, subnetInfo)] *)
Definition isIPv4InSubnet (ip : string) (subnetInfo : SubnetInfo) : CheckResult :=
  let ipParts := split "." ip in
  if negb (List.length ipParts =? 4)%nat then
    {| result := false; error := Some "Invalid IPv4 address format" |}
  else
    match map octet ipParts with
    | [Some o0; Some o1; Some o2; Some o3] =>
        let ipInt := shl o0 24 + shl o1 16 + shl o2 8 + o3 in
        let networkInt := networkIntOf (network subnetInfo) in
        let hostBits := 32 - cidr subnetInfo in
        let subnetMask := shru (shl 0xFFFFFFFF hostBits) 0 in
        let ipNetwork := shru (band ipInt subnetMask) 0 in
        let targetNetwork := shru (band (integral networkInt) subnetMask) 0 in
        {| result := ipNetwork =? targetNetwork; error := None |}
    | _ => {| result := false; error := Some "Invalid IPv4 address" |}
    end.

(** An array element read at an index: [None] is [undefined]. *)
Definition elemStrictEq (x y : option number) : bool :=
  match x, y with
  | None, None => true
  | Some a, Some b => strictEq a b
  | _, _ => false
  end.

Definition elemIntegral (x : option number) : Z :=
  match x with
  | Some a => integral a
  | None => 0
  end.

(** The loop of [isIPv6InSubnet]: [false] when an iteration returns
    [{result: false}], [true] when the loop ends or breaks. *)
Fixpoint prefixBitsMatch (ipParts networkParts : list number)
    (count i : nat) (remainingBits : Z) : bool :=
  match count with
  | O => true
  | S count' =>
      let ipPart := nth_error ipParts i in
      let networkPart := nth_error networkParts i in
      if 16 <=? remainingBits then
        if negb (elemStrictEq ipPart networkPart) then false
        else prefixBitsMatch ipParts networkParts count' (S i) (remainingBits - 16)
      else if 0 <? remainingBits then
        let mask := band (shl 0xFFFF (16 - remainingBits)) 0xFFFF in
        if negb (band (elemIntegral ipPart) mask =? band (elemIntegral networkPart) mask)
        then false
        else true
      else true
  end.

(** A string in a condition: the empty string is falsy. *)
Definition truthy (s : option string) : bool :=
  match s with
  | Some s' => negb (s' =? "")%string
  | None => false
  end.

(** [isIPv6InSubnet(ip, subnetInfo)] *)
Definition isIPv6InSubnet (ip : string) (subnetInfo : SubnetInfo) : CheckResult :=
  let expandedIP := expandIPv6 ip in
  let expandedNetwork := expandIPv6 (network subnetInfo) in
  match expandedIP, expandedNetwork with
  | Some eIP, Some eNetwork =>
      if negb (truthy expandedIP) || negb (truthy expandedNetwork) then
        {| result := false; error := Some "Invalid IPv6 address format" |}
      else
        let ipParts := map (fun part => parseInt part 16) (split ":" eIP) in
        let networkParts := map (fun part => parseInt part 16) (split ":" eNetwork) in
        {| result := prefixBitsMatch ipParts networkParts 8 0 (cidr subnetInfo);
           error := None |}
  | _, _ => {| result := false; error := Some "Invalid IPv6 address format" |}
  end.

(** [isIPInSubnet(ip, subnetInfo)] *)
Definition isIPInSubnet (ip : string) (subnetInfo : SubnetInfo) : CheckResult :=
  let cleanIP := if includes "/" ip then nth 0 (split "/" ip) "" else ip in
  match ipVersion subnetInfo with
  | V4 => isIPv4InSubnet cleanIP subnetInfo
  | V6 => isIPv6InSubnet cleanIP subnetInfo
  end.

(** [networkInt + (i * subnetSize)] as [intToIPv4] sees it, that is, cut to
    its integer part.  [subnetSize] is [Math.pow(2, hostBits)]: a fraction
    when [newCidr] exceeds 32. *)
Definition subnetNetworkInt (networkInt : number) (hostBits i : Z) : Z :=
  if 0 <=? hostBits then
    integral (add networkInt (mul (Fin i) (pow2 hostBits)))
  else
    match networkInt with
    | Fin n => Z.quot (roundDouble (n * 2 ^ (- hostBits) + i)) (2 ^ (- hostBits))
    | _ => 0
    end.

(** An array of numbers that assignments may extend: [None] is a hole. *)
Definition getPart (a : list (option number)) (j : nat) : number :=
  match nth j a None with
  | Some x => x
  | None => NaN
  end.

Fixpoint setPart (a : list (option number)) (j : nat) (v : number)
  : list (option number) :=
  match j, a with
  | O, [] => [Some v]
  | O, _ :: rest => Some v :: rest
  | S k, [] => None :: setPart [] k v
  | S k, x :: rest => x :: setPart rest k v
  end.

(** The inner loop of the IPv6 branch of [generateSubnetList],
    [for (j = incrementPart; j >= 0 && carry > 0; j--)], with [count = j + 1]. *)
Fixpoint addCarry (bitsInPart : Z) (count : nat) (carry : Z)
    (newParts : list (option number)) : list (option number) :=
  match count with
  | O => newParts
  | S j =>
      if 0 <? carry then
        let increment := shl carry (16 - bitsInPart) in
        let newParts' :=
          setPart newParts j
            (Fin (band (integral (add (getPart newParts j) (Fin increment))) 0xFFFF)) in
        addCarry bitsInPart j (carry / 2 ^ bitsInPart) newParts'
      else newParts
  end.

(** The callback that prints a part; [map] leaves a hole in place and
    [join] prints it as the empty string. *)
Definition printPart (part : option number) : string :=
  match part with
  | Some x => padStart 4 "0" (toString16 x)
  | None => ""
  end.

(** The indices [0 .. n-1] of a loop. *)
Definition indices (n : Z) : list Z := map Z.of_nat (seq 0 (Z.to_nat n)).

(** [generateSubnetList(originalSubnet, newCidr)]; [newCidr] is an integer,
    as [parseInt] gives it to the caller. *)
Definition generateSubnetList (originalSubnet : SubnetInfo) (newCidr : Z)
  : list string :=
  if newCidr <=? cidr originalSubnet then []
  else
    let bitsAdded := newCidr - cidr originalSubnet in
    let numSubnets := 2 ^ bitsAdded in
    let maxDisplay := Z.min numSubnets 256 in
    match ipVersion originalSubnet with
    | V4 =>
        let networkInt := networkIntOf (network originalSubnet) in
        let hostBits := 32 - newCidr in
        map (fun i =>
               let subnetNetwork := intToIPv4 (subnetNetworkInt networkInt hostBits i) in
               subnetNetwork ++ "/" ++ toString newCidr)
            (indices maxDisplay)
    | V6 =>
        let expandedNetwork := expandIPv6 (network originalSubnet) in
        match expandedNetwork with
        | Some eNetwork =>
            if truthy expandedNetwork then
              let parts := split ":" eNetwork in
              let baseParts := map (fun part => Some (parseInt part 16)) parts in
              let incrementPart := (newCidr - 1) / 16 in
              let bitsInPart := Z.rem newCidr 16 in
              map (fun i =>
                     let newParts :=
                       addCarry bitsInPart (Z.to_nat (incrementPart + 1)) i baseParts in
                     let newNetwork := join ":" (map printPart newParts) in
                     newNetwork ++ "/" ++ toString newCidr)
                  (indices maxDisplay)
            else []
        | None => []
        end
    end.

(** What the callers of [processInput(input, format)] read of its result:
    the fields [error] and [subnetInfo] ([resultError] here, the name
    [error] being taken).  The fields [input], [output], [format] and
    [timestamp] are left out: the text of [output] depends on the locale and
    [timestamp] on the clock.  Nothing in the [try] block throws, so the
    [catch] branch is never taken. *)
Record ProcessResult : Type := mkProcessResult {
  resultError : option string;
  subnetInfo : option SubnetInfo
}.

Definition processInput (input : string) : ProcessResult :=
  if (trim input =? "")%string then
    {| resultError := Some "IP address cannot be empty"; subnetInfo := None |}
  else
    match calculateSubnet (trim input) with
    | None =>
        {| resultError := Some "Invalid IP address or CIDR notation";
           subnetInfo := None |}
    | Some info => {| resultError := None; subnetInfo := Some info |}
    end.

(** [getAvailableOptions()] *)
Definition getAvailableOptions : list string :=
  [ "Network Info"; "Host Range"; "Subnet Summary"; "Binary Notation";
    "Hexadecimal"; "Network Classes"; "VLSM Analysis"; "Supernet Info";
    "IPv6 Compression"; "Route Aggregation" ].

(** [isValidOption(option)] *)
Definition isValidOption (option : string) : bool :=
  let availableOptions := getAvailableOptions in
  existsb (String.eqb option) availableOptions
  || (0 <? String.length (trim option))%nat.

End Utils.

(* ================================================================== *)
(** * The class [App] (main.ts) *)
(* ================================================================== *)

Module App.
Import Utils.

(** What [renderSubnetList(originalSubnet, newCidr)] shows: the text of the
    heading [h3] and the text of the list [pre], with the two counts they
    are built from ([totalSubnets] is exact up to [2^1023], far above the
    128 bits a caller can add). *)
Record SubnetListView : Type := mkSubnetListView {
  heading : string;
  subnetContent : string;
  displayCount : Z;
  totalSubnets : Z
}.

(** The shift of [handleProcess], once the original subnet is computed:
    [shiftCidrText] is the trimmed text of the shift field and
    [lastSubnetInfo] the original result.  No shift is made for an empty
    text; otherwise an error message is shown or the shifted result kept. *)
Inductive ShiftOutcome : Type :=
  | NoShift
  | ShiftError (message : string)
  | Shifted (shifted : ProcessResult).

Definition shiftedInput (lastSubnetInfo : SubnetInfo) (newCidr : Z) : string :=
  let baseIp := network lastSubnetInfo in
  baseIp ++ "/" ++ JS.toString newCidr.

Definition shiftedResult (lastSubnetInfo : SubnetInfo) (shiftCidrText : string)
  : ShiftOutcome :=
  if (shiftCidrText =? "")%string then NoShift
  else
    let maxCidr := match ipVersion lastSubnetInfo with V4 => 32 | V6 => 128 end in
    let rangeError :=
      ShiftError ("CIDR must be between 0 and " ++ JS.toString maxCidr ++ " for IPv"
                  ++ match ipVersion lastSubnetInfo with V4 => "4" | V6 => "6" end) in
    match JS.parseInt shiftCidrText 10 with
    | JS.NaN =>
        ShiftError "Please enter a valid CIDR number (0-32 for IPv4, 0-128 for IPv6)"
    | JS.Inf _ => rangeError
    | JS.Fin newCidr =>
        if (newCidr <? 0) || (maxCidr <? newCidr) then rangeError
        else
          let r := processInput (shiftedInput lastSubnetInfo newCidr) in
          match resultError r with
          | Some e => ShiftError e
          | None => Shifted r
          end
    end.

(** [compressIPv6(ipv6)]: three replacements in a row.

    [replace(/\b0+/g, '')] deletes every run of zeros that starts at a word
    boundary, that is, at the start of the text or after a character that is
    not a word character.  [afterWord] tells whether the character before is
    a word character, [inMatch] whether a run is being deleted. *)
Fixpoint dropBoundaryZeros (afterWord inMatch : bool) (s : string) : string :=
  match s with
  | "" => ""
  | String c s' =>
      if Ascii.eqb c "0" && (inMatch || negb afterWord)
      then dropBoundaryZeros true true s'
      else String c (dropBoundaryZeros (JS.isWordChar c) false s')
  end.

(** [replace(/:0+/g, ':')] deletes the zeros that follow a colon. *)
Fixpoint dropZerosAfterColon (afterColon : bool) (s : string) : string :=
  match s with
  | "" => ""
  | String c s' =>
      if Ascii.eqb c "0" && afterColon then dropZerosAfterColon true s'
      else String c (dropZerosAfterColon (Ascii.eqb c ":") s')
  end.

(** [replace(/::+/g, '::')] keeps two colons of every run of two or more;
    [seen] counts the colons of the run read so far. *)
Fixpoint squeezeColons (seen : nat) (s : string) : string :=
  match s with
  | "" => ""
  | String c s' =>
      if Ascii.eqb c ":" then
        if (seen <? 2)%nat then String c (squeezeColons (S seen) s')
        else squeezeColons seen s'
      else String c (squeezeColons 0 s')
  end.

Definition compressIPv6 (ipv6 : string) : string :=
  squeezeColons 0 (dropZerosAfterColon false (dropBoundaryZeros false false ipv6)).

(** ['${x}'] for a field that may be missing, and [x ? 'Yes' : 'No']. *)
Definition fieldText (x : option string) : string :=
  match x with
  | Some s => s
  | None => "undefined"
  end.

Definition yesNo (x : option bool) : string :=
  match x with
  | Some true => "Yes"
  | _ => "No"
  end.

Section Locale.

(** [n.toLocaleString()] depends on the locale of the browser: the texts
    that hold it are given for any such function. *)
Variable toLocaleString : Z -> string.

(** [renderSubnetList(originalSubnet, newCidr)]: [None] when it returns
    without rendering.  The difference [totalSubnets - 256] is a difference
    of doubles. *)
Definition renderSubnetList (originalSubnet : SubnetInfo) (newCidr : Z)
  : option SubnetListView :=
  let subnetList := generateSubnetList originalSubnet newCidr in
  if (List.length subnetList =? 0)%nat then None
  else
    let bitsAdded := newCidr - cidr originalSubnet in
    let totalSubnets := 2 ^ bitsAdded in
    let displayCount := Z.min totalSubnets 256 in
    let heading :=
      "Subnet List (" ++ JS.toString displayCount
      ++ (if 256 <? totalSubnets then " of " ++ toLocaleString totalSubnets else "")
      ++ " subnets)" in
    let subnetContent :=
      JS.join JS.newline subnetList
      ++ (if 256 <? totalSubnets
          then JS.newline ++ "... and "
               ++ toLocaleString (JS.roundDouble (totalSubnets - 256))
               ++ " more subnets"
          else "") in
    Some {| heading := heading;
            subnetContent := subnetContent;
            displayCount := displayCount;
            totalSubnets := totalSubnets |}.

(** [generateCalculationResult(input, calculation)] *)
Definition generateCalculationResult (input calculation : string) : string :=
  let result := processInput input in
  match subnetInfo result with
  | Some subnet =>
      if truthy (resultError result) then
        calculation ++ ": Error calculating subnet information"
      else
        let total :=
          if totalHosts subnet =? MAX_SAFE_INTEGER
          then "2^" ++ JS.toString (128 - cidr subnet)
          else toLocaleString (totalHosts subnet) in
        if (calculation =? "Network Info")%string then
          match ipVersion subnet with
          | V4 =>
              "Network: " ++ network subnet ++ JS.newline
              ++ "Class: " ++ fieldText (networkClass subnet) ++ JS.newline
              ++ "Private: " ++ yesNo (isPrivate subnet)
          | V6 =>
              "Network: " ++ network subnet ++ JS.newline
              ++ "IPv6 Prefix: " ++ fieldText (prefix subnet) ++ JS.newline
              ++ "Private: " ++ yesNo (isPrivate subnet)
          end
        else if (calculation =? "Host Range")%string then
          match ipVersion subnet with
          | V4 =>
              "First Host: " ++ fieldText (firstHost subnet) ++ JS.newline
              ++ "Last Host: " ++ fieldText (lastHost subnet)
          | V6 =>
              "Network: " ++ network subnet ++ JS.newline
              ++ "(IPv6 addressing differs from IPv4)"
          end
        else if (calculation =? "Subnet Summary")%string then
          "CIDR: /" ++ JS.toString (cidr subnet) ++ JS.newline
          ++ "Total: " ++ total ++ JS.newline
          ++ "Usable: " ++ toLocaleString (usableHosts subnet)
        else if (calculation =? "Binary Notation")%string then
          match ipVersion subnet with
          | V4 =>
              let parts :=
                map (fun part =>
                       JS.padStart 8 "0" (JS.toString2 (JS.parseInt part 10)))
                    (JS.split "." (network subnet)) in
              "Binary: " ++ JS.join "." parts
          | V6 => "Binary notation: IPv6 binary representation is very long"
          end
        else if (calculation =? "Hexadecimal")%string then
          match ipVersion subnet with
          | V4 =>
              let parts :=
                map (fun part =>
                       JS.toUpperCase
                         (JS.padStart 2 "0" (JS.toString16 (JS.parseInt part 10))))
                    (JS.split "." (network subnet)) in
              "Hex: " ++ JS.join "." parts
          | V6 => "Hex: " ++ network subnet ++ " (already in hexadecimal)"
          end
        else if (calculation =? "Network Classes")%string then
          match ipVersion subnet with
          | V4 =>
              "Class: " ++ fieldText (networkClass subnet) ++ JS.newline
              ++ "Subnet Mask: " ++ fieldText (subnetMask subnet) ++ JS.newline
              ++ "Wildcard Mask: " ++ fieldText (wildcardMask subnet)
          | V6 => "Network classes apply to IPv4 only"
          end
        else if (calculation =? "VLSM Analysis")%string then
          "VLSM: /" ++ JS.toString (cidr subnet) ++ " provides "
          ++ toLocaleString (usableHosts subnet) ++ " usable addresses"
        else if (calculation =? "Supernet Info")%string then
          let supernetCIDR := Z.max 0 (cidr subnet - 1) in
          "Supernet: /" ++ JS.toString supernetCIDR ++ " (combines 2 networks of /"
          ++ JS.toString (cidr subnet) ++ ")"
        else if (calculation =? "IPv6 Compression")%string then
          match ipVersion subnet with
          | V6 =>
              "Compressed: " ++ network subnet ++ " can be written as "
              ++ compressIPv6 (network subnet)
          | V4 => "IPv6 compression applies to IPv6 addresses only"
          end
        else if (calculation =? "Route Aggregation")%string then
          "Route Summary: " ++ network subnet ++ "/" ++ JS.toString (cidr subnet)
          ++ " represents " ++ total ++ " addresses"
        else
          calculation ++ ": " ++ network subnet ++ "/" ++ JS.toString (cidr subnet)
  | None => calculation ++ ": Error calculating subnet information"
  end.

End Locale.

End App.

Import JS Utils.

(* ================================================================== *)
(** * Auxiliary definitions of the statements *)
(* ================================================================== *)

(** The result for 192.168.1.0/24, the network of the scenarios. *)
Definition net_192_168_1_0_24 : SubnetInfo :=
  {| network := "192.168.1.0";
     broadcast := Some "192.168.1.255";
     firstHost := Some "192.168.1.1";
     lastHost := Some "192.168.1.254";
     subnetMask := Some "255.255.255.0";
     wildcardMask := Some "0.0.0.255";
     totalHosts := 256;
     usableHosts := 254;
     cidr := 24;
     ipVersion := V4;
     networkClass := Some "C";
     isPrivate := Some true;
     prefix := None |}.

(** The octet of an address at byte position [k] (0 is the last one). *)
Definition octetAt (k : Z) (n : Z) : Z := (ToUint32 n / 2 ^ (8 * k)) mod 256.

(** The decimal text of an octet reads back as the octet and holds no dot,
    and the shifts of an octet by 16 and 8 bits are exact, the shift by 24
    bits exact modulo [2^32]: a test to run on the 256 octets. *)
Definition octetTextOk (k : Z) : bool :=
  match parseInt (toString k) 10 with
  | Fin k' =>
      (k' =? k) && negb (includes "." (toString k))
      && (shl k 16 =? k * 2 ^ 16) && (shl k 8 =? k * 2 ^ 8)
      && (ToUint32 (shl k 24) =? k * 2 ^ 24)
  | _ => false
  end.

(** The address of four octets.  The integer the program builds,
    [(o0 << 24) + (o1 << 16) + (o2 << 8) + o3], equals it modulo [2^32]
    (the first shift can make it negative). *)
Definition ipv4Value (o0 o1 o2 o3 : Z) : Z := o0 * 2 ^ 24 + o1 * 2 ^ 16 + o2 * 2 ^ 8 + o3.

(** A group of an IPv6 text, as the statements take it: not empty and
    without a colon.  Nothing more is asked: the digits are not looked at. *)
Definition isGroup (g : string) : bool :=
  negb (g =? "")%string && negb (includes ":" g).

(** The parts of a well-formed network: numbers from 0 to 0xFFFF. *)
Definition partsOf (bs : list Z) : list (option number) :=
  map (fun b => Some (Fin b)) bs.


(** The result of [calculateIPv4Subnet] for the address [a], the first octet
    [o0] of the input and the prefix length [cidr]: the fields as the program
    computes them, on the unsigned address. *)
Definition ipv4Info (a o0 cidr : Z) : SubnetInfo :=
  let m := shru (shl 0xFFFFFFFF (32 - cidr)) 0 in
  let n := Z.land a m in
  let b := Z.lor n (shru 0xFFFFFFFF cidr) in
  {| network := intToIPv4 n;
     broadcast := Some (intToIPv4 b);
     firstHost := Some (if 1 <? 32 - cidr then intToIPv4 (n + 1) else intToIPv4 n);
     lastHost := Some (if 1 <? 32 - cidr then intToIPv4 (b - 1) else intToIPv4 n);
     subnetMask := Some (intToIPv4 m);
     wildcardMask := Some (intToIPv4 (shru (bnot m) 0));
     totalHosts := 2 ^ (32 - cidr);
     usableHosts := Z.max 0 (2 ^ (32 - cidr) - 2);
     cidr := cidr;
     ipVersion := V4;
     networkClass := Some (classOf o0);
     isPrivate := Some (isPrivateIPv4 n);
     prefix := None |}.

(** A value of sixteen bits, printed as [calculateIPv6Network] prints a
    group, reads back as itself; the print has four characters, none a colon
    or a slash: a test to run on the 65536 values. *)
Definition hexGroupOk (v : Z) : bool :=
  let text := padStart 4 "0" (toString16 (Fin v)) in
  match parseInt text 16 with
  | Fin v' =>
      (v' =? v) && negb (includes ":" text) && negb (includes "/" text)
      && (String.length text =? 4)%nat
  | _ => false
  end.

(** The integers [start], [start + 1], ... : [n] of them. *)
Fixpoint zrange (start : Z) (n : nat) : list Z :=
  match n with
  | O => []
  | S k => start :: zrange (start + 1) k
  end.

(** The usable addresses of an IPv6 prefix longer than 64 bits: the
    subtraction of 2 is lost by rounding while the count has more than 54
    bits. *)
Definition usableAbove64 (cidr : Z) : Z :=
  if cidr <=? 73 then 2 ^ (128 - cidr)
  else if cidr <=? 126 then 2 ^ (128 - cidr) - 2
  else 0.

(** A text whose last character is not white space. *)
Fixpoint endsClean (s : string) : bool :=
  match s with
  | "" => false
  | String c s' =>
      match s' with
      | "" => negb (isWhiteSpace c)
      | _ => endsClean s'
      end
  end.

(** A text whose first character is not white space. *)
Definition startsClean (s : string) : bool :=
  match s with
  | "" => false
  | String c _ => negb (isWhiteSpace c)
  end.

(** The decimal text of a number up to 255 has no white space at its ends,
    no slash and no colon: a test to run on the 256 values. *)
Definition numberTextOk (k : Z) : bool :=
  startsClean (toString k) && endsClean (toString k)
  && negb (includes "/" (toString k)) && negb (includes ":" (toString k)).

(** The mask of the group a prefix ends in, [remainingBits] bits into the
    group, and the test that a longer prefix keeps what a shorter one kept:
    to run on the pairs of 1 .. 15. *)
Definition groupMask (remainingBits : Z) : Z :=
  band (shl 0xFFFF (16 - remainingBits)) 0xFFFF.

Definition groupMasksNested (rb : Z) : bool :=
  forallb (fun rb' =>
             if rb <=? rb'
             then Z.land (groupMask rb) (groupMask rb') =? groupMask rb
             else true)
          (zrange 1 15).

(** A text without its leading zeros. *)
Fixpoint stripZeros (g : string) : string :=
  match g with
  | "" => ""
  | String c g' => if Ascii.eqb c "0" then stripZeros g' else g
  end.

(** A group made of word characters, as the hexadecimal digits are. *)
Fixpoint wordGroup (g : string) : bool :=
  match g with
  | "" => true
  | String c g' => isWordChar c && wordGroup g'
  end.

(** The counts of an IPv6 result of prefix length [c]: the usable count is
    between 0 and the total, which is at least 1.  A test to run on the
    prefix lengths 0 .. 128. *)
Definition ipv6CountsOk (c : Z) : bool :=
  let totalHosts := if 64 <=? 128 - c then MAX_SAFE_INTEGER else 2 ^ (128 - c) in
  let usableHosts := Z.max 0 (roundDouble (totalHosts - 2)) in
  (0 <=? usableHosts) && (usableHosts <=? totalHosts) && (1 <=? totalHosts).

(** An octet in binary and in hexadecimal notation, as
    [generateCalculationResult] writes it, and the test that both have their
    full width and read back as the octet: to run on the 256 octets. *)
Definition octetBinary (o : Z) : string := padStart 8 "0" (toString2 (Fin o)).

Definition octetHex (o : Z) : string :=
  toUpperCase (padStart 2 "0" (toString16 (Fin o))).

Definition octetNotationOk (o : Z) : bool :=
  (String.length (octetBinary o) =? 8)%nat
  && strictEq (parseInt (octetBinary o) 2) (Fin o)
  && (String.length (octetHex o) =? 2)%nat
  && strictEq (parseInt (octetHex o) 16) (Fin o).

(** The first group of an expanded address, printed from its value [v]:
    the prefixes [isPrivateIPv6] looks for are found exactly in the ranges
    fc00 .. fdff and at fe80, and the group is 0000 exactly for 0.  A test
    to run on the 65536 values. *)
Definition privateGroupOk (v : Z) : bool :=
  let g := padStart 4 "0" (toString16 (Fin v)) in
  Bool.eqb (startsWith "fd" g || startsWith "fc" g || startsWith "fe80" g)
           (((64512 <=? v) && (v <=? 65023)) || (v =? 65152))
  && Bool.eqb (g =? "0000")%string (v =? 0).

(** A decimal digit, and a text of decimal digits. *)
Definition isDecimalDigit (c : ascii) : bool :=
  (48 <=? charCode c) && (charCode c <=? 57).

Fixpoint allDecimalDigits (s : string) : bool :=
  match s with
  | "" => true
  | String c s' => isDecimalDigit c && allDecimalDigits s'
  end.

(** A text that does not start with a decimal digit: it may be empty. *)
Definition noDigitAhead (s : string) : bool :=
  match s with
  | "" => true
  | String c _ => negb (isDecimalDigit c)
  end.

(** A text that starts with no number in base 10: it is empty, or its first
    character is neither white space nor a sign nor a decimal digit. *)
Definition noNumberAhead (s : string) : bool :=
  match s with
  | "" => true
  | String c _ =>
      negb (isDecimalDigit c) && negb (isWhiteSpace c)
      && negb (Ascii.eqb c "+") && negb (Ascii.eqb c "-")
  end.

(** The decimal text of a number up to 255 is made of decimal digits, one
    at least: a test to run on the 256 values. *)
Definition decimalTextOk (k : Z) : bool :=
  allDecimalDigits (toString k) && negb (toString k =? "")%string.

(* ================================================================== *)
(** * The primitives and the scenarios of the specification, computed *)
(* ================================================================== *)

Section Scenarios.

Example parseInt_reads_a_prefix :
  parseInt "42" 10 = Fin 42 /\ parseInt " -7x" 10 = Fin (-7)
  /\ parseInt "4abc" 10 = Fin 4 /\ parseInt "abc" 10 = NaN
  /\ parseInt "" 10 = NaN /\ parseInt "0db8" 16 = Fin 3512
  /\ parseInt "0x1F" 16 = Fin 31 /\ parseInt "zzzz" 16 = NaN.
Proof. repeat split; reflexivity. Qed.

Example doubles_round_to_even :
  roundDouble (2 ^ 53 + 1) = 2 ^ 53 /\ roundDouble (2 ^ 53 + 3) = 2 ^ 53 + 4
  /\ roundDouble (2 ^ 55 - 2) = 2 ^ 55 /\ roundDouble (2 ^ 54 - 2) = 2 ^ 54 - 2
  /\ parseInt "9007199254740993" 10 = Fin 9007199254740992.
Proof. repeat split; reflexivity. Qed.

Example shift_counts_wrap :
  shl 0xFFFFFFFF 32 = -1 /\ shru (shl 0xFFFFFFFF 32) 0 = 0xFFFFFFFF
  /\ shru (shl 0xFFFFFFFF 8) 0 = 0xFFFFFF00 /\ shru 0xFFFFFFFF 32 = 0xFFFFFFFF
  /\ shl 192 24 = -1073741824.
Proof. repeat split; reflexivity. Qed.

Example split_pieces :
  split "." "192.168.1.0" = ["192"; "168"; "1"; "0"]
  /\ split "::" "2001:db8::1" = ["2001:db8"; "1"]
  /\ split "::" "1::2::3" = ["1"; "2"; "3"]
  /\ split "::" ":::" = [""; ":"]
  /\ split ":" "" = [""]
  /\ split "/" "10.0.0.0/8" = ["10.0.0.0"; "8"].
Proof. repeat split; reflexivity. Qed.

(** Scenario: 192.168.1.0/24. *)
Example scenario_192_168_1_0_24 :
  calculateSubnet "192.168.1.0/24" = Some net_192_168_1_0_24.
Proof. vm_compute. reflexivity. Qed.

(** Scenario: 2001:db8::/64. *)
Example scenario_2001_db8_64 :
  calculateSubnet "2001:db8::/64"
  = Some {| network := "2001:0db8:0000:0000:0000:0000:0000:0000";
            broadcast := None;
            firstHost := Some "2001:0db8:0000:0000:0000:0000:0000:0000";
            lastHost := Some "2001:0db8:0000:0000:0000:0000:0000:0000";
            subnetMask := None;
            wildcardMask := None;
            totalHosts := MAX_SAFE_INTEGER;
            usableHosts := MAX_SAFE_INTEGER - 2;
            cidr := 64;
            ipVersion := V6;
            networkClass := None;
            isPrivate := Some false;
            prefix := Some "2001:0db8:0000:0000:0000:0000:0000:0000/64" |}.
Proof. vm_compute. reflexivity. Qed.

(** Scenario: 192.168.1.200 against 192.168.1.0/24 and 192.168.2.0/24. *)
Example scenario_containment :
  option_map (isIPInSubnet "192.168.1.200") (calculateSubnet "192.168.1.0/24")
  = Some {| result := true; error := None |}
  /\ option_map (isIPInSubnet "192.168.1.200") (calculateSubnet "192.168.2.0/24")
     = Some {| result := false; error := None |}
  /\ option_map (isIPInSubnet "2001:db8::5") (calculateSubnet "2001:db8::/64")
     = Some {| result := true; error := None |}
  /\ option_map (isIPInSubnet "2001:db9::5") (calculateSubnet "2001:db8::/64")
     = Some {| result := false; error := None |}.
Proof. repeat split; vm_compute; reflexivity. Qed.

End Scenarios.

(* ================================================================== *)
(** * 32-bit arithmetic *)
(* ================================================================== *)

Section Arith32.

Lemma ToUint32_range z : 0 <= ToUint32 z < 2 ^ 32.
Proof. unfold ToUint32. apply Z.mod_pos_bound. lia. Qed.

Lemma ToUint32_small z : 0 <= z < 2 ^ 32 -> ToUint32 z = z.
Proof. intros. unfold ToUint32. apply Z.mod_small. lia. Qed.

Lemma ToUint32_ToInt32 z : ToUint32 (ToInt32 z) = ToUint32 z.
Proof.
  unfold ToInt32, ToUint32.
  destruct (z mod 2 ^ 32 <? 2 ^ 31).
  - apply Z.mod_mod. lia.
  - replace (z mod 2 ^ 32 - 2 ^ 32) with (z mod 2 ^ 32 + (-1) * 2 ^ 32) by lia.
    rewrite Z.mod_add by lia. apply Z.mod_mod. lia.
Qed.

Lemma ToInt32_ToUint32 z : ToInt32 (ToUint32 z) = ToInt32 z.
Proof. unfold ToInt32, ToUint32. rewrite Z.mod_mod by lia. reflexivity. Qed.

Lemma ToInt32_small z : 0 <= z < 2 ^ 31 -> ToInt32 z = z.
Proof.
  intros H. unfold ToInt32. rewrite Z.mod_small by lia.
  destruct (Z.ltb_spec z (2 ^ 31)); lia.
Qed.

Lemma ToUint32_land a b : ToUint32 (Z.land a b) = Z.land (ToUint32 a) (ToUint32 b).
Proof.
  unfold ToUint32. rewrite <- !Z.land_ones by lia.
  apply Z.bits_inj'. intros n _. rewrite !Z.land_spec.
  destruct (Z.testbit a n), (Z.testbit b n), (Z.testbit (Z.ones 32) n); reflexivity.
Qed.

Lemma ToUint32_lor a b : ToUint32 (Z.lor a b) = Z.lor (ToUint32 a) (ToUint32 b).
Proof.
  unfold ToUint32. rewrite <- !Z.land_ones by lia.
  apply Z.bits_inj'. intros n _.
  rewrite ?Z.land_spec, ?Z.lor_spec, ?Z.land_spec.
  destruct (Z.testbit a n), (Z.testbit b n), (Z.testbit (Z.ones 32) n); reflexivity.
Qed.

Lemma shru_0 a : shru a 0 = ToUint32 a.
Proof. unfold shru. rewrite Z.mod_0_l by lia. apply Z.shiftr_0_r. Qed.

Lemma shru_band_0 a b : shru (band a b) 0 = Z.land (ToUint32 a) (ToUint32 b).
Proof.
  rewrite shru_0. unfold band. rewrite ToUint32_land, !ToUint32_ToInt32. reflexivity.
Qed.

Lemma shru_bor_0 a b : shru (bor a b) 0 = Z.lor (ToUint32 a) (ToUint32 b).
Proof.
  rewrite shru_0. unfold bor. rewrite ToUint32_lor, !ToUint32_ToInt32. reflexivity.
Qed.

Lemma ToUint32_shl a b : ToUint32 (shl a b) = (a * 2 ^ (b mod 32)) mod 2 ^ 32.
Proof.
  unfold shl. rewrite ToUint32_ToInt32. unfold ToUint32.
  rewrite Z.shiftl_mul_pow2 by (apply Z.mod_pos_bound; lia).
  rewrite Z.mul_mod by lia.
  fold (ToUint32 (ToInt32 a)). rewrite ToUint32_ToInt32. unfold ToUint32.
  rewrite <- Z.mul_mod by lia. reflexivity.
Qed.

(** The subnet mask [(0xFFFFFFFF << hostBits) >>> 0]: the expected value
    while [hostBits < 32], and all ones again at [hostBits = 32], where the
    shift count wraps to 0. *)
Lemma mask_value h : 0 <= h < 32 -> shru (shl 0xFFFFFFFF h) 0 = 2 ^ 32 - 2 ^ h.
Proof.
  intros H. rewrite shru_0, ToUint32_shl. rewrite (Z.mod_small h 32) by lia.
  replace (4294967295 * 2 ^ h) with ((2 ^ 32 - 2 ^ h) + (2 ^ h - 1) * 2 ^ 32) by lia.
  rewrite Z.mod_add by lia. apply Z.mod_small.
  assert (0 < 2 ^ h) by (apply Z.pow_pos_nonneg; lia).
  assert (2 ^ h < 2 ^ 32) by (apply Z.pow_lt_mono_r; lia). lia.
Qed.

Lemma mask_value_32 : shru (shl 0xFFFFFFFF 32) 0 = 2 ^ 32 - 1.
Proof. reflexivity. Qed.

(** [0xFFFFFFFF >>> cidr]: the host bits while [cidr < 32]. *)
Lemma shru_ones_cidr c : 0 <= c < 32 -> shru 0xFFFFFFFF c = 2 ^ (32 - c) - 1.
Proof.
  intros H. unfold shru. rewrite (Z.mod_small c 32) by lia.
  rewrite Z.shiftr_div_pow2 by lia. unfold ToUint32. rewrite Z.mod_small by lia.
  assert (0 < 2 ^ c) by (apply Z.pow_pos_nonneg; lia).
  assert (E : 2 ^ 32 = 2 ^ (32 - c) * 2 ^ c)
    by (rewrite <- Z.pow_add_r by lia; f_equal; lia).
  replace 4294967295 with (2 ^ 32 - 1) by reflexivity. rewrite E.
  symmetry. apply Z.div_unique with (r := 2 ^ c - 1); lia.
Qed.

(** Masking with the top bits clears the low [h] bits. *)
Lemma land_high_mask x h :
  0 <= h <= 32 -> 0 <= x < 2 ^ 32 -> Z.land x (2 ^ 32 - 2 ^ h) = x - x mod 2 ^ h.
Proof.
  intros Hh Hx.
  assert (E1 : 2 ^ 32 - 2 ^ h = Z.shiftl (Z.ones (32 - h)) h).
  { rewrite Z.shiftl_mul_pow2, Z.ones_equiv by lia.
    replace (2 ^ 32) with (2 ^ (32 - h) * 2 ^ h)
      by (rewrite <- Z.pow_add_r by lia; f_equal; lia). lia. }
  assert (E2 : x - x mod 2 ^ h = Z.shiftl (Z.shiftr x h) h).
  { rewrite Z.shiftl_mul_pow2, Z.shiftr_div_pow2 by lia.
    pose proof (Z.div_mod x (2 ^ h)) as D.
    assert (0 < 2 ^ h) by (apply Z.pow_pos_nonneg; lia). lia. }
  rewrite E1, E2. apply Z.bits_inj'. intros n Hn.
  rewrite Z.land_spec.
  destruct (Z.ltb_spec n h) as [L | L].
  - rewrite !Z.shiftl_spec_low by lia. apply andb_false_r.
  - rewrite !Z.shiftl_spec by lia. rewrite Z.shiftr_spec by lia.
    replace (n - h + h) with n by lia.
    destruct (Z.ltb_spec n 32) as [L2 | L2].
    + rewrite Z.ones_spec_low by lia. apply andb_true_r.
    + rewrite Z.ones_spec_high by lia. rewrite andb_false_r.
      symmetry. destruct (Z.eq_dec x 0) as [-> | Hx0]; [apply Z.bits_0 |].
      apply Z.bits_above_log2; [lia |].
      assert (Z.log2 x < 32) by (apply Z.log2_lt_pow2; lia). lia.
Qed.

(** Setting the low [h] bits of a multiple of [2^h]. *)
Lemma lor_low_ones n h :
  0 <= h -> n mod 2 ^ h = 0 -> Z.lor n (2 ^ h - 1) = n + 2 ^ h - 1.
Proof.
  intros Hh Hn.
  pose proof (Z.add_lor_land n (2 ^ h - 1)) as A.
  replace (2 ^ h - 1) with (Z.ones h) in * by (rewrite Z.ones_equiv; lia).
  rewrite Z.land_ones in A by lia. rewrite Hn in A.
  rewrite Z.ones_equiv in *. lia.
Qed.

Lemma sub_mod_aligned x h : 0 <= h -> (x - x mod 2 ^ h) mod 2 ^ h = 0.
Proof.
  intros Hh. assert (0 < 2 ^ h) by (apply Z.pow_pos_nonneg; lia).
  rewrite Zminus_mod_idemp_r. rewrite Z.sub_diag. apply Z.mod_0_l. lia.
Qed.

End Arith32.

(* ================================================================== *)
(** * Strings: splitting on a character *)
(* ================================================================== *)

Section SplitChar.

Variable c : ascii.

Lemma includes_char_cons b s :
  includes (String c "") (String b s) = Ascii.eqb c b || includes (String c "") s.
Proof. simpl. destruct s; rewrite ?andb_true_r; reflexivity. Qed.

Lemma includes_char_app a b :
  includes (String c "") (a ++ b) = includes (String c "") a || includes (String c "") b.
Proof.
  induction a as [| x a IH].
  - simpl. destruct b; reflexivity.
  - cbn [append]. rewrite !includes_char_cons, IH. apply orb_assoc.
Qed.

Lemma startsWith_char_cons b s :
  startsWith (String c "") (String b s) = Ascii.eqb c b.
Proof. simpl. apply andb_true_r. Qed.

Lemma split_char_none s :
  includes (String c "") s = false -> split (String c "") s = [s].
Proof.
  unfold split. induction s as [| b s IH]; intros H; [reflexivity |].
  rewrite includes_char_cons in H. apply orb_false_iff in H as [H1 H2].
  cbn [splitFrom]. rewrite startsWith_char_cons, H1, (IH H2). reflexivity.
Qed.

Lemma split_char_app a rest :
  includes (String c "") a = false ->
  split (String c "") (a ++ String c rest) = a :: split (String c "") rest.
Proof.
  unfold split. induction a as [| b a IH]; intros H.
  - cbn [append splitFrom]. rewrite startsWith_char_cons, Ascii.eqb_refl. reflexivity.
  - rewrite includes_char_cons in H. apply orb_false_iff in H as [H1 H2].
    cbn [append splitFrom]. rewrite startsWith_char_cons, H1, (IH H2). reflexivity.
Qed.

(** Splitting undoes joining, for pieces that do not hold the separator. *)
Lemma split_char_join (l : list string) :
  l <> [] ->
  Forall (fun s => includes (String c "") s = false) l ->
  split (String c "") (join (String c "") l) = l.
Proof.
  induction l as [| x l IH]; intros Hne Hall; [congruence |].
  inversion Hall as [| ? ? Hx Hl]; subst.
  destruct l as [| y l].
  - simpl. apply split_char_none. exact Hx.
  - change (join (String c "") (x :: y :: l))
      with (x ++ String c (join (String c "") (y :: l))).
    rewrite split_char_app by exact Hx. f_equal. apply IH; [discriminate | exact Hl].
Qed.

(** The first piece of a split is a prefix of the text. *)
Lemma split_char_head s :
  exists rest, s = nth 0 (split (String c "") s) "" ++ rest.
Proof.
  unfold split. induction s as [| b s [rest IH]].
  - exists "". reflexivity.
  - cbn [splitFrom]. destruct (startsWith (String c "") (String b s)).
    + exists (String b s). reflexivity.
    + destruct (splitFrom (String c "") 0 s) as [| p ps].
      * exists s. reflexivity.
      * exists rest. simpl in *. congruence.
Qed.

End SplitChar.

(* ================================================================== *)
(** * Doubles that are small integers *)
(* ================================================================== *)

Section Doubles.

Lemma roundDouble_small z : Z.abs z < 2 ^ 53 -> roundDouble z = z.
Proof.
  intros H. unfold roundDouble.
  assert (L : Z.log2 (Z.abs z) + 1 <= 53).
  { destruct (Z.eq_dec (Z.abs z) 0) as [-> | N]; [simpl; lia |].
    assert (Z.log2 (Z.abs z) < 53) by (apply Z.log2_lt_pow2; lia). lia. }
  destruct (Z.leb_spec (Z.log2 (Z.abs z) + 1) 53); [reflexivity | lia].
Qed.

Lemma double_small z : Z.abs z < 2 ^ 53 -> double z = Fin z.
Proof.
  intros H. unfold double. rewrite roundDouble_small by exact H.
  assert (2 ^ 53 < 2 ^ 1024) by (apply Z.pow_lt_mono_r; lia).
  destruct (Z.leb_spec (2 ^ 1024) (Z.abs z)); [lia | reflexivity].
Qed.

Lemma add_small a b : Z.abs (a + b) < 2 ^ 53 -> add (Fin a) (Fin b) = Fin (a + b).
Proof. intros H. simpl. apply double_small. exact H. Qed.

Lemma pow2_small n : 0 <= n <= 52 -> pow2 n = Fin (2 ^ n).
Proof.
  intros H. unfold pow2. apply double_small.
  assert (0 < 2 ^ n) by (apply Z.pow_pos_nonneg; lia).
  assert (2 ^ n < 2 ^ 53) by (apply Z.pow_lt_mono_r; lia). lia.
Qed.

Lemma mul_small a b : Z.abs (a * b) < 2 ^ 53 -> mul (Fin a) (Fin b) = Fin (a * b).
Proof. intros H. simpl. apply double_small. exact H. Qed.

End Doubles.

(* ================================================================== *)
(** * Dotted-decimal text *)
(* ================================================================== *)

Section DottedDecimal.

Lemma octetAt_range k n : 0 <= octetAt k n <= 255.
Proof. unfold octetAt. pose proof (Z.mod_pos_bound (ToUint32 n / 2 ^ (8 * k)) 256). lia. Qed.

Lemma band_ff x : band x 0xFF = ToUint32 x mod 256.
Proof.
  unfold band. rewrite (ToInt32_small 255) by lia.
  change 255 with (Z.ones 8). rewrite Z.land_ones by lia.
  change (2 ^ 8) with 256. unfold ToInt32, ToUint32.
  destruct (x mod 2 ^ 32 <? 2 ^ 31); [reflexivity |].
  replace (x mod 2 ^ 32 - 2 ^ 32) with (x mod 2 ^ 32 + (- 16777216) * 256) by lia.
  apply Z.mod_add. lia.
Qed.

Lemma shru_div x k : 0 <= k < 32 -> shru x k = ToUint32 x / 2 ^ k.
Proof.
  intros H. unfold shru. rewrite (Z.mod_small k 32) by lia.
  apply Z.shiftr_div_pow2. lia.
Qed.

Lemma shru_range x k : 0 <= k < 32 -> 0 <= shru x k < 2 ^ 32.
Proof.
  intros H. rewrite shru_div by exact H. pose proof (ToUint32_range x).
  assert (0 < 2 ^ k) by (apply Z.pow_pos_nonneg; lia).
  split; [apply Z.div_pos; lia |].
  apply Z.div_lt_upper_bound; [lia |]. nia.
Qed.

Lemma intToIPv4_octets n :
  intToIPv4 n =
  join "." (map toString [octetAt 3 n; octetAt 2 n; octetAt 1 n; octetAt 0 n]).
Proof.
  unfold intToIPv4, octetAt. rewrite !band_ff.
  rewrite !(ToUint32_small (shru n _)) by (apply shru_range; lia).
  rewrite !shru_div by lia.
  change (2 ^ (8 * 0)) with 1. rewrite Z.div_1_r. reflexivity.
Qed.

(** The text depends on the address modulo [2^32] only. *)
Lemma intToIPv4_ToUint32 n : intToIPv4 (ToUint32 n) = intToIPv4 n.
Proof.
  rewrite !intToIPv4_octets. unfold octetAt, ToUint32.
  rewrite Z.mod_mod by lia. reflexivity.
Qed.

Lemma intToIPv4_congr n m : ToUint32 n = ToUint32 m -> intToIPv4 n = intToIPv4 m.
Proof. intros H. rewrite <- (intToIPv4_ToUint32 n), H. apply intToIPv4_ToUint32. Qed.

(** An address is the sum of its octets. *)
Lemma octets_sum n :
  ToUint32 n = octetAt 3 n * 2 ^ 24 + octetAt 2 n * 2 ^ 16 + octetAt 1 n * 2 ^ 8 + octetAt 0 n.
Proof.
  unfold octetAt. pose proof (ToUint32_range n) as R. set (u := ToUint32 n) in *.
  change (2 ^ (8 * 3)) with 16777216. change (2 ^ (8 * 2)) with 65536.
  change (2 ^ (8 * 1)) with 256. change (2 ^ (8 * 0)) with 1.
  change (2 ^ 24) with 16777216. change (2 ^ 16) with 65536. change (2 ^ 8) with 256.
  change (2 ^ 32) with 4294967296 in R.
  pose proof (Z.div_mod u 256 ltac:(lia)).
  pose proof (Z.div_mod (u / 256) 256 ltac:(lia)).
  pose proof (Z.div_mod (u / 65536) 256 ltac:(lia)).
  rewrite Z.div_1_r.
  assert (E1 : u / 256 / 256 = u / 65536) by (rewrite Z.div_div by lia; reflexivity).
  assert (E2 : u / 65536 / 256 = u / 16777216) by (rewrite Z.div_div by lia; reflexivity).
  assert (S : (u / 16777216) mod 256 = u / 16777216).
  { apply Z.mod_small. split; [apply Z.div_pos; lia |].
    apply Z.div_lt_upper_bound; lia. }
  lia.
Qed.

Lemma octetTextOk_all : forallb octetTextOk (indices 256) = true.
Proof. vm_compute. reflexivity. Qed.

Lemma In_indices n k : 0 <= k < n -> In k (indices n).
Proof.
  intros H. unfold indices. apply in_map_iff. exists (Z.to_nat k). split; [lia |].
  apply in_seq. lia.
Qed.

Lemma octet_facts k :
  0 <= k <= 255 ->
  parseInt (toString k) 10 = Fin k /\ includes "." (toString k) = false
  /\ shl k 16 = k * 2 ^ 16 /\ shl k 8 = k * 2 ^ 8 /\ ToUint32 (shl k 24) = k * 2 ^ 24.
Proof.
  intros H. pose proof octetTextOk_all as A. rewrite forallb_forall in A.
  specialize (A k (In_indices 256 k ltac:(lia))). unfold octetTextOk in A.
  destruct (parseInt (toString k) 10); try discriminate.
  repeat (apply andb_true_iff in A as [A ?]).
  apply negb_true_iff in H3. rewrite Z.eqb_eq in *. subst. auto.
Qed.

Lemma octet_range part o : octet part = Some o -> 0 <= o <= 255.
Proof.
  unfold octet. destruct (parseInt part 10); try discriminate.
  destruct (Z.ltb_spec z 0), (Z.ltb_spec 255 z); simpl; try discriminate.
  intros [= <-]. lia.
Qed.

Lemma octet_toString k : 0 <= k <= 255 -> octet (toString k) = Some k.
Proof.
  intros H. unfold octet. destruct (octet_facts k H) as [-> _].
  destruct (Z.ltb_spec k 0), (Z.ltb_spec 255 k); simpl; (reflexivity || lia).
Qed.

Lemma ipv4Value_range o0 o1 o2 o3 :
  0 <= o0 <= 255 -> 0 <= o1 <= 255 -> 0 <= o2 <= 255 -> 0 <= o3 <= 255 ->
  0 <= ipv4Value o0 o1 o2 o3 < 2 ^ 32.
Proof. unfold ipv4Value. lia. Qed.

Lemma ipInt_value o0 o1 o2 o3 :
  0 <= o0 <= 255 -> 0 <= o1 <= 255 -> 0 <= o2 <= 255 -> 0 <= o3 <= 255 ->
  ToUint32 (shl o0 24 + shl o1 16 + shl o2 8 + o3) = ipv4Value o0 o1 o2 o3.
Proof.
  intros H0 H1 H2 H3.
  destruct (octet_facts o0 H0) as (_ & _ & _ & _ & E0).
  destruct (octet_facts o1 H1) as (_ & _ & E1 & _ & _).
  destruct (octet_facts o2 H2) as (_ & _ & _ & E2 & _).
  rewrite E1, E2. unfold ToUint32 in *.
  rewrite <- !Z.add_assoc. rewrite <- Z.add_mod_idemp_l by lia. rewrite E0.
  pose proof (ipv4Value_range o0 o1 o2 o3 H0 H1 H2 H3) as R.
  unfold ipv4Value in *. rewrite Z.mod_small by lia. lia.
Qed.

(** Splitting the text of an address gives back the four octet texts. *)
Lemma split_intToIPv4 n :
  split "." (intToIPv4 n)
  = map toString [octetAt 3 n; octetAt 2 n; octetAt 1 n; octetAt 0 n].
Proof.
  rewrite intToIPv4_octets. apply split_char_join; [discriminate |].
  repeat constructor; apply octet_facts, octetAt_range.
Qed.

(** Reading the text of an address back, as [isIPv4InSubnet] and
    [generateSubnetList] do, gives the address modulo [2^32]. *)
Lemma networkIntOf_intToIPv4 n :
  exists s,
    networkIntOf (intToIPv4 n) = Fin s /\ ToUint32 s = ToUint32 n
    /\ - 2 ^ 31 <= s < 2 ^ 32.
Proof.
  unfold networkIntOf. rewrite split_intToIPv4. cbn [map nth].
  pose proof (octetAt_range 3 n) as R3. pose proof (octetAt_range 2 n) as R2.
  pose proof (octetAt_range 1 n) as R1. pose proof (octetAt_range 0 n) as R0.
  destruct (octet_facts _ R3) as (-> & _ & _ & _ & E3).
  destruct (octet_facts _ R2) as (-> & _ & E2 & _ & _).
  destruct (octet_facts _ R1) as (-> & _ & _ & E1 & _).
  destruct (octet_facts _ R0) as (-> & _).
  cbn [integral].
  assert (B : - 2 ^ 31 <= shl (octetAt 3 n) 24 < 2 ^ 31).
  { unfold shl, ToInt32.
    set (u := Z.shiftl _ _ mod 2 ^ 32).
    assert (0 <= u < 2 ^ 32) by (apply Z.mod_pos_bound; lia).
    destruct (Z.ltb_spec u (2 ^ 31)); lia. }
  eexists. split; [| split].
  - apply add_small. rewrite E2, E1. lia.
  - rewrite ipInt_value by assumption. rewrite octets_sum. reflexivity.
  - rewrite E2, E1. lia.
Qed.

(** Two addresses with the same text are equal. *)
Lemma intToIPv4_inj n m :
  0 <= n < 2 ^ 32 -> 0 <= m < 2 ^ 32 -> intToIPv4 n = intToIPv4 m -> n = m.
Proof.
  intros Rn Rm E.
  destruct (networkIntOf_intToIPv4 n) as (s & Es & Us & _).
  destruct (networkIntOf_intToIPv4 m) as (t & Et & Ut & _).
  rewrite E, Et in Es. apply (f_equal integral) in Es. cbn [integral] in Es.
  rewrite <- (ToUint32_small n Rn), <- (ToUint32_small m Rm), <- Us, <- Ut.
  congruence.
Qed.

End DottedDecimal.

(* ================================================================== *)
(** * IPv4: what [calculateIPv4Subnet] returns *)
(* ================================================================== *)

Section IPv4Result.

Lemma shru_bounds x k : 0 <= shru x k < 2 ^ 32.
Proof.
  unfold shru. pose proof (ToUint32_range x) as R.
  assert (0 <= k mod 32) by (apply Z.mod_pos_bound; lia).
  rewrite Z.shiftr_div_pow2 by lia.
  assert (0 < 2 ^ (k mod 32)) by (apply Z.pow_pos_nonneg; lia).
  split; [apply Z.div_pos; lia |].
  apply Z.div_lt_upper_bound; [lia |]. nia.
Qed.

Lemma Some_inj {A : Type} (x y : A) : Some x = Some y -> x = y.
Proof. congruence. Qed.

(** Four valid octets, read from the parts of a dotted text. *)
Lemma octets_inv (parts : list string) o0 o1 o2 o3 :
  map octet parts = [Some o0; Some o1; Some o2; Some o3] ->
  0 <= o0 <= 255 /\ 0 <= o1 <= 255 /\ 0 <= o2 <= 255 /\ 0 <= o3 <= 255.
Proof.
  destruct parts as [| p0 [| p1 [| p2 [| p3 [| ? ?]]]]]; try discriminate.
  intros [= E0 E1 E2 E3]. repeat split; eapply octet_range; eassumption.
Qed.

(** The fields of a result, in terms of the address [a] of the input, the
    mask [m] the program computes, the network [n] and the broadcast [b]. *)
Lemma calculateIPv4Subnet_inv ip cidr info :
  calculateIPv4Subnet ip cidr = Some info ->
  exists o0 o1 o2 o3,
    map octet (split "." ip) = [Some o0; Some o1; Some o2; Some o3]
    /\ 0 <= cidr <= 32
    /\ let a := ipv4Value o0 o1 o2 o3 in
       let m := shru (shl 0xFFFFFFFF (32 - cidr)) 0 in
       let n := Z.land a m in
       let b := Z.lor n (shru 0xFFFFFFFF cidr) in
       0 <= a < 2 ^ 32
       /\ network info = intToIPv4 n
       /\ broadcast info = Some (intToIPv4 b)
       /\ firstHost info
          = Some (if 1 <? 32 - cidr then intToIPv4 (n + 1) else intToIPv4 n)
       /\ lastHost info
          = Some (if 1 <? 32 - cidr then intToIPv4 (b - 1) else intToIPv4 n)
       /\ subnetMask info = Some (intToIPv4 m)
       /\ totalHosts info = 2 ^ (32 - cidr)
       /\ usableHosts info = Z.max 0 (2 ^ (32 - cidr) - 2)
       /\ Utils.cidr info = cidr
       /\ ipVersion info = V4.
Proof.
  unfold calculateIPv4Subnet.
  destruct (Z.ltb_spec cidr 0) as [? | C0]; [discriminate |].
  destruct (Z.ltb_spec 32 cidr) as [? | C32]; [discriminate |]. cbn [orb].
  destruct (negb _); [discriminate |].
  destruct (map octet (split "." ip))
    as [| [o0 |] [| [o1 |] [| [o2 |] [| [o3 |] [| ? ?]]]]] eqn:E; try discriminate.
  intros H. apply Some_inj in H. subst info. exists o0, o1, o2, o3.
  destruct (octets_inv _ _ _ _ _ E) as (H0 & H1 & H2 & H3).
  pose proof (ipv4Value_range _ _ _ _ H0 H1 H2 H3) as Ra.
  split; [reflexivity |]. split; [lia |]. cbv zeta. cbn [network broadcast firstHost
    lastHost subnetMask totalHosts usableHosts Utils.cidr ipVersion].
  set (m := shru (shl 4294967295 (32 - cidr)) 0).
  assert (Em : ToUint32 m = m) by (apply ToUint32_small, shru_bounds).
  assert (En : shru (band (shl o0 24 + shl o1 16 + shl o2 8 + o3) m) 0
               = Z.land (ipv4Value o0 o1 o2 o3) m).
  { rewrite shru_band_0, ipInt_value, Em by assumption. reflexivity. }
  rewrite En. set (n := Z.land (ipv4Value o0 o1 o2 o3) m).
  assert (Rn : ToUint32 n = n).
  { subst n. rewrite <- En. rewrite shru_0. unfold ToUint32. apply Z.mod_mod. lia. }
  assert (Eb : shru (bor n (shru 4294967295 cidr)) 0 = Z.lor n (shru 4294967295 cidr)).
  { rewrite shru_bor_0, Rn. f_equal. apply ToUint32_small, shru_bounds. }
  rewrite Eb. repeat split; try reflexivity; lia.
Qed.

(** With a prefix length from 1 to 32 the network is the address with its
    host bits cleared. *)
Lemma network_value a cidr :
  0 <= a < 2 ^ 32 -> 1 <= cidr <= 32 ->
  Z.land a (shru (shl 0xFFFFFFFF (32 - cidr)) 0) = a - a mod 2 ^ (32 - cidr).
Proof.
  intros Ha Hc. rewrite mask_value by lia. apply land_high_mask; lia.
Qed.

(** With a prefix length 0 the shift count 32 wraps to 0: the mask is all
    ones and the network is the address itself. *)
Lemma network_value_0 a :
  0 <= a < 2 ^ 32 -> Z.land a (shru (shl 0xFFFFFFFF (32 - 0)) 0) = a.
Proof.
  intros Ha. change (shru (shl 4294967295 (32 - 0)) 0) with (Z.ones 32).
  rewrite Z.land_ones by lia. apply Z.mod_small. lia.
Qed.

(** With a prefix length from 0 to 31 the broadcast sets the host bits of
    an aligned network. *)
Lemma broadcast_value n cidr :
  0 <= cidr <= 31 -> n mod 2 ^ (32 - cidr) = 0 ->
  Z.lor n (shru 0xFFFFFFFF cidr) = n + 2 ^ (32 - cidr) - 1.
Proof.
  intros Hc Hn. rewrite shru_ones_cidr by lia. apply lor_low_ones; [lia | exact Hn].
Qed.

End IPv4Result.

(* ================================================================== *)
(** * IPv4: network, broadcast and host range *)
(* ================================================================== *)

Section IPv4Network.

(** For a prefix length from 1 to 32 the network returned has its host bits
    cleared: it is the text of the address rounded down to a multiple of
    [2^(32 - cidr)]. *)
Lemma ipv4_network_host_bits_clear ip cidr info :
  calculateIPv4Subnet ip cidr = Some info ->
  1 <= cidr ->
  exists n,
    network info = intToIPv4 n /\ 0 <= n < 2 ^ 32
    /\ Z.land n (Z.ones (32 - cidr)) = 0
    /\ n mod 2 ^ (32 - cidr) = 0.
Proof.
  intros H Hc.
  destruct (calculateIPv4Subnet_inv _ _ _ H)
    as (o0 & o1 & o2 & o3 & _ & Hr & Ra & Hn & _).
  rewrite network_value in Hn by lia.
  assert (P : 0 < 2 ^ (32 - cidr)) by (apply Z.pow_pos_nonneg; lia).
  pose proof (Z.mod_pos_bound (ipv4Value o0 o1 o2 o3) (2 ^ (32 - cidr)) P).
  pose proof (Z.mod_le (ipv4Value o0 o1 o2 o3) (2 ^ (32 - cidr)) ltac:(lia) P).
  eexists. split; [exact Hn |]. split; [lia |].
  rewrite Z.land_ones by lia. split; apply sub_mod_aligned; lia.
Qed.

(** C1 (code defect).  With the prefix length 0 the shift count 32 of
    [0xFFFFFFFF << hostBits] wraps to 0, the mask is 255.255.255.255 and the
    network returned is the input address with all its host bits, next to
    the broadcast 255.255.255.255 and a total of [2^32] addresses. *)
Theorem C1_prefix0_network_keeps_host_bits :
  calculateSubnet "1.2.3.4/0"
  = Some {| network := "1.2.3.4";
            broadcast := Some "255.255.255.255";
            firstHost := Some "1.2.3.5";
            lastHost := Some "255.255.255.254";
            subnetMask := Some "255.255.255.255";
            wildcardMask := Some "0.0.0.0";
            totalHosts := 4294967296;
            usableHosts := 4294967294;
            cidr := 0;
            ipVersion := V4;
            networkClass := Some "A";
            isPrivate := Some false;
            prefix := None |}.
Proof. vm_compute. reflexivity. Qed.

(** The same at every address: with the prefix length 0 the network is the
    text of the input address. *)
Lemma ipv4_network_prefix0 ip info :
  calculateIPv4Subnet ip 0 = Some info ->
  exists o0 o1 o2 o3,
    map octet (split "." ip) = [Some o0; Some o1; Some o2; Some o3]
    /\ network info = intToIPv4 (ipv4Value o0 o1 o2 o3)
    /\ broadcast info = Some "255.255.255.255".
Proof.
  intros H.
  destruct (calculateIPv4Subnet_inv _ _ _ H)
    as (o0 & o1 & o2 & o3 & E & _ & Ra & Hn & Hb & _).
  exists o0, o1, o2, o3. rewrite network_value_0 in * by exact Ra.
  split; [exact E |]. split; [exact Hn |]. rewrite Hb. f_equal.
  change (shru 4294967295 0) with (Z.ones 32).
  rewrite Z.lor_ones_low; [reflexivity | lia |].
  destruct (Z.eq_dec (ipv4Value o0 o1 o2 o3) 0) as [-> | N]; [simpl; lia |].
  apply Z.log2_lt_pow2; lia.
Qed.

(** A result computed with a prefix length from 1 to 32 is a prefix in the
    sense of the enumeration and of the containment check: its network is
    aligned on its length. *)
Lemma calculateIPv4Subnet_prefix ip cidr sn :
  calculateIPv4Subnet ip cidr = Some sn ->
  1 <= cidr ->
  exists n,
    ipVersion sn = V4 /\ Utils.cidr sn = cidr /\ 1 <= cidr <= 32
    /\ network sn = intToIPv4 n /\ 0 <= n < 2 ^ 32
    /\ n mod 2 ^ (32 - Utils.cidr sn) = 0.
Proof.
  intros H Hc.
  destruct (ipv4_network_host_bits_clear _ _ _ H Hc) as (n & Hn & Rn & _ & Ha).
  destruct (calculateIPv4Subnet_inv _ _ _ H)
    as (o0 & o1 & o2 & o3 & _ & Hr & _ & _ & _ & _ & _ & _ & _ & _ & Ec & Ev).
  exists n. rewrite Ec. repeat split; try assumption; lia.
Qed.

(** At the prefix length 32 the shift count of [0xFFFFFFFF >>> cidr] wraps
    to 0 in its turn: the broadcast is 255.255.255.255 whatever the
    address. *)
Lemma ipv4_broadcast_prefix32 ip info :
  calculateIPv4Subnet ip 32 = Some info ->
  broadcast info = Some "255.255.255.255".
Proof.
  intros H.
  destruct (calculateIPv4Subnet_inv _ _ _ H)
    as (o0 & o1 & o2 & o3 & _ & _ & Ra & _ & Hb & _).
  rewrite Hb. f_equal.
  change (shru 4294967295 32) with (Z.ones 32).
  set (n := Z.land _ _).
  assert (Rn : 0 <= n < 2 ^ 32).
  { subst n. rewrite network_value by lia. change (2 ^ (32 - 32)) with 1.
    rewrite Z.mod_1_r. lia. }
  rewrite Z.lor_ones_low; [reflexivity | lia |].
  destruct (Z.eq_dec n 0) as [-> | N]; [simpl; lia |].
  apply Z.log2_lt_pow2; lia.
Qed.

(** From the prefix length 1 on the host range is as specified.  With [n]
    the network and [b] the broadcast as 32-bit integers: up to the prefix
    length 30 the first host is the text of [n + 1] and the last host the
    text of [b - 1], two addresses that read back as these integers, with
    [lastHost - firstHost = totalHosts - 3]; at 31 and 32 both are the
    network. *)
Lemma ipv4_host_range ip cidr info :
  calculateIPv4Subnet ip cidr = Some info ->
  1 <= cidr ->
  exists n b f l,
    0 <= n < 2 ^ 32 /\ 0 <= b < 2 ^ 32
    /\ network info = intToIPv4 n
    /\ broadcast info = Some (intToIPv4 b)
    /\ firstHost info = Some f /\ lastHost info = Some l
    /\ (cidr <= 30 ->
        f = intToIPv4 (n + 1) /\ l = intToIPv4 (b - 1)
        /\ ToUint32 (integral (networkIntOf f)) = n + 1
        /\ ToUint32 (integral (networkIntOf l)) = b - 1
        /\ n + 1 <= b - 1 /\ b - 1 < 2 ^ 32
        /\ (b - 1) - (n + 1) = totalHosts info - 3)
    /\ (31 <= cidr -> f = network info /\ l = network info).
Proof.
  intros H C1.
  destruct (calculateIPv4Subnet_inv _ _ _ H)
    as (o0 & o1 & o2 & o3 & _ & Hr & Ra & Hn & Hb & Hf & Hl & _ & Ht & _).
  set (a := ipv4Value o0 o1 o2 o3) in *.
  set (n := Z.land a (shru (shl 4294967295 (32 - cidr)) 0)) in *.
  set (b := Z.lor n (shru 4294967295 cidr)) in *.
  assert (P : 0 < 2 ^ (32 - cidr)) by (apply Z.pow_pos_nonneg; lia).
  assert (En : n = a - a mod 2 ^ (32 - cidr)) by (subst n; apply network_value; lia).
  assert (Rn : 0 <= n < 2 ^ 32).
  { pose proof (Z.mod_pos_bound a (2 ^ (32 - cidr)) P).
    pose proof (Z.mod_le a (2 ^ (32 - cidr)) ltac:(lia) P). lia. }
  assert (Rb : 0 <= b < 2 ^ 32).
  { replace b with (ToUint32 b); [apply ToUint32_range |].
    subst b. rewrite ToUint32_lor.
    rewrite (ToUint32_small n) by exact Rn.
    rewrite (ToUint32_small (shru _ _)) by apply shru_bounds. reflexivity. }
  assert (B1 : cidr <= 31 -> b = n + 2 ^ (32 - cidr) - 1).
  { intros Hc. subst b. apply broadcast_value; [lia |].
    rewrite En. apply sub_mod_aligned. lia. }
  exists n, b. eexists. eexists.
  split; [exact Rn |]. split; [exact Rb |]. split; [exact Hn |].
  split; [exact Hb |]. split; [exact Hf |]. split; [exact Hl |]. split.
  - intros Hc. destruct (Z.ltb_spec 1 (32 - cidr)); [| lia].
    assert (Q : 2 ^ 2 <= 2 ^ (32 - cidr)) by (apply Z.pow_le_mono_r; lia).
    pose proof (B1 ltac:(lia)) as Eb.
    destruct (networkIntOf_intToIPv4 (n + 1)) as (s & Es & Us & _).
    destruct (networkIntOf_intToIPv4 (b - 1)) as (t & Et & Ut & _).
    split; [reflexivity |]. split; [reflexivity |].
    rewrite Es, Et. cbn [integral]. rewrite Us, Ut.
    rewrite !ToUint32_small by lia. rewrite Ht. repeat split; lia.
  - intros Hc. destruct (Z.ltb_spec 1 (32 - cidr)); [lia |].
    rewrite Hn. split; reflexivity.
Qed.

(** C4 (code defect).  With the prefix length 0 the network returned is the
    input address (the mask is all ones), and the first host is the text of
    that address plus 1: at 255.255.255.255/0 the sum is [2^32], printed
    modulo [2^32].  The first host 0.0.0.0 is not the address after the
    network 255.255.255.255, and it is not the address 0.0.0.1 after the
    network 0.0.0.0 of the prefix either. *)
Theorem C4_prefix0_first_host_wraps :
  calculateSubnet "255.255.255.255/0"
  = Some {| network := "255.255.255.255";
            broadcast := Some "255.255.255.255";
            firstHost := Some "0.0.0.0";
            lastHost := Some "255.255.255.254";
            subnetMask := Some "255.255.255.255";
            wildcardMask := Some "0.0.0.0";
            totalHosts := 4294967296;
            usableHosts := 4294967294;
            cidr := 0;
            ipVersion := V4;
            networkClass := Some "E (Reserved)";
            isPrivate := Some false;
            prefix := None |}.
Proof. vm_compute. reflexivity. Qed.

End IPv4Network.

(* ================================================================== *)
(** * IPv4: containment *)
(* ================================================================== *)

Section IPv4Containment.

(** Membership in an aligned block, by rounding down. *)
Lemma round_down_eq_iff a n h :
  0 <= h -> n mod 2 ^ h = 0 ->
  (a - a mod 2 ^ h =? n) = (n <=? a) && (a <? n + 2 ^ h).
Proof.
  intros Hh Hn. assert (P : 0 < 2 ^ h) by (apply Z.pow_pos_nonneg; lia).
  pose proof (Z.mod_pos_bound a (2 ^ h) P) as B.
  destruct (Z.eqb_spec (a - a mod 2 ^ h) n) as [E | E];
    destruct (Z.leb_spec n a) as [L | L]; destruct (Z.ltb_spec a (n + 2 ^ h)) as [U | U];
    cbn [andb]; try reflexivity; try lia.
  exfalso. apply E.
  assert (D : n = 2 ^ h * (n / 2 ^ h)) by (apply Z_div_exact_full_2; lia).
  assert (R : a - n = a mod 2 ^ h).
  { apply Z.mod_unique with (q := n / 2 ^ h); lia. }
  lia.
Qed.

(** The check on a valid candidate, against a network text and a prefix
    length: the candidate and the network are compared under the mask the
    program computes. *)
Lemma isIPv4InSubnet_masked ip sn n o0 o1 o2 o3 :
  map octet (split "." ip) = [Some o0; Some o1; Some o2; Some o3] ->
  network sn = intToIPv4 n ->
  0 <= n < 2 ^ 32 ->
  let m := shru (shl 0xFFFFFFFF (32 - cidr sn)) 0 in
  isIPv4InSubnet ip sn
  = {| result := Z.land (ipv4Value o0 o1 o2 o3) m =? Z.land n m; error := None |}.
Proof.
  intros E Hn Rn m. unfold isIPv4InSubnet.
  assert (L : List.length (split "." ip) = 4%nat)
    by (rewrite <- (length_map octet), E; reflexivity).
  rewrite L, E. cbn [Nat.eqb negb]. cbv zeta.
  destruct (octets_inv _ _ _ _ _ E) as (H0 & H1 & H2 & H3).
  destruct (networkIntOf_intToIPv4 n) as (s & Es & Us & _).
  rewrite Hn, Es. cbn [integral]. fold m.
  assert (Em : ToUint32 m = m) by (apply ToUint32_small, shru_bounds).
  rewrite !shru_band_0, ipInt_value, Em, Us by assumption.
  rewrite (ToUint32_small n) by exact Rn. reflexivity.
Qed.

(** For a prefix length from 1 to 32 and an aligned network [n], the check
    is true exactly on the addresses [n <= a < n + 2^(32 - cidr)]. *)
Lemma isIPv4InSubnet_from_prefix1 ip sn n o0 o1 o2 o3 :
  map octet (split "." ip) = [Some o0; Some o1; Some o2; Some o3] ->
  network sn = intToIPv4 n ->
  0 <= n < 2 ^ 32 ->
  1 <= cidr sn <= 32 ->
  n mod 2 ^ (32 - cidr sn) = 0 ->
  let a := ipv4Value o0 o1 o2 o3 in
  isIPv4InSubnet ip sn
  = {| result := (n <=? a) && (a <? n + 2 ^ (32 - cidr sn)); error := None |}.
Proof.
  intros E Hn Rn Hc Ha a.
  rewrite (isIPv4InSubnet_masked ip sn n o0 o1 o2 o3 E Hn Rn).
  destruct (octets_inv _ _ _ _ _ E) as (H0 & H1 & H2 & H3).
  pose proof (ipv4Value_range _ _ _ _ H0 H1 H2 H3) as Ra.
  rewrite !network_value by lia. rewrite Ha, Z.sub_0_r.
  f_equal. apply round_down_eq_iff; [lia | exact Ha].
Qed.

(** For the prefix length 0 the mask is all ones and the check is true on
    the network address alone. *)
Lemma isIPv4InSubnet_prefix0 ip sn n o0 o1 o2 o3 :
  map octet (split "." ip) = [Some o0; Some o1; Some o2; Some o3] ->
  network sn = intToIPv4 n ->
  0 <= n < 2 ^ 32 ->
  cidr sn = 0 ->
  isIPv4InSubnet ip sn
  = {| result := ipv4Value o0 o1 o2 o3 =? n; error := None |}.
Proof.
  intros E Hn Rn Hc.
  rewrite (isIPv4InSubnet_masked ip sn n o0 o1 o2 o3 E Hn Rn).
  destruct (octets_inv _ _ _ _ _ E) as (H0 & H1 & H2 & H3).
  pose proof (ipv4Value_range _ _ _ _ H0 H1 H2 H3) as Ra.
  rewrite Hc, !network_value_0 by assumption. reflexivity.
Qed.

Lemma octetText_no_slash_all :
  forallb (fun k => negb (includes "/" (toString k))) (indices 256) = true.
Proof. vm_compute. reflexivity. Qed.

Lemma intToIPv4_no_slash n : includes "/" (intToIPv4 n) = false.
Proof.
  assert (O : forall k, includes "/" (toString (octetAt k n)) = false).
  { intros k. pose proof octetText_no_slash_all as A. rewrite forallb_forall in A.
    apply negb_true_iff. apply A. apply In_indices.
    pose proof (octetAt_range k n). lia. }
  rewrite intToIPv4_octets. cbn [map join].
  rewrite !includes_char_app, !O. reflexivity.
Qed.

(** The same on the text of an address [a]: for a prefix length from 1 to
    32 the check is true exactly when [a] is the network plus some [k] with
    [0 <= k < 2^(32 - cidr)]. *)
Lemma isIPInSubnet_ipv4_address a sn n :
  0 <= a < 2 ^ 32 ->
  ipVersion sn = V4 ->
  network sn = intToIPv4 n ->
  0 <= n < 2 ^ 32 ->
  1 <= cidr sn <= 32 ->
  n mod 2 ^ (32 - cidr sn) = 0 ->
  isIPInSubnet (intToIPv4 a) sn
  = {| result := (n <=? a) && (a <? n + 2 ^ (32 - cidr sn)); error := None |}.
Proof.
  intros Ra Hv Hn Rn Hc Ha. unfold isIPInSubnet.
  rewrite intToIPv4_no_slash, Hv.
  assert (E : map octet (split "." (intToIPv4 a))
              = [Some (octetAt 3 a); Some (octetAt 2 a);
                 Some (octetAt 1 a); Some (octetAt 0 a)]).
  { rewrite split_intToIPv4. cbn [map].
    rewrite !octet_toString by apply octetAt_range. reflexivity. }
  rewrite (isIPv4InSubnet_from_prefix1 _ sn n _ _ _ _ E Hn Rn Hc Ha).
  unfold ipv4Value. rewrite <- octets_sum, ToUint32_small by exact Ra. reflexivity.
Qed.

(** C2 (code defect).  Against the prefix 0.0.0.0/0, whose mask with no bit
    set matches every address, the check answers false for 1.2.3.4: the
    shift count 32 wraps to 0 and the mask used is 255.255.255.255. *)
Theorem C2_prefix0_rejects_address_inside :
  exists sn,
    calculateSubnet "0.0.0.0/0" = Some sn
    /\ network sn = "0.0.0.0" /\ cidr sn = 0
    /\ isIPInSubnet "1.2.3.4" sn = {| result := false; error := None |}.
Proof. eexists. repeat split; vm_compute; reflexivity. Qed.

End IPv4Containment.

(* ================================================================== *)
(** * IPv4: enumeration of subnets *)
(* ================================================================== *)

Section IPv4Enumeration.

Lemma In_indices_inv n k : In k (indices n) -> 0 <= k < n.
Proof.
  unfold indices. rewrite in_map_iff. intros (j & <- & Hj).
  apply in_seq in Hj. lia.
Qed.

Lemma length_indices n : List.length (indices n) = Z.to_nat n.
Proof. unfold indices. rewrite length_map, length_seq. reflexivity. Qed.

(** The list of an IPv4 network text [n], whatever its alignment: entry [i]
    is the text of [n + i * 2^(32 - newCidr)] modulo [2^32]. *)
Lemma generateSubnetList_v4 sn n newCidr :
  ipVersion sn = V4 ->
  network sn = intToIPv4 n ->
  0 <= cidr sn ->
  cidr sn < newCidr <= 32 ->
  generateSubnetList sn newCidr
  = map (fun i => intToIPv4 (n + i * 2 ^ (32 - newCidr)) ++ "/" ++ toString newCidr)
        (indices (Z.min (2 ^ (newCidr - cidr sn)) 256)).
Proof.
  intros Hv Hn H0 Hc. unfold generateSubnetList.
  destruct (Z.leb_spec newCidr (cidr sn)); [lia |]. rewrite Hv. cbv zeta.
  destruct (networkIntOf_intToIPv4 n) as (s & Es & Us & Rs).
  rewrite Hn, Es. apply map_ext_in. intros i Hi. apply In_indices_inv in Hi.
  f_equal. apply intToIPv4_congr. unfold subnetNetworkInt.
  destruct (Z.leb_spec 0 (32 - newCidr)); [| lia].
  assert (P : 0 < 2 ^ (32 - newCidr) <= 2 ^ 32).
  { split; [apply Z.pow_pos_nonneg; lia | apply Z.pow_le_mono_r; lia]. }
  assert (I : 0 <= i < 256) by lia.
  set (size := 2 ^ (32 - newCidr)) in *.
  assert (M : 0 <= i * size <= 255 * 2 ^ 32) by nia.
  unfold size at 1. rewrite pow2_small by lia. fold size.
  rewrite mul_small by lia. rewrite add_small by lia.
  cbn [integral]. unfold ToUint32 in *.
  rewrite <- Z.add_mod_idemp_l, Us, Z.add_mod_idemp_l by lia. reflexivity.
Qed.

(** C3.  For an IPv4 prefix (network [n] aligned on its length
    [cidr sn]) and [cidr sn < newCidr <= 32], the list has
    [min(2^(newCidr - cidr sn), 256)] entries; entry [i] is the text of
    [n + i * 2^(32 - newCidr)] followed by [/newCidr]; these addresses stay
    below [2^32] and increase strictly; the total reported by
    [renderSubnetList] is [2^(newCidr - cidr sn)], in a heading and above a
    list that are given in full, whatever the locale. *)
Theorem C3_ipv4_enumeration (toLocaleString : Z -> string) sn n newCidr :
  ipVersion sn = V4 ->
  network sn = intToIPv4 n ->
  0 <= n < 2 ^ 32 ->
  0 <= cidr sn ->
  n mod 2 ^ (32 - cidr sn) = 0 ->
  cidr sn < newCidr <= 32 ->
  let total := 2 ^ (newCidr - cidr sn) in
  let count := Z.min total 256 in
  let size := 2 ^ (32 - newCidr) in
  let entry i := intToIPv4 (n + i * size) ++ "/" ++ toString newCidr in
  generateSubnetList sn newCidr = map entry (indices count)
  /\ List.length (generateSubnetList sn newCidr) = Z.to_nat count
  /\ (forall i, 0 <= i < count -> 0 <= n + i * size < 2 ^ 32)
  /\ (forall i j, 0 <= i < j -> j < count -> n + i * size < n + j * size)
  /\ App.renderSubnetList toLocaleString sn newCidr
     = Some {| App.heading :=
                 "Subnet List (" ++ toString count
                 ++ (if 256 <? total then " of " ++ toLocaleString total else "")
                 ++ " subnets)";
               App.subnetContent :=
                 join newline (map entry (indices count))
                 ++ (if 256 <? total
                     then newline ++ "... and " ++ toLocaleString (total - 256)
                          ++ " more subnets"
                     else "");
               App.displayCount := count;
               App.totalSubnets := total |}.
Proof.
  intros Hv Hn Rn H0 Ha Hc total count size entry. unfold total in count.
  assert (E : generateSubnetList sn newCidr = map entry (indices count))
    by exact (generateSubnetList_v4 sn n newCidr Hv Hn H0 Hc).
  assert (Ps : 0 < size) by (apply Z.pow_pos_nonneg; lia).
  assert (Pb : 0 < 2 ^ (newCidr - cidr sn)) by (apply Z.pow_pos_nonneg; lia).
  assert (Pc : 0 < count <= 2 ^ (newCidr - cidr sn)) by (subst count; lia).
  assert (Eh : 2 ^ (32 - cidr sn) = 2 ^ (newCidr - cidr sn) * size).
  { subst size. rewrite <- Z.pow_add_r by lia. f_equal. lia. }
  assert (L : List.length (generateSubnetList sn newCidr) = Z.to_nat count)
    by (rewrite E, length_map; apply length_indices).
  split; [exact E |]. split; [exact L |]. split; [| split].
  - intros i Hi.
    assert (D : n = 2 ^ (32 - cidr sn) * (n / 2 ^ (32 - cidr sn)))
      by (apply Z_div_exact_full_2; lia).
    set (q := n / 2 ^ (32 - cidr sn)) in *.
    assert (E32 : 2 ^ 32 = 2 ^ cidr sn * 2 ^ (32 - cidr sn))
      by (rewrite <- Z.pow_add_r by lia; f_equal; lia).
    assert (Ph : 0 < 2 ^ (32 - cidr sn)) by (apply Z.pow_pos_nonneg; lia).
    assert (Q : q < 2 ^ cidr sn) by nia.
    assert (I : i * size <= 2 ^ (32 - cidr sn) - size) by nia.
    split; [nia |]. nia.
  - intros i j Hij Hj. nia.
  - unfold App.renderSubnetList. rewrite L.
    destruct (Z.to_nat count) eqn:Ec; [lia |]. cbn [Nat.eqb]. rewrite E.
    assert (T : 2 ^ (newCidr - cidr sn) <= 2 ^ 32) by (apply Z.pow_le_mono_r; lia).
    rewrite (roundDouble_small (2 ^ (newCidr - cidr sn) - 256)) by lia.
    reflexivity.
Qed.

(** C3 on 192.168.1.0/24 split at /26. *)
Lemma C3_ipv4_enumeration_witness :
  calculateSubnet "192.168.1.0/24" = Some net_192_168_1_0_24
  /\ generateSubnetList net_192_168_1_0_24 26
     = ["192.168.1.0/26"; "192.168.1.64/26"; "192.168.1.128/26"; "192.168.1.192/26"]
  /\ App.renderSubnetList toString net_192_168_1_0_24 26
     = Some {| App.heading := "Subnet List (4 subnets)";
               App.subnetContent :=
                 join newline ["192.168.1.0/26"; "192.168.1.64/26";
                               "192.168.1.128/26"; "192.168.1.192/26"];
               App.displayCount := 4;
               App.totalSubnets := 4 |}.
Proof.
  split; [vm_compute; reflexivity |].
  destruct (C3_ipv4_enumeration toString net_192_168_1_0_24 3232235776 26)
    as (E & _ & _ & _ & R);
    [reflexivity | vm_compute; reflexivity | lia | simpl; lia
     | vm_compute; reflexivity | simpl; lia |].
  split; [rewrite E | rewrite R]; vm_compute; reflexivity.
Defined.

End IPv4Enumeration.

(* ================================================================== *)
(** * IPv4: which texts are accepted *)
(* ================================================================== *)

Section IPv4Parsing.

(** An octet is accepted exactly when [parseInt] reads a number from 0 to
    255 at its start. *)
Lemma octet_Some_iff part o :
  octet part = Some o <-> parseInt part 10 = Fin o /\ 0 <= o <= 255.
Proof.
  unfold octet. destruct (parseInt part 10) as [| neg | z].
  - split; [discriminate | intros [E _]; discriminate].
  - split; [discriminate | intros [E _]; discriminate].
  - destruct (Z.ltb_spec z 0), (Z.ltb_spec 255 z); cbn [orb]; split;
      try discriminate;
      try (intros [E ?]; apply (f_equal integral) in E; cbn [integral] in E; lia).
    + intros E. apply Some_inj in E. subst o. split; [reflexivity | lia].
    + intros [E ?]. apply (f_equal integral) in E. cbn [integral] in E.
      subst o. reflexivity.
Qed.

(** The address is accepted exactly when the prefix length is in range and
    the text splits on dots into four accepted octets. *)
Lemma calculateIPv4Subnet_accepts_iff ip cidr :
  calculateIPv4Subnet ip cidr <> None
  <-> 0 <= cidr <= 32
      /\ exists o0 o1 o2 o3,
           map octet (split "." ip) = [Some o0; Some o1; Some o2; Some o3].
Proof.
  split.
  - intros H. destruct (calculateIPv4Subnet ip cidr) as [info |] eqn:E; [| congruence].
    destruct (calculateIPv4Subnet_inv _ _ _ E) as (o0 & o1 & o2 & o3 & Eo & Hc & _).
    split; [exact Hc |]. exists o0, o1, o2, o3. exact Eo.
  - intros (Hc & o0 & o1 & o2 & o3 & Eo). unfold calculateIPv4Subnet.
    destruct (Z.ltb_spec cidr 0); [lia |]. destruct (Z.ltb_spec 32 cidr); [lia |].
    cbn [orb].
    assert (L : List.length (split "." ip) = 4%nat)
      by (rewrite <- (length_map octet), Eo; reflexivity).
    rewrite L, Eo. cbn [Nat.eqb negb]. discriminate.
Qed.

(** A wrong number of segments is rejected. *)
Lemma calculateIPv4Subnet_segment_count ip cidr :
  List.length (split "." ip) <> 4%nat -> calculateIPv4Subnet ip cidr = None.
Proof.
  intros H. destruct (calculateIPv4Subnet ip cidr) eqn:E; [| reflexivity].
  exfalso. apply H.
  assert (N : calculateIPv4Subnet ip cidr <> None) by congruence.
  apply calculateIPv4Subnet_accepts_iff in N as (_ & o0 & o1 & o2 & o3 & Eo).
  rewrite <- (length_map octet), Eo. reflexivity.
Qed.

(** A segment that is not an accepted octet (no digit at its start, or a
    value outside 0..255) is rejected. *)
Lemma calculateIPv4Subnet_bad_octet ip cidr part :
  In part (split "." ip) -> octet part = None -> calculateIPv4Subnet ip cidr = None.
Proof.
  intros Hin Ho. destruct (calculateIPv4Subnet ip cidr) eqn:E; [| reflexivity].
  exfalso.
  assert (N : calculateIPv4Subnet ip cidr <> None) by congruence.
  apply calculateIPv4Subnet_accepts_iff in N as (_ & o0 & o1 & o2 & o3 & Eo).
  apply (in_map octet) in Hin. rewrite Eo, Ho in Hin.
  cbn [In] in Hin. intuition discriminate.
Qed.

(** Four decimal octets joined by dots are accepted. *)
Lemma calculateIPv4Subnet_canonical n cidr :
  0 <= cidr <= 32 -> calculateIPv4Subnet (intToIPv4 n) cidr <> None.
Proof.
  intros Hc. apply calculateIPv4Subnet_accepts_iff. split; [exact Hc |].
  exists (octetAt 3 n), (octetAt 2 n), (octetAt 1 n), (octetAt 0 n).
  rewrite split_intToIPv4. cbn [map].
  rewrite !octet_toString by apply octetAt_range. reflexivity.
Qed.

(** C5 (code defect).  An octet followed by characters that are not digits
    is accepted: [parseInt] reads the digits at the start of [4abc] and the
    validation sees the number 4.  The same holds for white space or a plus
    sign before the digits. *)
Theorem C5_octet_with_trailing_characters_accepted :
  octet "4abc" = Some 4
  /\ calculateSubnet "1.2.3.4abc"
     = Some {| network := "1.2.3.4";
               broadcast := Some "255.255.255.255";
               firstHost := Some "1.2.3.4";
               lastHost := Some "1.2.3.4";
               subnetMask := Some "255.255.255.255";
               wildcardMask := Some "0.0.0.0";
               totalHosts := 1;
               usableHosts := 0;
               cidr := 32;
               ipVersion := V4;
               networkClass := Some "A";
               isPrivate := Some false;
               prefix := None |}
  /\ calculateSubnet "1.2.3.4abc/24" = calculateSubnet "1.2.3.4/24"
  /\ calculateSubnet "1.+2.3x. 4/24" = calculateSubnet "1.2.3.4/24"
  /\ calculateSubnet "1.2.3.4/24" <> None.
Proof. repeat split; try (vm_compute; reflexivity). vm_compute. discriminate. Qed.

End IPv4Parsing.

(* ================================================================== *)
(** * IPv6: address counts *)
(* ================================================================== *)

Section IPv6Counts.

(** The fields of a result of [calculateIPv6Subnet]. *)
Lemma calculateIPv6Subnet_inv ip cidr info :
  calculateIPv6Subnet ip cidr = Some info ->
  exists expandedIP,
    expandIPv6 ip = Some expandedIP
    /\ 0 <= cidr <= 128
    /\ network info = calculateIPv6Network expandedIP cidr
    /\ firstHost info = Some (network info)
    /\ lastHost info = Some (network info)
    /\ totalHosts info
       = (if 64 <=? 128 - cidr then MAX_SAFE_INTEGER else 2 ^ (128 - cidr))
    /\ usableHosts info = Z.max 0 (roundDouble (totalHosts info - 2))
    /\ Utils.cidr info = cidr
    /\ ipVersion info = V6
    /\ prefix info = Some (network info ++ "/" ++ toString cidr).
Proof.
  unfold calculateIPv6Subnet.
  destruct (Z.ltb_spec cidr 0) as [? | C0]; [discriminate |].
  destruct (Z.ltb_spec 128 cidr) as [? | C128]; [discriminate |]. cbn [orb].
  destruct (expandIPv6 ip) as [e |]; [| discriminate].
  destruct (e =? "")%string; [discriminate |].
  intros E. apply Some_inj in E. subst info. exists e.
  cbn [network firstHost lastHost totalHosts usableHosts Utils.cidr ipVersion prefix].
  repeat split; try reflexivity; lia.
Qed.

(** The sentinel is not a power of two: no exact count equals it. *)
Lemma MAX_SAFE_INTEGER_not_pow2 h : 2 ^ h <> MAX_SAFE_INTEGER.
Proof.
  unfold MAX_SAFE_INTEGER. intros E.
  destruct (Z.ltb_spec h 0) as [N | N].
  - rewrite Z.pow_neg_r in E by exact N. discriminate.
  - destruct (Z.ltb_spec h 53) as [L | L].
    + assert (2 ^ h <= 2 ^ 52) by (apply Z.pow_le_mono_r; lia). lia.
    + assert (2 ^ 53 <= 2 ^ h) by (apply Z.pow_le_mono_r; lia). lia.
Qed.

(** C7 (as amended).  For a result of [calculateIPv6Subnet], the total is
    the number [MAX_SAFE_INTEGER] when [hostBits >= 64] and [2^hostBits]
    otherwise.  The sentinel differs from every power of two, so it can be
    recognised by its value, but it is a number in the same field as the
    counts: the usable count is derived from it by the same subtraction. *)
Theorem C7_total_address_count ip cidr info :
  calculateIPv6Subnet ip cidr = Some info ->
  let hostBits := 128 - cidr in
  (64 <= hostBits -> totalHosts info = MAX_SAFE_INTEGER)
  /\ (hostBits < 64 -> totalHosts info = 2 ^ hostBits)
  /\ (forall h, 2 ^ h <> MAX_SAFE_INTEGER)
  /\ usableHosts info = Z.max 0 (roundDouble (totalHosts info - 2)).
Proof.
  intros H hostBits.
  destruct (calculateIPv6Subnet_inv _ _ _ H) as (e & _ & _ & _ & _ & _ & Ht & Hu & _).
  subst hostBits. repeat split.
  - intros L. rewrite Ht. destruct (Z.leb_spec 64 (128 - cidr)); [reflexivity | lia].
  - intros L. rewrite Ht. destruct (Z.leb_spec 64 (128 - cidr)); [lia | reflexivity].
  - exact MAX_SAFE_INTEGER_not_pow2.
  - exact Hu.
Qed.

(** C7 on 2001:db8::/64 and on 2001:db8::/72. *)
Lemma C7_total_address_count_witness :
  (exists info,
     calculateIPv6Subnet "2001:db8::" 64 = Some info
     /\ totalHosts info = 9007199254740991)
  /\ (exists info,
        calculateIPv6Subnet "2001:db8::" 72 = Some info
        /\ totalHosts info = 2 ^ 56).
Proof.
  split.
  - eexists. split; [vm_compute; reflexivity |].
    refine (proj1 (C7_total_address_count "2001:db8::" 64 _ _) _);
      [vm_compute; reflexivity | lia].
  - eexists. split; [vm_compute; reflexivity |].
    refine (proj1 (proj2 (C7_total_address_count "2001:db8::" 72 _ _)) _);
      [vm_compute; reflexivity | lia].
Defined.

(** Counterexample to C7 as stated.  On 2001:db8::/64 the total is the plain
    number [2^53 - 1]: it carries no tag, and the program subtracts 2 from it
    as from any count. *)
Lemma C7_sentinel_is_a_plain_number :
  exists info,
    calculateSubnet "2001:db8::/64" = Some info
    /\ totalHosts info = 2 ^ 53 - 1
    /\ usableHosts info = totalHosts info - 2.
Proof. eexists. repeat split; vm_compute; reflexivity. Qed.

(** C10.  With a prefix length of at most 64 the usable count is the
    sentinel minus 2. *)
Theorem C10_usable_hosts_of_sentinel ip cidr info :
  calculateIPv6Subnet ip cidr = Some info ->
  cidr <= 64 ->
  totalHosts info = MAX_SAFE_INTEGER
  /\ usableHosts info = MAX_SAFE_INTEGER - 2.
Proof.
  intros H Hc.
  destruct (calculateIPv6Subnet_inv _ _ _ H) as (e & _ & _ & _ & _ & _ & Ht & Hu & _).
  destruct (Z.leb_spec 64 (128 - cidr)); [| lia].
  rewrite Hu, Ht. split; [reflexivity |]. reflexivity.
Qed.

(** C10 on 2001:db8::/48. *)
Lemma C10_usable_hosts_of_sentinel_witness :
  exists info,
    calculateIPv6Subnet "2001:db8::" 48 = Some info
    /\ totalHosts info = MAX_SAFE_INTEGER
    /\ usableHosts info = MAX_SAFE_INTEGER - 2.
Proof.
  eexists. split; [vm_compute; reflexivity |].
  apply (C10_usable_hosts_of_sentinel "2001:db8::" 48); [vm_compute; reflexivity | lia].
Defined.

End IPv6Counts.

(* ================================================================== *)
(** * Containment across IP versions *)
(* ================================================================== *)

Section VersionMismatch.

(** The candidate without its [/cidr] holds no character the candidate
    does not hold. *)
Lemma cleanIP_no_char c ip :
  includes (String c "") ip = false ->
  includes (String c "")
    (if includes "/" ip then nth 0 (split "/" ip) "" else ip) = false.
Proof.
  intros H. destruct (includes "/" ip); [| exact H].
  destruct (split_char_head "/" ip) as [rest E].
  rewrite E in H. rewrite includes_char_app in H.
  apply orb_false_iff in H as [H _]. exact H.
Qed.

(** A text without a colon holds no [::]. *)
Lemma includes_colons_false s : includes ":" s = false -> includes "::" s = false.
Proof.
  induction s as [| b s IH]; intros H; [reflexivity |].
  rewrite includes_char_cons in H. apply orb_false_iff in H as [H1 H2].
  cbn [includes startsWith]. rewrite H1, (IH H2). reflexivity.
Qed.

(** A text without a colon is not expanded. *)
Lemma expandIPv6_no_colon s : includes ":" s = false -> expandIPv6 s = None.
Proof.
  intros H. unfold expandIPv6.
  rewrite (includes_colons_false s H), (split_char_none ":" s H). reflexivity.
Qed.

(** C9 (as amended).  A candidate written without a colon, as every
    dotted-decimal IPv4 address is, checked against an IPv6 network, and a
    candidate written without a dot, as every colon-hexadecimal IPv6 address
    is, checked against an IPv4 network, both give [result = false] with the
    format error of the network's version: the error a malformed address of
    that version gets. *)
Theorem C9_other_version_is_a_format_error (candidate4 candidate6 : string)
    (network4 network6 : SubnetInfo) :
  includes ":" candidate4 = false ->
  includes "." candidate6 = false ->
  ipVersion network4 = V4 ->
  ipVersion network6 = V6 ->
  isIPInSubnet candidate4 network6
  = {| result := false; error := Some "Invalid IPv6 address format" |}
  /\ isIPInSubnet candidate6 network4
     = {| result := false; error := Some "Invalid IPv4 address format" |}.
Proof.
  intros H4 H6 V4' V6'. unfold isIPInSubnet. rewrite V4', V6'. split.
  - pose proof (cleanIP_no_char ":" candidate4 H4) as C.
    unfold isIPv6InSubnet. rewrite (expandIPv6_no_colon _ C). reflexivity.
  - pose proof (cleanIP_no_char "." candidate6 H6) as C.
    unfold isIPv4InSubnet. rewrite (split_char_none "." _ C). reflexivity.
Qed.

(** C9 on 192.168.1.5 against 2001:db8::/64 and ::1 against 10.0.0.0/8. *)
Lemma C9_other_version_is_a_format_error_witness :
  exists network4 network6,
    calculateSubnet "10.0.0.0/8" = Some network4
    /\ calculateSubnet "2001:db8::/64" = Some network6
    /\ isIPInSubnet "192.168.1.5" network6
       = {| result := false; error := Some "Invalid IPv6 address format" |}
    /\ isIPInSubnet "::1" network4
       = {| result := false; error := Some "Invalid IPv4 address format" |}.
Proof.
  eexists. eexists.
  split; [vm_compute; reflexivity |]. split; [vm_compute; reflexivity |].
  apply (C9_other_version_is_a_format_error "192.168.1.5" "::1");
    vm_compute; reflexivity.
Defined.

(** Counterexample to C9 as stated.  Against 10.0.0.0/8 the IPv6 candidate
    [::1] gets the very error of the malformed IPv4 text [10.0.0]: there is
    no error of its own for a version mismatch.  And the IPv6 candidate
    [10::0.0.0.1], in the form that ends with a dotted quad, gets no error
    at all: it is read as 10.0.0.1 and found inside the network. *)
Lemma C9_no_version_mismatch_error :
  exists network4,
    calculateSubnet "10.0.0.0/8" = Some network4
    /\ isIPInSubnet "::1" network4
       = {| result := false; error := Some "Invalid IPv4 address format" |}
    /\ isIPInSubnet "::1" network4 = isIPInSubnet "10.0.0" network4
    /\ isIPInSubnet "10::0.0.0.1" network4 = {| result := true; error := None |}.
Proof. eexists. repeat split; vm_compute; reflexivity. Qed.

End VersionMismatch.

(* ================================================================== *)
(** * Strings: splitting on [::] *)
(* ================================================================== *)

Section SplitColons.

Lemma splitFrom_nonempty sep skip s : splitFrom sep skip s <> [].
Proof.
  revert skip. induction s as [| c s IH]; intros skip; [discriminate |].
  cbn [splitFrom]. destruct skip as [| k]; [| apply IH].
  destruct (startsWith sep (String c s)); [discriminate |].
  destruct (splitFrom sep 0 s); discriminate.
Qed.

Lemma split2_match s : split "::" ("::" ++ s) = "" :: split "::" s.
Proof. reflexivity. Qed.

Lemma split2_nomatch c s :
  startsWith "::" (String c s) = false ->
  List.length (split "::" (String c s)) = List.length (split "::" s)
  /\ exists p ps, split "::" s = p :: ps /\ split "::" (String c s) = String c p :: ps.
Proof.
  intros H. unfold split. cbn [splitFrom]. rewrite H.
  pose proof (splitFrom_nonempty "::" 0 s) as N.
  destruct (splitFrom "::" 0 s) as [| p ps]; [congruence |].
  split; [reflexivity |]. exists p, ps. split; reflexivity.
Qed.

Lemma includes2_cons c s :
  includes "::" (String c s) = startsWith "::" (String c s) || includes "::" s.
Proof. reflexivity. Qed.

(** The second character of a match does not depend on what follows a
    colon. *)
Lemma startsWith2_app_colon c a x y :
  startsWith "::" (String c (a ++ String ":" x))
  = startsWith "::" (String c (a ++ String ":" y)).
Proof. destruct a; reflexivity. Qed.

Lemma split2_none s : includes "::" s = false -> split "::" s = [s].
Proof.
  induction s as [| c s IH]; intros H; [reflexivity |].
  rewrite includes2_cons in H. apply orb_false_iff in H as [H1 H2].
  destruct (split2_nomatch c s H1) as (_ & p & ps & E1 & E2).
  rewrite E2. rewrite (IH H2) in E1. congruence.
Qed.

(** The first [::] of a text ends the first piece. *)
Lemma split2_app a b :
  includes "::" (a ++ ":") = false ->
  split "::" (a ++ "::" ++ b) = a :: split "::" b.
Proof.
  induction a as [| c a IH]; intros H; [reflexivity |].
  cbn [append] in H. rewrite includes2_cons in H.
  apply orb_false_iff in H as [H1 H2].
  assert (N : startsWith "::" (String c (a ++ "::" ++ b)) = false).
  { change (a ++ "::" ++ b) with (a ++ String ":" (String ":" b)).
    rewrite (startsWith2_app_colon c a _ ""). exact H1. }
  change (String c a ++ "::" ++ b) with (String c (a ++ "::" ++ b)).
  destruct (split2_nomatch c _ N) as (_ & p & ps & E1 & E2).
  rewrite E2. rewrite (IH H2) in E1. congruence.
Qed.

Lemma includes2_intro u v : includes "::" (u ++ "::" ++ v) = true.
Proof.
  induction u as [| c u IH]; [reflexivity |].
  change (String c u ++ "::" ++ v) with (String c (u ++ "::" ++ v)).
  rewrite includes2_cons, IH. apply orb_true_r.
Qed.

Lemma split2_length_ge2 s :
  includes "::" s = true -> (2 <= List.length (split "::" s))%nat.
Proof.
  induction s as [| c s IH]; intros H; [discriminate |].
  destruct (startsWith "::" (String c s)) eqn:E.
  - destruct s as [| d s]; [destruct c as [[] [] [] [] [] [] [] []]; discriminate |].
    assert (Ec : c = ":"%char /\ d = ":"%char).
    { cbn [startsWith] in E. rewrite andb_true_r in E.
      apply andb_true_iff in E as [E1 E2].
      apply Ascii.eqb_eq in E1, E2. auto. }
    destruct Ec as [-> ->]. change (String ":" (String ":" s)) with ("::" ++ s).
    rewrite split2_match. cbn [List.length].
    pose proof (splitFrom_nonempty "::" 0 s) as N. unfold split.
    destruct (splitFrom "::" 0 s); [congruence | cbn [List.length]; lia].
  - rewrite includes2_cons, E in H. cbn [orb] in H.
    destruct (split2_nomatch c s E) as (L & _). rewrite L. apply IH. exact H.
Qed.

(** Two occurrences of [::] that do not overlap give at least three
    pieces. *)
Lemma split2_length_ge3 x y z :
  (3 <= List.length (split "::" (x ++ "::" ++ y ++ "::" ++ z)))%nat.
Proof.
  induction x as [| c x IH].
  - change ("" ++ "::" ++ y ++ "::" ++ z) with ("::" ++ (y ++ "::" ++ z)).
    rewrite split2_match. cbn [List.length].
    pose proof (split2_length_ge2 _ (includes2_intro y z)). lia.
  - change (String c x ++ "::" ++ y ++ "::" ++ z)
      with (String c (x ++ "::" ++ y ++ "::" ++ z)).
    destruct (startsWith "::" (String c (x ++ "::" ++ y ++ "::" ++ z))) eqn:E.
    + assert (Ec : c = ":"%char).
      { cbn [startsWith] in E. destruct (x ++ "::" ++ y ++ "::" ++ z);
          [rewrite andb_false_r in E; discriminate |].
        apply andb_true_iff in E as [E1 _]. apply Ascii.eqb_eq in E1. auto. }
      subst c. destruct x as [| d x].
      * change (String ":" ("" ++ "::" ++ y ++ "::" ++ z))
          with ("::" ++ ((":" ++ y) ++ "::" ++ z)).
        rewrite split2_match. cbn [List.length].
        pose proof (split2_length_ge2 _ (includes2_intro (":" ++ y) z)). lia.
      * assert (Ed : d = ":"%char).
        { cbn [startsWith append] in E. rewrite andb_true_r in E.
          apply andb_true_iff in E as [_ E2]. apply Ascii.eqb_eq in E2. auto. }
        subst d.
        change (String ":" (String ":" x ++ "::" ++ y ++ "::" ++ z))
          with ("::" ++ (x ++ "::" ++ (y ++ "::" ++ z))).
        rewrite split2_match. cbn [List.length].
        pose proof (split2_length_ge2 _ (includes2_intro x (y ++ "::" ++ z))). lia.
    + destruct (split2_nomatch c _ E) as (L & _). rewrite L. exact IH.
Qed.

End SplitColons.

(* ================================================================== *)
(** * IPv6: expansion *)
(* ================================================================== *)

Section IPv6Expansion.

Lemma isGroup_inv g :
  isGroup g = true ->
  includes ":" g = false
  /\ exists c t, g = String c t /\ Ascii.eqb ":" c = false.
Proof.
  unfold isGroup. intros H. apply andb_true_iff in H as [H1 H2].
  apply negb_true_iff in H1, H2. split; [exact H2 |].
  destruct g as [| c t]; [discriminate |]. exists c, t. split; [reflexivity |].
  rewrite includes_char_cons in H2. apply orb_false_iff in H2 as [H2 _]. exact H2.
Qed.

Lemma forallb_isGroup_Forall G :
  forallb isGroup G = true -> Forall (fun g => includes ":" g = false) G.
Proof.
  intros H. apply Forall_forall. intros g Hg.
  rewrite forallb_forall in H. apply isGroup_inv. apply H. exact Hg.
Qed.

Lemma append_assoc (a b c : string) : (a ++ b) ++ c = a ++ (b ++ c).
Proof. induction a as [| x a IH]; [reflexivity |]. cbn [append]. rewrite IH. reflexivity. Qed.

(** A text that starts with a group does not start with a colon. *)
Lemma join_groups_head g rest :
  isGroup g = true ->
  exists c t, join ":" (g :: rest) = String c t /\ Ascii.eqb ":" c = false.
Proof.
  intros H. destruct (isGroup_inv g H) as (_ & c & t & -> & E).
  destruct rest as [| g2 rest].
  - exists c, t. split; [reflexivity | exact E].
  - exists c, (t ++ ":" ++ join ":" (g2 :: rest)). split; [reflexivity | exact E].
Qed.

(** No [::] starts inside a text without a colon. *)
Lemma includes2_skip g s :
  includes ":" g = false -> includes "::" (g ++ s) = includes "::" s.
Proof.
  induction g as [| c g IH]; intros H; [reflexivity |].
  rewrite includes_char_cons in H. apply orb_false_iff in H as [H1 H2].
  cbn [append]. rewrite includes2_cons, (IH H2).
  cbn [startsWith]. rewrite H1. reflexivity.
Qed.

(** Groups joined by single colons, with a colon after them, hold no
    [::]. *)
Lemma join_groups_colon G :
  forallb isGroup G = true -> includes "::" (join ":" G ++ ":") = false.
Proof.
  induction G as [| g G IH]; intros H; [reflexivity |].
  cbn [forallb] in H. apply andb_true_iff in H as [Hg HG].
  destruct (isGroup_inv g Hg) as (Ng & _).
  destruct G as [| g2 G].
  - cbn [join]. rewrite includes2_skip by exact Ng. reflexivity.
  - change (join ":" (g :: g2 :: G)) with (g ++ ":" ++ join ":" (g2 :: G)).
    rewrite !append_assoc. rewrite includes2_skip by exact Ng.
    cbn [forallb] in HG. pose proof HG as HG'.
    apply andb_true_iff in HG' as [Hg2 _].
    destruct (join_groups_head g2 G Hg2) as (c & t & E & Ec).
    specialize (IH HG). rewrite E in *.
    change (":" ++ String c t ++ ":") with (String ":" (String c t ++ ":")).
    rewrite includes2_cons, IH. cbn [startsWith append]. rewrite Ec. reflexivity.
Qed.

Lemma startsWith_app p a b : startsWith p a = true -> startsWith p (a ++ b) = true.
Proof.
  revert a. induction p as [| c p IH]; intros a H; [reflexivity |].
  destruct a as [| d a]; [discriminate |]. cbn [startsWith append] in *.
  apply andb_true_iff in H as [H1 H2]. rewrite H1, (IH _ H2). reflexivity.
Qed.

Lemma includes_app_l p a b : includes p a = true -> includes p (a ++ b) = true.
Proof.
  induction a as [| c a IH]; intros H.
  - destruct p; [destruct b; reflexivity | discriminate].
  - cbn [includes] in H. apply orb_true_iff in H as [H | H].
    + cbn [append includes]. change (String c (a ++ b)) with (String c a ++ b).
      rewrite (startsWith_app _ _ _ H). reflexivity.
    + cbn [append includes]. rewrite (IH H). apply orb_true_r.
Qed.

Lemma join_groups_no_colons G :
  forallb isGroup G = true -> includes "::" (join ":" G) = false.
Proof.
  intros H. destruct (includes "::" (join ":" G)) eqn:E; [| reflexivity].
  apply (includes_app_l _ _ ":") in E. rewrite join_groups_colon in E by exact H.
  discriminate.
Qed.

(** The groups of one side of [::], as [expandIPv6] reads them. *)
Lemma side_groups G :
  forallb isGroup G = true ->
  (if (join ":" G =? "")%string then [] else split ":" (join ":" G)) = G.
Proof.
  intros H. destruct G as [| g G]; [reflexivity |].
  cbn [forallb] in H. pose proof H as H'. apply andb_true_iff in H' as [Hg _].
  destruct (join_groups_head g G Hg) as (c & t & E & _).
  rewrite E. cbn [String.eqb]. rewrite <- E.
  apply split_char_join; [discriminate |].
  apply forallb_isGroup_Forall. exact H.
Qed.

(** A text with one [::] between two lists of groups. *)
Lemma expandIPv6_compressed L R :
  forallb isGroup L = true ->
  forallb isGroup R = true ->
  expandIPv6 (join ":" L ++ "::" ++ join ":" R)
  = if (List.length L + List.length R <=? 8)%nat
    then Some (join ":" (map (padStart 4 "0")
                           (L ++ repeat "0000" (8 - List.length L - List.length R) ++ R)))
    else None.
Proof.
  intros HL HR. unfold expandIPv6.
  rewrite includes2_intro.
  rewrite split2_app by (apply join_groups_colon; exact HL).
  rewrite split2_none by (apply join_groups_no_colons; exact HR).
  cbn [List.length Nat.ltb Nat.leb nth].
  rewrite (side_groups L HL), (side_groups R HR).
  destruct (Nat.leb_spec (List.length L + List.length R) 8) as [Le | Gt].
  - destruct (Z.ltb_spec (8 - Z.of_nat (List.length L) - Z.of_nat (List.length R)) 0);
      [lia |].
    replace (Z.to_nat (8 - Z.of_nat (List.length L) - Z.of_nat (List.length R)))
      with (8 - List.length L - List.length R)%nat by lia.
    reflexivity.
  - destruct (Z.ltb_spec (8 - Z.of_nat (List.length L) - Z.of_nat (List.length R)) 0);
      [reflexivity | lia].
Qed.

(** A text of groups joined by single colons. *)
Lemma expandIPv6_explicit G :
  forallb isGroup G = true ->
  expandIPv6 (join ":" G)
  = if (List.length G =? 8)%nat
    then Some (join ":" (map (padStart 4 "0") G))
    else None.
Proof.
  intros H. unfold expandIPv6. rewrite (join_groups_no_colons G H).
  destruct G as [| g G]; [reflexivity |].
  rewrite split_char_join;
    [| discriminate | apply forallb_isGroup_Forall; exact H].
  destruct (List.length (g :: G) =? 8)%nat; reflexivity.
Qed.

(** What [expandIPv6] does with the colons: it fails on a text with two
    occurrences of [::] that do not overlap, and on a text without [::] that
    does not split on colons into exactly 8 groups; a text with one [::]
    between the groups [left] and [right] is expanded by inserting
    [8 - |left| - |right|] groups [0000] at the [::] when that number is not
    negative, and fails otherwise; every group is padded with zeros on the
    left to 4 characters. *)
Lemma expandIPv6_cases (x y z ip : string) (explicit left right : list string) :
  includes "::" ip = false ->
  forallb isGroup explicit = true ->
  forallb isGroup left = true ->
  forallb isGroup right = true ->
  expandIPv6 (x ++ "::" ++ y ++ "::" ++ z) = None
  /\ expandIPv6 ip
     = (if (List.length (split ":" ip) =? 8)%nat
        then Some (join ":" (map (padStart 4 "0") (split ":" ip)))
        else None)
  /\ expandIPv6 (join ":" explicit)
     = (if (List.length explicit =? 8)%nat
        then Some (join ":" (map (padStart 4 "0") explicit))
        else None)
  /\ expandIPv6 (join ":" left ++ "::" ++ join ":" right)
     = (if (List.length left + List.length right <=? 8)%nat
        then Some (join ":" (map (padStart 4 "0")
                               (left
                                ++ repeat "0000"
                                     (8 - List.length left - List.length right)
                                ++ right)))
        else None).
Proof.
  intros HI HE HL HR. split; [| split; [| split]].
  - unfold expandIPv6. rewrite includes2_intro.
    pose proof (split2_length_ge3 x y z) as G.
    destruct (Nat.ltb_spec 2 (List.length (split "::" (x ++ "::" ++ y ++ "::" ++ z))));
      [reflexivity | lia].
  - unfold expandIPv6. rewrite HI.
    destruct (List.length (split ":" ip) =? 8)%nat; reflexivity.
  - apply expandIPv6_explicit. exact HE.
  - apply expandIPv6_compressed; assumption.
Qed.

(** C6 (code defect).  A group that is no hexadecimal number, or one of
    five digits, is expanded like any other, and the address is accepted:
    [expandIPv6] pads and counts the groups and checks none of them. *)
Theorem C6_group_that_is_not_hexadecimal_accepted :
  expandIPv6 "zzzz::1" = Some "zzzz:0000:0000:0000:0000:0000:0000:0001"
  /\ expandIPv6 "12345::" = Some "12345:0000:0000:0000:0000:0000:0000:0000"
  /\ calculateSubnet "zzzz::1/64"
     = Some {| network := "zzzz:0000:0000:0000:0000:0000:0000:0000";
               broadcast := None;
               firstHost := Some "zzzz:0000:0000:0000:0000:0000:0000:0000";
               lastHost := Some "zzzz:0000:0000:0000:0000:0000:0000:0000";
               subnetMask := None;
               wildcardMask := None;
               totalHosts := 9007199254740991;
               usableHosts := 9007199254740989;
               cidr := 64;
               ipVersion := V6;
               networkClass := None;
               isPrivate := Some false;
               prefix := Some "zzzz:0000:0000:0000:0000:0000:0000:0000/64" |}
  /\ calculateSubnet "1.2.3.zz/24" = None.
Proof. repeat split; vm_compute; reflexivity. Qed.

End IPv6Expansion.

(* ================================================================== *)
(** * IPv6: enumeration of subnets *)
(* ================================================================== *)

Section IPv6Enumeration.

(** While the index fits in the bits added inside the group of the new
    boundary, one step of the inner loop adds it to that group and the loop
    stops. *)
Lemma addCarry_one_step bitsInPart j i newParts :
  0 < bitsInPart -> 0 < i < 2 ^ bitsInPart ->
  addCarry bitsInPart (S j) i newParts
  = setPart newParts j
      (Fin (band (integral (add (getPart newParts j)
                                (Fin (shl i (16 - bitsInPart))))) 0xFFFF)).
Proof.
  intros Hb Hi. cbn [addCarry].
  destruct (Z.ltb_spec 0 i); [| lia].
  rewrite Z.div_small by lia. destruct j; reflexivity.
Qed.

(** When the new prefix length is a multiple of 16 the shift is by 16 bits:
    the increment vanishes under [& 0xFFFF] and the carry never decreases,
    so every group up to the boundary is rewritten with its own value. *)
Lemma addCarry_boundary_step j i newParts :
  0 < i < 2 ^ 15 ->
  addCarry 0 (S j) i newParts
  = addCarry 0 j i
      (setPart newParts j
         (Fin (band (integral (add (getPart newParts j) (Fin (i * 2 ^ 16)))) 0xFFFF))).
Proof.
  intros Hi. cbn [addCarry]. destruct (Z.ltb_spec 0 i); [| lia].
  change (2 ^ 0) with 1. rewrite Z.div_1_r.
  assert (E : shl i (16 - 0) = i * 2 ^ 16).
  { unfold shl. change ((16 - 0) mod 32) with 16.
    rewrite (ToInt32_small i) by lia. rewrite Z.shiftl_mul_pow2 by lia.
    apply ToInt32_small. lia. }
  rewrite E. reflexivity.
Qed.

Lemma band_ffff x : band x 0xFFFF = ToUint32 x mod 65536.
Proof.
  unfold band. rewrite (ToInt32_small 65535) by lia.
  change 65535 with (Z.ones 16). rewrite Z.land_ones by lia.
  change (2 ^ 16) with 65536. unfold ToInt32, ToUint32.
  destruct (x mod 2 ^ 32 <? 2 ^ 31); [reflexivity |].
  replace (x mod 2 ^ 32 - 2 ^ 32) with (x mod 2 ^ 32 + (- 65536) * 65536) by lia.
  apply Z.mod_add. lia.
Qed.

Lemma shl_small i k : 0 <= k < 32 -> 0 <= i -> i * 2 ^ k < 2 ^ 31 -> shl i k = i * 2 ^ k.
Proof.
  intros Hk Hi Hs. unfold shl. rewrite (Z.mod_small k 32) by lia.
  assert (P : 0 < 2 ^ k) by (apply Z.pow_pos_nonneg; lia).
  rewrite (ToInt32_small i) by nia.
  rewrite Z.shiftl_mul_pow2 by lia. apply ToInt32_small. nia.
Qed.

Lemma getPart_partsOf bs j :
  (j < List.length bs)%nat -> getPart (partsOf bs) j = Fin (nth j bs 0).
Proof.
  revert j. induction bs as [| b bs IH]; intros j H; [cbn in H; lia |].
  destruct j as [| j]; [reflexivity |]. cbn [List.length] in H.
  unfold getPart in *. cbn [partsOf map nth]. apply IH. lia.
Qed.

Lemma setPart_same bs j :
  (j < List.length bs)%nat -> setPart (partsOf bs) j (Fin (nth j bs 0)) = partsOf bs.
Proof.
  revert j. induction bs as [| b bs IH]; intros j H; [cbn in H; lia |].
  destruct j as [| j]; [reflexivity |]. cbn [List.length] in H.
  cbn [partsOf map setPart nth]. f_equal. apply IH. lia.
Qed.

Lemma nth_range bs j :
  Forall (fun b => 0 <= b < 2 ^ 16) bs -> 0 <= nth j bs 0 < 2 ^ 16.
Proof.
  intros H. revert j. induction H as [| b bs Hb _ IH]; intros j.
  - destruct j; simpl; lia.
  - destruct j; [exact Hb | apply IH].
Qed.

(** With a shift by 16 bits the loop rewrites every group with its own
    value, whatever the index. *)
Lemma addCarry_boundary_id count i bs :
  0 < i < 2 ^ 15 ->
  Forall (fun b => 0 <= b < 2 ^ 16) bs ->
  (count <= List.length bs)%nat ->
  addCarry 0 count i (partsOf bs) = partsOf bs.
Proof.
  intros Hi Hb. induction count as [| j IH]; intros Hc; [reflexivity |].
  rewrite addCarry_boundary_step by exact Hi.
  rewrite getPart_partsOf by lia.
  pose proof (nth_range bs j Hb) as R.
  rewrite add_small by lia. cbn [integral]. rewrite band_ffff.
  unfold ToUint32. rewrite (Z.mod_small (_ + _) (2 ^ 32)) by lia.
  change (2 ^ 16) with 65536 in *.
  rewrite Z.mod_add by lia. rewrite Z.mod_small by lia.
  rewrite setPart_same by lia. apply IH. lia.
Qed.

Lemma addCarry_zero bitsInPart count parts : addCarry bitsInPart count 0 parts = parts.
Proof. destruct count; reflexivity. Qed.

Lemma map_const_repeat {A B : Type} (f : A -> B) (c : B) (l : list A) :
  (forall a, In a l -> f a = c) -> map f l = repeat c (List.length l).
Proof.
  induction l as [| a l IH]; intros H; [reflexivity |].
  cbn [map List.length repeat]. rewrite (H a (or_introl eq_refl)).
  f_equal. apply IH. intros a' Ha'. apply H. right. exact Ha'.
Qed.

(** X16.  Every new prefix length that is a multiple of 16 gives a list of equal
    entries: the network of the original prefix. *)
Lemma generateSubnetList_v6_group_boundary sn newCidr e bs :
  ipVersion sn = V6 ->
  expandIPv6 (network sn) = Some e ->
  map (fun part => parseInt part 16) (split ":" e) = map Fin bs ->
  Forall (fun b => 0 <= b < 2 ^ 16) bs ->
  cidr sn < newCidr -> 0 < newCidr <= 16 * Z.of_nat (List.length bs) ->
  Z.rem newCidr 16 = 0 ->
  generateSubnetList sn newCidr
  = repeat (join ":" (map printPart (partsOf bs)) ++ "/" ++ toString newCidr)
           (Z.to_nat (Z.min (2 ^ (newCidr - cidr sn)) 256)).
Proof.
  intros Hv He Hp Hb Hc Hn Hr. unfold generateSubnetList.
  destruct (Z.leb_spec newCidr (cidr sn)); [lia |]. rewrite Hv, He. cbv zeta.
  assert (T : truthy (Some e) = true).
  { unfold truthy. destruct e; [| reflexivity].
    cbn in Hp. destruct bs; discriminate Hp. }
  rewrite T, Hr.
  assert (Eb : map (fun part => Some (parseInt part 16)) (split ":" e) = partsOf bs).
  { unfold partsOf. rewrite <- (map_map Fin Some), <- Hp, map_map. reflexivity. }
  rewrite Eb. rewrite <- (length_indices (Z.min (2 ^ (newCidr - cidr sn)) 256)).
  apply map_const_repeat. intros i Hi. apply In_indices_inv in Hi.
  f_equal. f_equal. f_equal.
  destruct (Z.eq_dec i 0) as [-> | N]; [apply addCarry_zero |].
  apply addCarry_boundary_id; [lia | exact Hb |].
  assert ((newCidr - 1) / 16 < Z.of_nat (List.length bs)).
  { apply Z.div_lt_upper_bound; lia. }
  assert (0 <= (newCidr - 1) / 16) by (apply Z.div_pos; lia).
  lia.
Qed.

(** X17.  While the bits added stay inside the group of the new boundary, entry
    [i] adds [i * 2^(16 - bitsInPart)] to that group, modulo [2^16], and
    leaves the other groups as they are. *)
Lemma generateSubnetList_v6_within_group sn newCidr e bs :
  ipVersion sn = V6 ->
  expandIPv6 (network sn) = Some e ->
  map (fun part => parseInt part 16) (split ":" e) = map Fin bs ->
  Forall (fun b => 0 <= b < 2 ^ 16) bs ->
  cidr sn < newCidr -> 0 < newCidr <= 16 * Z.of_nat (List.length bs) ->
  0 < Z.rem newCidr 16 ->
  newCidr - cidr sn <= Z.rem newCidr 16 ->
  let j := Z.to_nat ((newCidr - 1) / 16) in
  let step := 2 ^ (16 - Z.rem newCidr 16) in
  generateSubnetList sn newCidr
  = map (fun i =>
           join ":" (map printPart
                       (setPart (partsOf bs) j
                          (Fin ((nth j bs 0 + i * step) mod 2 ^ 16))))
           ++ "/" ++ toString newCidr)
        (indices (Z.min (2 ^ (newCidr - cidr sn)) 256)).
Proof.
  intros Hv He Hp Hb Hc Hn Hr Hw j step. unfold generateSubnetList.
  destruct (Z.leb_spec newCidr (cidr sn)); [lia |]. rewrite Hv, He. cbv zeta.
  assert (T : truthy (Some e) = true).
  { unfold truthy. destruct e; [| reflexivity].
    cbn in Hp. destruct bs; discriminate Hp. }
  rewrite T.
  assert (Eb : map (fun part => Some (parseInt part 16)) (split ":" e) = partsOf bs).
  { unfold partsOf. rewrite <- (map_map Fin Some), <- Hp, map_map. reflexivity. }
  rewrite Eb.
  pose proof (Z.rem_bound_pos newCidr 16 ltac:(lia) ltac:(lia)) as Rr.
  set (bits := Z.rem newCidr 16) in *.
  assert (Pw : 2 ^ (newCidr - cidr sn) <= 2 ^ bits) by (apply Z.pow_le_mono_r; lia).
  assert (Pb : 2 ^ bits <= 2 ^ 15) by (apply Z.pow_le_mono_r; lia).
  assert (Pa : 0 < 2 ^ (newCidr - cidr sn)) by (apply Z.pow_pos_nonneg; lia).
  apply map_ext_in. intros i Hi. apply In_indices_inv in Hi.
  f_equal. f_equal. f_equal.
  assert (J0 : 0 <= (newCidr - 1) / 16) by (apply Z.div_pos; lia).
  assert (J1 : (newCidr - 1) / 16 < Z.of_nat (List.length bs))
    by (apply Z.div_lt_upper_bound; lia).
  replace (Z.to_nat ((newCidr - 1) / 16 + 1)) with (S j) by lia.
  pose proof (nth_range bs j Hb) as R.
  assert (Ps : 0 < step) by (apply Z.pow_pos_nonneg; lia).
  assert (Es : 2 ^ 16 = 2 ^ bits * step).
  { subst step. rewrite <- Z.pow_add_r by lia. f_equal. lia. }
  destruct (Z.eq_dec i 0) as [-> | N].
  - rewrite addCarry_zero. rewrite Z.mul_0_l, Z.add_0_r, Z.mod_small by lia.
    symmetry. apply setPart_same. lia.
  - rewrite addCarry_one_step by lia. rewrite getPart_partsOf by lia.
    assert (I : i * step < 2 ^ 16) by nia.
    rewrite shl_small by (fold step; lia). fold step.
    rewrite add_small by lia. cbn [integral]. rewrite band_ffff.
    unfold ToUint32. rewrite (Z.mod_small (_ + _) (2 ^ 32)) by lia.
    reflexivity.
Qed.

(** X15.  Whatever the network and the new prefix length, at most 256 entries
    are built, and never more than [2^(newCidr - cidr)]. *)
Lemma generateSubnetList_length sn newCidr :
  (List.length (generateSubnetList sn newCidr) <= 256)%nat
  /\ Z.of_nat (List.length (generateSubnetList sn newCidr))
     <= Z.max 0 (2 ^ (newCidr - cidr sn)).
Proof.
  unfold generateSubnetList.
  destruct (Z.leb_spec newCidr (cidr sn)); [cbn [List.length]; lia |].
  assert (P : 0 < 2 ^ (newCidr - cidr sn)) by (apply Z.pow_pos_nonneg; lia).
  cbv zeta. destruct (ipVersion sn).
  - rewrite length_map, length_indices. lia.
  - destruct (expandIPv6 (network sn)) as [e |]; [| cbn [List.length]; lia].
    destruct (truthy (Some e)); [| cbn [List.length]; lia].
    rewrite length_map, length_indices. lia.
Qed.

(** C8 (code defect).  Splitting 2001:db8::/46 at /48, a multiple of 16,
    gives four times the same network.  Splitting 2001:db8::/62 at /66, where
    the index overflows the two bits of the boundary group, carries into the
    top bits of the group before: the fifth child is 2001:db8:0:4000::/66,
    outside the /62, where the network plus [4 * 2^62] is
    2001:db8:0:1::/66. *)
Theorem C8_children_repeat_or_leave_the_prefix :
  (exists sn,
     calculateSubnet "2001:db8::/46" = Some sn
     /\ generateSubnetList sn 48
        = repeat "2001:0db8:0000:0000:0000:0000:0000:0000/48" 4)
  /\ (exists sn,
        calculateSubnet "2001:db8::/62" = Some sn
        /\ nth 3 (generateSubnetList sn 66) ""
           = "2001:0db8:0000:0000:c000:0000:0000:0000/66"
        /\ nth 4 (generateSubnetList sn 66) ""
           = "2001:0db8:0000:4000:0000:0000:0000:0000/66"
        /\ isIPInSubnet "2001:0db8:0000:4000:0000:0000:0000:0000" sn
           = {| result := false; error := None |}).
Proof. split; eexists; repeat split; vm_compute; reflexivity. Qed.

End IPv6Enumeration.

(* ================================================================== *)
(** * IPv4: the whole result *)
(* ================================================================== *)

Section IPv4Record.

(** [calculateIPv4Subnet] in one equation. *)
Lemma calculateIPv4Subnet_record ip cidr :
  calculateIPv4Subnet ip cidr
  = if (cidr <? 0) || (32 <? cidr) then None
    else match map octet (split "." ip) with
         | [Some o0; Some o1; Some o2; Some o3] =>
             Some (ipv4Info (ipv4Value o0 o1 o2 o3) o0 cidr)
         | _ => None
         end.
Proof.
  unfold calculateIPv4Subnet.
  destruct ((cidr <? 0) || (32 <? cidr)); [reflexivity |].
  destruct (negb (List.length (split "." ip) =? 4)%nat) eqn:L.
  - apply negb_true_iff, Nat.eqb_neq in L.
    rewrite <- (length_map octet) in L.
    destruct (map octet (split "." ip))
      as [| [o0 |] [| [o1 |] [| [o2 |] [| [o3 |] [| ? ?]]]]]; try reflexivity.
    exfalso. apply L. reflexivity.
  - destruct (map octet (split "." ip))
      as [| [o0 |] [| [o1 |] [| [o2 |] [| [o3 |] [| ? ?]]]]] eqn:E; try reflexivity.
    destruct (octets_inv _ _ _ _ _ E) as (H0 & H1 & H2 & H3).
    pose proof (ipv4Value_range _ _ _ _ H0 H1 H2 H3) as Ra.
    cbv zeta. unfold ipv4Info. cbv zeta.
    set (m := shru (shl 4294967295 (32 - cidr)) 0).
    assert (Em : ToUint32 m = m) by (apply ToUint32_small, shru_bounds).
    assert (En : shru (band (shl o0 24 + shl o1 16 + shl o2 8 + o3) m) 0
                 = Z.land (ipv4Value o0 o1 o2 o3) m).
    { rewrite shru_band_0, ipInt_value, Em by assumption. reflexivity. }
    rewrite En. set (n := Z.land (ipv4Value o0 o1 o2 o3) m).
    assert (Rn : ToUint32 n = n).
    { subst n. rewrite <- En. rewrite shru_0. unfold ToUint32. apply Z.mod_mod. lia. }
    assert (Eb : shru (bor n (shru 4294967295 cidr)) 0 = Z.lor n (shru 4294967295 cidr)).
    { rewrite shru_bor_0, Rn. f_equal. apply ToUint32_small, shru_bounds. }
    rewrite Eb. reflexivity.
Qed.

End IPv4Record.

(* ================================================================== *)
(** * IPv4: properties of the results *)
(* ================================================================== *)

Section IPv4Properties.

(** The octets read from the text of an address. *)
Lemma octets_intToIPv4 n :
  map octet (split "." (intToIPv4 n))
  = [Some (octetAt 3 n); Some (octetAt 2 n); Some (octetAt 1 n); Some (octetAt 0 n)].
Proof.
  rewrite split_intToIPv4. cbn [map].
  rewrite !octet_toString by apply octetAt_range. reflexivity.
Qed.

Lemma ipv4Value_octetAt n :
  ipv4Value (octetAt 3 n) (octetAt 2 n) (octetAt 1 n) (octetAt 0 n) = ToUint32 n.
Proof. unfold ipv4Value. symmetry. apply octets_sum. Qed.

(** The result for the text of an address. *)
Lemma calculateIPv4Subnet_intToIPv4 n cidr :
  0 <= n < 2 ^ 32 -> 0 <= cidr <= 32 ->
  calculateIPv4Subnet (intToIPv4 n) cidr = Some (ipv4Info n (octetAt 3 n) cidr).
Proof.
  intros Rn Rc. rewrite calculateIPv4Subnet_record.
  destruct (Z.ltb_spec cidr 0); [lia |]. destruct (Z.ltb_spec 32 cidr); [lia |].
  cbn [orb]. rewrite octets_intToIPv4, ipv4Value_octetAt, ToUint32_small by exact Rn.
  reflexivity.
Qed.

(** The result of an accepted input. *)
Lemma calculateIPv4Subnet_Some ip cidr info :
  calculateIPv4Subnet ip cidr = Some info ->
  exists o0 o1 o2 o3,
    map octet (split "." ip) = [Some o0; Some o1; Some o2; Some o3]
    /\ 0 <= cidr <= 32
    /\ 0 <= ipv4Value o0 o1 o2 o3 < 2 ^ 32
    /\ 0 <= o0 <= 255
    /\ info = ipv4Info (ipv4Value o0 o1 o2 o3) o0 cidr.
Proof.
  rewrite calculateIPv4Subnet_record.
  destruct (Z.ltb_spec cidr 0) as [? | C0]; [discriminate |].
  destruct (Z.ltb_spec 32 cidr) as [? | C32]; [discriminate |]. cbn [orb].
  destruct (map octet (split "." ip))
    as [| [o0 |] [| [o1 |] [| [o2 |] [| [o3 |] [| ? ?]]]]] eqn:E; try discriminate.
  intros H. apply Some_inj in H. exists o0, o1, o2, o3.
  destruct (octets_inv _ _ _ _ _ E) as (H0 & H1 & H2 & H3).
  repeat split; try lia; try (apply ipv4Value_range; assumption).
  symmetry. exact H.
Qed.

(** The network as an integer: in range, and unchanged by the mask. *)
Lemma network_land_facts a cidr :
  0 <= a < 2 ^ 32 -> 0 <= cidr <= 32 ->
  let m := shru (shl 0xFFFFFFFF (32 - cidr)) 0 in
  0 <= Z.land a m < 2 ^ 32 /\ Z.land (Z.land a m) m = Z.land a m.
Proof.
  intros Ra Rc m. split.
  - destruct (Z.eq_dec cidr 0) as [-> | N].
    + subst m. rewrite network_value_0 by exact Ra. exact Ra.
    + subst m. rewrite network_value by lia.
      assert (P : 0 < 2 ^ (32 - cidr)) by (apply Z.pow_pos_nonneg; lia).
      pose proof (Z.mod_pos_bound a _ P). pose proof (Z.mod_le a _ ltac:(lia) P). lia.
  - rewrite <- Z.land_assoc, Z.land_diag. reflexivity.
Qed.

(** X1.  Computing again from the network text with the same prefix length
    gives the same result, but for the class, which is read from the first
    octet of the text given; from the prefix length 8 on the whole result is
    the same. *)
Theorem recomputing_from_the_network_ipv4 ip cidr info :
  calculateIPv4Subnet ip cidr = Some info ->
  exists info',
    calculateIPv4Subnet (network info) cidr = Some info'
    /\ network info' = network info
    /\ broadcast info' = broadcast info
    /\ firstHost info' = firstHost info
    /\ lastHost info' = lastHost info
    /\ subnetMask info' = subnetMask info
    /\ wildcardMask info' = wildcardMask info
    /\ totalHosts info' = totalHosts info
    /\ usableHosts info' = usableHosts info
    /\ Utils.cidr info' = Utils.cidr info
    /\ isPrivate info' = isPrivate info
    /\ (8 <= cidr -> info' = info).
Proof.
  intros H.
  destruct (calculateIPv4Subnet_Some _ _ _ H) as (o0 & o1 & o2 & o3 & E & Rc & Ra & R0 & ->).
  set (a := ipv4Value o0 o1 o2 o3) in *.
  destruct (network_land_facts a cidr Ra Rc) as (Rn & Idem).
  cbn [network ipv4Info].
  rewrite calculateIPv4Subnet_intToIPv4 by assumption.
  eexists. split; [reflexivity |].
  unfold ipv4Info. cbv zeta.
  cbn [network broadcast firstHost lastHost subnetMask wildcardMask totalHosts
       usableHosts Utils.cidr isPrivate].
  rewrite !Idem. repeat split.
  intros H8. f_equal. f_equal.
  (* the first octet survives the mask *)
  destruct (octets_inv _ _ _ _ _ E) as (H0 & H1 & H2 & H3).
  rewrite network_value by lia.
  unfold octetAt. change (2 ^ (8 * 3)) with (2 ^ 24).
  set (h := 32 - cidr).
  assert (P : 0 < 2 ^ h) by (apply Z.pow_pos_nonneg; lia).
  assert (P' : 0 < 2 ^ (24 - h)) by (apply Z.pow_pos_nonneg; lia).
  assert (E24 : 2 ^ 24 = 2 ^ h * 2 ^ (24 - h))
    by (rewrite <- Z.pow_add_r by lia; f_equal; lia).
  pose proof (Z.mod_pos_bound a _ P). pose proof (Z.mod_le a _ ltac:(lia) P).
  rewrite ToUint32_small by lia.
  assert (D : a - a mod 2 ^ h = 2 ^ h * (a / 2 ^ h))
    by (pose proof (Z.div_mod a (2 ^ h)); lia).
  rewrite D, E24, Z.div_mul_cancel_l by lia.
  rewrite Z.div_div by lia. rewrite <- E24.
  assert (Q : a / 2 ^ 24 = o0).
  { subst a. unfold ipv4Value.
    symmetry. apply Z.div_unique with (r := o1 * 2 ^ 16 + o2 * 2 ^ 8 + o3); lia. }
  rewrite Q, Z.mod_small by lia. reflexivity.
Qed.

(** X1 on 192.168.1.77/24. *)
Lemma recomputing_from_the_network_ipv4_witness :
  exists info,
    calculateIPv4Subnet "192.168.1.77" 24 = Some info
    /\ exists info',
      calculateIPv4Subnet (network info) 24 = Some info'
      /\ network info' = network info
      /\ broadcast info' = broadcast info
      /\ firstHost info' = firstHost info
      /\ lastHost info' = lastHost info
      /\ subnetMask info' = subnetMask info
      /\ wildcardMask info' = wildcardMask info
      /\ totalHosts info' = totalHosts info
      /\ usableHosts info' = usableHosts info
      /\ Utils.cidr info' = Utils.cidr info
      /\ isPrivate info' = isPrivate info
      /\ (8 <= 24 -> info' = info).
Proof.
  eexists. split; [vm_compute; reflexivity |].
  apply (recomputing_from_the_network_ipv4 "192.168.1.77" 24). vm_compute. reflexivity.
Defined.

Lemma octetText_no_colon_all :
  forallb (fun k => negb (includes ":" (toString k))) (indices 256) = true.
Proof. vm_compute. reflexivity. Qed.

Lemma intToIPv4_no_colon n : includes ":" (intToIPv4 n) = false.
Proof.
  assert (O : forall k, includes ":" (toString (octetAt k n)) = false).
  { intros k. pose proof octetText_no_colon_all as A. rewrite forallb_forall in A.
    apply negb_true_iff. apply A. apply In_indices.
    pose proof (octetAt_range k n). lia. }
  rewrite intToIPv4_octets. cbn [map join].
  rewrite !includes_char_app, !O. reflexivity.
Qed.

(** X2.  An address given without a prefix length is a host: the result has
    the prefix length 32, the address itself as network, first and last
    host, one address and no usable host.  The text of the address comes
    back unchanged.  The broadcast is 255.255.255.255 whatever the
    address. *)
Theorem host_address_without_prefix_length n :
  0 <= n < 2 ^ 32 ->
  calculateSubnet (intToIPv4 n)
  = Some {| network := intToIPv4 n;
            broadcast := Some "255.255.255.255";
            firstHost := Some (intToIPv4 n);
            lastHost := Some (intToIPv4 n);
            subnetMask := Some "255.255.255.255";
            wildcardMask := Some "0.0.0.0";
            totalHosts := 1;
            usableHosts := 0;
            cidr := 32;
            ipVersion := V4;
            networkClass := Some (classOf (octetAt 3 n));
            isPrivate := Some (isPrivateIPv4 n);
            prefix := None |}.
Proof.
  intros Rn. unfold calculateSubnet.
  rewrite intToIPv4_no_slash, intToIPv4_no_colon. cbn [negb].
  rewrite calculateIPv4Subnet_intToIPv4 by lia.
  unfold ipv4Info. cbv zeta.
  change (shru (shl 4294967295 (32 - 32)) 0) with (Z.ones 32).
  change (shru 4294967295 32) with (Z.ones 32).
  change (1 <? 32 - 32) with false. cbv iota.
  assert (En : Z.land n (Z.ones 32) = n)
    by (rewrite Z.land_ones by lia; apply Z.mod_small; lia).
  assert (Eb : Z.lor n (Z.ones 32) = Z.ones 32).
  { apply Z.lor_ones_low; [lia |].
    destruct (Z.eq_dec n 0) as [-> | N]; [simpl; lia |].
    apply Z.log2_lt_pow2; lia. }
  rewrite En, Eb. reflexivity.
Qed.

(** X2 on 10.1.2.3. *)
Lemma host_address_without_prefix_length_witness :
  calculateSubnet "10.1.2.3"
  = Some {| network := "10.1.2.3";
            broadcast := Some "255.255.255.255";
            firstHost := Some "10.1.2.3";
            lastHost := Some "10.1.2.3";
            subnetMask := Some "255.255.255.255";
            wildcardMask := Some "0.0.0.0";
            totalHosts := 1;
            usableHosts := 0;
            cidr := 32;
            ipVersion := V4;
            networkClass := Some "A";
            isPrivate := Some true;
            prefix := None |}.
Proof.
  exact (host_address_without_prefix_length 167838211 ltac:(lia)).
Defined.

Lemma bnot_unsigned m : 0 <= m < 2 ^ 32 -> shru (bnot m) 0 = 2 ^ 32 - 1 - m.
Proof.
  intros Rm. rewrite shru_0. unfold bnot.
  pose proof (Z.add_lnot_diag (ToInt32 m)) as D.
  replace (Z.lnot (ToInt32 m)) with (- 1 - ToInt32 m) by lia.
  unfold ToUint32, ToInt32. rewrite (Z.mod_small m) by lia.
  destruct (Z.ltb_spec m (2 ^ 31)).
  - replace (- 1 - m) with (2 ^ 32 - 1 - m + (- 1) * 2 ^ 32) by lia.
    rewrite Z.mod_add by lia. apply Z.mod_small. lia.
  - replace (- 1 - (m - 2 ^ 32)) with (2 ^ 32 - 1 - m) by lia.
    apply Z.mod_small. lia.
Qed.

(** X3.  The subnet mask and the wildcard mask of a result are the texts of
    two integers that add up to [0xFFFFFFFF]; from the prefix length 1 on the
    mask has its top [cidr] bits set and the wildcard is the number of
    addresses minus one; at the prefix length 0 the mask is
    255.255.255.255 and the wildcard 0.0.0.0, as at 32. *)
Theorem mask_and_wildcard ip cidr info :
  calculateIPv4Subnet ip cidr = Some info ->
  exists m,
    0 <= m < 2 ^ 32
    /\ subnetMask info = Some (intToIPv4 m)
    /\ wildcardMask info = Some (intToIPv4 (2 ^ 32 - 1 - m))
    /\ (1 <= cidr -> m = 2 ^ 32 - 2 ^ (32 - cidr)
                     /\ 2 ^ 32 - 1 - m = totalHosts info - 1)
    /\ (cidr = 0 -> m = 2 ^ 32 - 1).
Proof.
  intros H.
  destruct (calculateIPv4Subnet_Some _ _ _ H) as (o0 & o1 & o2 & o3 & _ & Rc & _ & _ & ->).
  exists (shru (shl 0xFFFFFFFF (32 - cidr)) 0).
  pose proof (shru_bounds (shl 0xFFFFFFFF (32 - cidr)) 0) as Rm.
  split; [exact Rm |]. split; [reflexivity |]. split; [| split].
  - cbn [wildcardMask ipv4Info]. rewrite bnot_unsigned by exact Rm. reflexivity.
  - intros Hc. cbn [totalHosts ipv4Info]. rewrite mask_value by lia. lia.
  - intros ->. reflexivity.
Qed.

(** X3 on 172.16.5.4/20. *)
Lemma mask_and_wildcard_witness :
  exists info,
    calculateIPv4Subnet "172.16.5.4" 20 = Some info
    /\ exists m,
      0 <= m < 2 ^ 32
      /\ subnetMask info = Some (intToIPv4 m)
      /\ wildcardMask info = Some (intToIPv4 (2 ^ 32 - 1 - m))
      /\ (1 <= 20 -> m = 2 ^ 32 - 2 ^ (32 - 20)
                      /\ 2 ^ 32 - 1 - m = totalHosts info - 1)
      /\ (20 = 0 -> m = 2 ^ 32 - 1).
Proof.
  eexists. split; [vm_compute; reflexivity |].
  apply (mask_and_wildcard "172.16.5.4" 20). vm_compute. reflexivity.
Defined.

(** X4.  The broadcast of a result: for a prefix length from 1 to 31 it is
    the last address of the block, the network plus the number of addresses
    minus one; at the prefix lengths 0 and 32 it is 255.255.255.255. *)
Theorem broadcast_of_the_block ip cidr info :
  calculateIPv4Subnet ip cidr = Some info ->
  exists n b,
    0 <= n < 2 ^ 32 /\ 0 <= b < 2 ^ 32
    /\ network info = intToIPv4 n
    /\ broadcast info = Some (intToIPv4 b)
    /\ (1 <= cidr <= 31 -> n mod totalHosts info = 0 /\ b = n + totalHosts info - 1)
    /\ (cidr = 0 \/ cidr = 32 -> b = 2 ^ 32 - 1).
Proof.
  intros H.
  destruct (calculateIPv4Subnet_Some _ _ _ H) as (o0 & o1 & o2 & o3 & _ & Rc & Ra & _ & ->).
  set (a := ipv4Value o0 o1 o2 o3) in *.
  destruct (network_land_facts a cidr Ra Rc) as (Rn & _).
  set (n := Z.land a (shru (shl 4294967295 (32 - cidr)) 0)) in *.
  exists n, (Z.lor n (shru 0xFFFFFFFF cidr)).
  assert (Rb : 0 <= Z.lor n (shru 0xFFFFFFFF cidr) < 2 ^ 32).
  { replace (Z.lor n (shru 0xFFFFFFFF cidr))
      with (ToUint32 (Z.lor n (shru 0xFFFFFFFF cidr))); [apply ToUint32_range |].
    rewrite ToUint32_lor, (ToUint32_small n) by exact Rn.
    rewrite (ToUint32_small (shru _ _)) by apply shru_bounds. reflexivity. }
  split; [exact Rn |]. split; [exact Rb |].
  split; [reflexivity |]. split; [reflexivity |]. split.
  - intros Hc. cbn [totalHosts ipv4Info].
    assert (A : n mod 2 ^ (32 - cidr) = 0).
    { subst n. rewrite network_value by lia. apply sub_mod_aligned. lia. }
    split; [exact A |]. apply broadcast_value; [lia | exact A].
  - intros Hc.
    assert (E : shru 0xFFFFFFFF cidr = Z.ones 32) by (destruct Hc as [-> | ->]; reflexivity).
    rewrite E. apply Z.lor_ones_low; [lia |].
    destruct (Z.eq_dec n 0) as [E0 | N]; [rewrite E0; simpl; lia |].
    apply Z.log2_lt_pow2; lia.
Qed.

(** X4 on 10.20.30.40/12. *)
Lemma broadcast_of_the_block_witness :
  exists info,
    calculateIPv4Subnet "10.20.30.40" 12 = Some info
    /\ exists n b,
      0 <= n < 2 ^ 32 /\ 0 <= b < 2 ^ 32
      /\ network info = intToIPv4 n
      /\ broadcast info = Some (intToIPv4 b)
      /\ (1 <= 12 <= 31 -> n mod totalHosts info = 0 /\ b = n + totalHosts info - 1)
      /\ (12 = 0 \/ 12 = 32 -> b = 2 ^ 32 - 1).
Proof.
  eexists. split; [vm_compute; reflexivity |].
  apply (broadcast_of_the_block "10.20.30.40" 12). vm_compute. reflexivity.
Defined.


(** The candidate of a check is read up to its first slash. *)
Lemma isIPInSubnet_strip a rest sn :
  includes "/" a = false ->
  isIPInSubnet (a ++ "/" ++ rest) sn = isIPInSubnet a sn.
Proof.
  intros H. unfold isIPInSubnet.
  rewrite includes_char_app, H.
  change ("/" ++ rest) with (String "/" rest).
  rewrite includes_char_cons. cbn [Ascii.eqb Bool.eqb orb].
  rewrite split_char_app by exact H. reflexivity.
Qed.

(** X5.  The addresses of a result are inside the result, for the
    program's own check: the input address and the network at every prefix
    length; the broadcast from the prefix length 1 to 31; the first and the
    last host from 1 to 30. *)
Theorem own_addresses_are_inside ip cidr info :
  includes "/" ip = false ->
  calculateIPv4Subnet ip cidr = Some info ->
  let inside := {| result := true; error := None |} in
  isIPInSubnet ip info = inside
  /\ isIPInSubnet (network info) info = inside
  /\ (1 <= cidr <= 31 ->
      forall b, broadcast info = Some b -> isIPInSubnet b info = inside)
  /\ (1 <= cidr <= 30 ->
      forall f l, firstHost info = Some f -> lastHost info = Some l ->
                  isIPInSubnet f info = inside /\ isIPInSubnet l info = inside).
Proof.
  intros Hs H inside.
  destruct (calculateIPv4Subnet_Some _ _ _ H) as (o0 & o1 & o2 & o3 & E & Rc & Ra & _ & ->).
  set (a := ipv4Value o0 o1 o2 o3) in *.
  destruct (network_land_facts a cidr Ra Rc) as (Rn & Idem).
  set (m := shru (shl 4294967295 (32 - cidr)) 0) in *.
  set (n := Z.land a m) in *.
  set (info := ipv4Info a o0 cidr) in *.
  assert (Hn : network info = intToIPv4 n) by reflexivity.
  assert (Hc : Utils.cidr info = cidr) by reflexivity.
  assert (Hv : ipVersion info = V4) by reflexivity.
  split; [| split; [| split]].
  - unfold isIPInSubnet. rewrite Hs, Hv.
    rewrite (isIPv4InSubnet_masked ip info n o0 o1 o2 o3 E Hn Rn).
    rewrite Hc. fold m. fold a. fold n. rewrite Idem, Z.eqb_refl. reflexivity.
  - rewrite Hn. unfold isIPInSubnet. rewrite intToIPv4_no_slash, Hv.
    rewrite (isIPv4InSubnet_masked _ info n _ _ _ _ (octets_intToIPv4 n) Hn Rn).
    rewrite ipv4Value_octetAt, ToUint32_small, Z.eqb_refl by exact Rn. reflexivity.
  - intros R b Hb.
    change (broadcast info) with (Some (intToIPv4 (Z.lor n (shru 0xFFFFFFFF cidr)))) in Hb.
    apply Some_inj in Hb. subst b.
    assert (A : n mod 2 ^ (32 - cidr) = 0).
    { subst n m. rewrite network_value by lia. apply sub_mod_aligned. lia. }
    assert (P : 2 ^ 1 <= 2 ^ (32 - cidr)) by (apply Z.pow_le_mono_r; lia).
    pose proof (broadcast_value n cidr ltac:(lia) A) as Eb. rewrite Eb.
    assert (N32 : n + 2 ^ (32 - cidr) <= 2 ^ 32).
    { assert (Rb : 0 <= Z.lor n (shru 0xFFFFFFFF cidr) < 2 ^ 32).
      { replace (Z.lor n (shru 0xFFFFFFFF cidr))
          with (ToUint32 (Z.lor n (shru 0xFFFFFFFF cidr))); [apply ToUint32_range |].
        rewrite ToUint32_lor, (ToUint32_small n) by exact Rn.
        rewrite (ToUint32_small (shru _ _)) by apply shru_bounds. reflexivity. }
      lia. }
    rewrite (isIPInSubnet_ipv4_address _ info n) by (rewrite ?Hc; (assumption || lia)).
    rewrite Hc. unfold inside. f_equal.
    apply andb_true_iff. split; [apply Z.leb_le | apply Z.ltb_lt]; lia.
  - intros R f l Hf Hl.
    change (firstHost info)
      with (Some (if 1 <? 32 - cidr then intToIPv4 (n + 1) else intToIPv4 n)) in Hf.
    change (lastHost info)
      with (Some (if 1 <? 32 - cidr
                  then intToIPv4 (Z.lor n (shru 0xFFFFFFFF cidr) - 1)
                  else intToIPv4 n)) in Hl.
    apply Some_inj in Hf, Hl. subst f l.
    assert (A : n mod 2 ^ (32 - cidr) = 0).
    { subst n m. rewrite network_value by lia. apply sub_mod_aligned. lia. }
    assert (P : 2 ^ 2 <= 2 ^ (32 - cidr)) by (apply Z.pow_le_mono_r; lia).
    pose proof (broadcast_value n cidr ltac:(lia) A) as Eb.
    assert (N32 : n + 2 ^ (32 - cidr) <= 2 ^ 32).
    { assert (Rb : 0 <= Z.lor n (shru 0xFFFFFFFF cidr) < 2 ^ 32).
      { replace (Z.lor n (shru 0xFFFFFFFF cidr))
          with (ToUint32 (Z.lor n (shru 0xFFFFFFFF cidr))); [apply ToUint32_range |].
        rewrite ToUint32_lor, (ToUint32_small n) by exact Rn.
        rewrite (ToUint32_small (shru _ _)) by apply shru_bounds. reflexivity. }
      lia. }
    destruct (Z.ltb_spec 1 (32 - cidr)); [| lia]. rewrite Eb.
    rewrite !(isIPInSubnet_ipv4_address _ info n) by (rewrite ?Hc; (assumption || lia)).
    rewrite Hc. unfold inside.
    split; f_equal; apply andb_true_iff;
      (split; [apply Z.leb_le | apply Z.ltb_lt]); lia.
Qed.

(** X5 on 192.168.7.9/22. *)
Lemma own_addresses_are_inside_witness :
  exists info,
    calculateIPv4Subnet "192.168.7.9" 22 = Some info
    /\ isIPInSubnet "192.168.7.9" info = {| result := true; error := None |}
    /\ isIPInSubnet (network info) info = {| result := true; error := None |}
    /\ (1 <= 22 <= 31 ->
        forall b, broadcast info = Some b ->
                  isIPInSubnet b info = {| result := true; error := None |})
    /\ (1 <= 22 <= 30 ->
        forall f l, firstHost info = Some f -> lastHost info = Some l ->
                    isIPInSubnet f info = {| result := true; error := None |}
                    /\ isIPInSubnet l info = {| result := true; error := None |}).
Proof.
  eexists. split; [vm_compute; reflexivity |].
  apply (own_addresses_are_inside "192.168.7.9" 22); vm_compute; reflexivity.
Defined.

(** X6.  [isPrivateIPv4] is true exactly on the three blocks 10.0.0.0/8,
    172.16.0.0/12 and 192.168.0.0/16. *)
Theorem isPrivateIPv4_blocks n :
  0 <= n < 2 ^ 32 ->
  isPrivateIPv4 n
  = ((10 * 2 ^ 24 <=? n) && (n <? 11 * 2 ^ 24))
    || ((172 * 2 ^ 24 + 16 * 2 ^ 16 <=? n) && (n <? 172 * 2 ^ 24 + 32 * 2 ^ 16))
    || ((192 * 2 ^ 24 + 168 * 2 ^ 16 <=? n) && (n <? 192 * 2 ^ 24 + 169 * 2 ^ 16)).
Proof.
  intros Rn. unfold isPrivateIPv4. cbv zeta. rewrite !band_ff.
  rewrite !(ToUint32_small (shru n _)) by (apply shru_range; lia).
  rewrite !shru_div by lia. rewrite ToUint32_small by exact Rn.
  change (2 ^ 24) with 16777216. change (2 ^ 16) with 65536.
  change (2 ^ 32) with 4294967296 in Rn.
  set (q := n / 65536).
  assert (Q : n / 16777216 = q / 256) by (subst q; rewrite Z.div_div by lia; reflexivity).
  rewrite Q.
  pose proof (Z.div_mod n 65536 ltac:(lia)) as D1.
  pose proof (Z.mod_pos_bound n 65536 ltac:(lia)) as B1. fold q in D1.
  pose proof (Z.div_mod q 256 ltac:(lia)) as D2.
  pose proof (Z.mod_pos_bound q 256 ltac:(lia)) as B2.
  assert (Rq : 0 <= q / 256 < 256).
  { split; [apply Z.div_pos; subst q; [apply Z.div_pos |]; lia |].
    apply Z.div_lt_upper_bound; [lia |]. subst q.
    apply Z.div_lt_upper_bound; lia. }
  rewrite (Z.mod_small (q / 256)) by lia.
  set (o3 := q / 256) in *. set (o2 := q mod 256) in *. set (r := n mod 65536) in *.
  apply Bool.eq_iff_eq_true.
  rewrite !orb_true_iff, !andb_true_iff, !Z.eqb_eq, !Z.leb_le, !Z.ltb_lt.
  lia.
Qed.

(** X6 on 172.31.255.255 and 172.32.0.0. *)
Lemma isPrivateIPv4_blocks_witness :
  isPrivateIPv4 2887778303 = true /\ isPrivateIPv4 2887778304 = false.
Proof.
  rewrite !isPrivateIPv4_blocks by lia. split; reflexivity.
Defined.


(** X7.  Every subnet of the list of an IPv4 prefix (prefix length from 1
    on) is inside the prefix, for the program's own check applied to the
    line of the list. *)
Theorem listed_subnets_are_inside_ipv4 sn n newCidr entry :
  ipVersion sn = V4 ->
  network sn = intToIPv4 n ->
  0 <= n < 2 ^ 32 ->
  1 <= cidr sn ->
  n mod 2 ^ (32 - cidr sn) = 0 ->
  cidr sn < newCidr <= 32 ->
  In entry (generateSubnetList sn newCidr) ->
  isIPInSubnet entry sn = {| result := true; error := None |}.
Proof.
  intros Hv Hn Rn Hc Ha Hw Hin.
  rewrite (generateSubnetList_v4 sn n newCidr Hv Hn ltac:(lia) Hw) in Hin.
  apply in_map_iff in Hin as (i & <- & Hi). apply In_indices_inv in Hi.
  rewrite isIPInSubnet_strip by apply intToIPv4_no_slash.
  set (size := 2 ^ (32 - newCidr)) in *.
  assert (Ps : 0 < size) by (apply Z.pow_pos_nonneg; lia).
  assert (Pb : 0 < 2 ^ (newCidr - cidr sn)) by (apply Z.pow_pos_nonneg; lia).
  assert (Eh : 2 ^ (32 - cidr sn) = 2 ^ (newCidr - cidr sn) * size).
  { subst size. rewrite <- Z.pow_add_r by lia. f_equal. lia. }
  assert (D : n = 2 ^ (32 - cidr sn) * (n / 2 ^ (32 - cidr sn)))
    by (apply Z_div_exact_full_2; lia).
  set (q := n / 2 ^ (32 - cidr sn)) in *.
  assert (E32 : 2 ^ 32 = 2 ^ cidr sn * 2 ^ (32 - cidr sn))
    by (rewrite <- Z.pow_add_r by lia; f_equal; lia).
  assert (Ph : 0 < 2 ^ (32 - cidr sn)) by (apply Z.pow_pos_nonneg; lia).
  assert (Q : q < 2 ^ cidr sn) by nia.
  assert (I : 0 <= i * size <= 2 ^ (32 - cidr sn) - size) by nia.
  assert (T : n + 2 ^ (32 - cidr sn) <= 2 ^ 32) by nia.
  rewrite (isIPInSubnet_ipv4_address _ sn n) by (assumption || lia).
  f_equal. apply andb_true_iff. split; [apply Z.leb_le | apply Z.ltb_lt]; lia.
Qed.

(** X7 on 192.168.1.0/24 split at /26, third line. *)
Lemma listed_subnets_are_inside_ipv4_witness :
  isIPInSubnet "192.168.1.128/26" net_192_168_1_0_24
  = {| result := true; error := None |}.
Proof.
  apply (listed_subnets_are_inside_ipv4 net_192_168_1_0_24 3232235776 26);
    [reflexivity | vm_compute; reflexivity | lia | simpl; lia
     | vm_compute; reflexivity | simpl; lia | vm_compute; tauto].
Defined.

End IPv4Properties.

(* ================================================================== *)
(** * Expanded IPv6 texts *)
(* ================================================================== *)

Section IPv6Shape.

(** No piece of a split holds the separator. *)
Lemma split_char_pieces c s :
  Forall (fun p => includes (String c "") p = false) (split (String c "") s).
Proof.
  unfold split. induction s as [| b s IH].
  - repeat constructor.
  - cbn [splitFrom]. rewrite startsWith_char_cons.
    destruct (Ascii.eqb c b) eqn:E.
    + constructor; [reflexivity | exact IH].
    + destruct (splitFrom (String c "") 0 s) as [| p ps].
      * repeat constructor. rewrite includes_char_cons, E. reflexivity.
      * inversion IH as [| ? ? Hp Hps]; subst. constructor; [| exact Hps].
        rewrite includes_char_cons, E. exact Hp.
Qed.

Lemma length_append a b : String.length (a ++ b) = (String.length a + String.length b)%nat.
Proof. induction a as [| x a IH]; simpl; [reflexivity | rewrite IH; reflexivity]. Qed.

Lemma length_repeatChar c n : String.length (repeatChar c n) = n.
Proof. induction n as [| n IH]; simpl; [reflexivity | rewrite IH; reflexivity]. Qed.

Lemma includes_repeat_zero n : includes ":" (repeatChar "0" n) = false.
Proof.
  induction n as [| n IH]; [reflexivity |].
  cbn [repeatChar]. rewrite includes_char_cons, IH. reflexivity.
Qed.

Lemma padStart_length g : (4 <= String.length (padStart 4 "0" g))%nat.
Proof. unfold padStart. rewrite length_append, length_repeatChar. lia. Qed.

Lemma padStart_long g : (4 <= String.length g)%nat -> padStart 4 "0" g = g.
Proof.
  intros H. unfold padStart. replace (4 - String.length g)%nat with 0%nat by lia.
  reflexivity.
Qed.

Lemma padStart_no_colon g : includes ":" g = false -> includes ":" (padStart 4 "0" g) = false.
Proof.
  intros H. unfold padStart. rewrite includes_char_app, includes_repeat_zero, H.
  reflexivity.
Qed.

Lemma padded_groups l :
  Forall (fun g => includes ":" g = false) l ->
  Forall (fun g => includes ":" g = false /\ (4 <= String.length g)%nat)
         (map (padStart 4 "0") l).
Proof.
  intros H. apply Forall_map. eapply Forall_impl; [| exact H].
  intros g Hg. split; [apply padStart_no_colon, Hg | apply padStart_length].
Qed.

Lemma side_no_colon s :
  Forall (fun g => includes ":" g = false)
         (if (s =? "")%string then [] else split ":" s).
Proof. destruct (s =? "")%string; [constructor | apply split_char_pieces]. Qed.

(** What [expandIPv6] returns is eight groups of four characters or more,
    none with a colon, joined by colons. *)
Lemma expandIPv6_shape ip e :
  expandIPv6 ip = Some e ->
  exists G, e = join ":" G /\ List.length G = 8%nat
            /\ Forall (fun g => includes ":" g = false /\ (4 <= String.length g)%nat) G.
Proof.
  unfold expandIPv6. destruct (includes "::" ip).
  - destruct (2 <? List.length (split "::" ip))%nat; [discriminate |].
    set (L := if (nth 0 (split "::" ip) "" =? "")%string then [] else _).
    set (R := if (nth 1 (split "::" ip) "" =? "")%string then [] else _).
    destruct (Z.ltb_spec (8 - Z.of_nat (List.length L) - Z.of_nat (List.length R)) 0)
      as [| Hm]; [discriminate |].
    intros E. apply Some_inj in E. subst e. eexists. split; [reflexivity |]. split.
    + rewrite length_map, !length_app, repeat_length. lia.
    + apply padded_groups. apply Forall_app. split; [apply side_no_colon |].
      apply Forall_app. split; [| apply side_no_colon].
      apply Forall_forall. intros g Hg. apply repeat_spec in Hg. subst g. reflexivity.
  - destruct (List.length (split ":" ip) =? 8)%nat eqn:E8; [| discriminate].
    cbn [negb]. intros E. apply Some_inj in E. subst e.
    eexists. split; [reflexivity |]. split.
    + rewrite length_map. apply Nat.eqb_eq. exact E8.
    + apply padded_groups, split_char_pieces.
Qed.

Lemma long_groups_isGroup G :
  Forall (fun g => includes ":" g = false /\ (4 <= String.length g)%nat) G ->
  forallb isGroup G = true.
Proof.
  intros H. apply forallb_forall. intros g Hg.
  rewrite Forall_forall in H. destruct (H g Hg) as [H1 H2].
  unfold isGroup. rewrite H1. destruct g; [simpl in H2; lia | reflexivity].
Qed.

Lemma long_groups_pad G :
  Forall (fun g => includes ":" g = false /\ (4 <= String.length g)%nat) G ->
  map (padStart 4 "0") G = G.
Proof.
  induction 1 as [| g G [_ Hg] _ IH]; [reflexivity |].
  cbn [map]. rewrite IH, (padStart_long g Hg). reflexivity.
Qed.

Lemma long_groups_split G :
  G <> [] ->
  Forall (fun g => includes ":" g = false /\ (4 <= String.length g)%nat) G ->
  split ":" (join ":" G) = G.
Proof.
  intros Hne H. apply split_char_join; [exact Hne |].
  eapply Forall_impl; [| exact H]. intros g [Hg _]. exact Hg.
Qed.

Lemma eight_nonempty {A : Type} (G : list A) : List.length G = 8%nat -> G <> [].
Proof. destruct G; [discriminate | discriminate]. Qed.

(** An expanded address, expanded again, is itself: eight groups of four characters or more. *)
Lemma expansion_is_fixed (ip e : string) :
  expandIPv6 ip = Some e ->
  expandIPv6 e = Some e
  /\ List.length (split ":" e) = 8%nat
  /\ Forall (fun g => includes ":" g = false /\ (4 <= String.length g)%nat) (split ":" e)
  /\ e <> "".
Proof.
  intros H. destruct (expandIPv6_shape ip e H) as (G & -> & H8 & HG).
  rewrite (long_groups_split G (eight_nonempty G H8) HG).
  split; [| split; [exact H8 | split; [exact HG |]]].
  - rewrite (expandIPv6_explicit G (long_groups_isGroup G HG)), H8.
    cbn [Nat.eqb]. rewrite (long_groups_pad G HG). reflexivity.
  - destruct G as [| g G]; [discriminate |].
    inversion HG as [| ? ? [_ Hg] _]; subst.
    destruct g; [simpl in Hg; lia |]. destruct G; discriminate.
Qed.

(** X8.  An address that [expandIPv6] has expanded is left as it is by a
    second expansion; it splits at the colons into eight groups of four
    characters or more, and it is never the empty text. *)
Theorem expandIPv6_is_idempotent (ip e : string) :
  expandIPv6 ip = Some e ->
  expandIPv6 e = Some e
  /\ List.length (split ":" e) = 8%nat
  /\ Forall (fun g => includes ":" g = false /\ (4 <= String.length g)%nat) (split ":" e)
  /\ e <> "".
Proof. exact (expansion_is_fixed ip e). Qed.

Lemma expandIPv6_is_idempotent_witness :
  expandIPv6 "2001:db8::1" = Some "2001:0db8:0000:0000:0000:0000:0000:0001"
  /\ expandIPv6 "2001:0db8:0000:0000:0000:0000:0000:0001"
     = Some "2001:0db8:0000:0000:0000:0000:0000:0001".
Proof.
  split; [vm_compute; reflexivity |].
  apply (expandIPv6_is_idempotent "2001:db8::1"). vm_compute. reflexivity.
Defined.

End IPv6Shape.

(* ================================================================== *)
(** * The network of an IPv6 address *)
(* ================================================================== *)

Section IPv6Network.

Lemma In_zrange n : forall start k,
  start <= k < start + Z.of_nat n -> In k (zrange start n).
Proof.
  induction n as [| n IH]; intros start k H; [lia |].
  cbn [zrange]. destruct (Z.eq_dec start k) as [E | E]; [left; exact E | right].
  apply IH. lia.
Qed.

Lemma hexGroupOk_all : forallb hexGroupOk (zrange 0 (Z.to_nat 65536)) = true.
Proof. vm_compute. reflexivity. Qed.

Lemma hex_group v :
  0 <= v < 65536 ->
  parseInt (padStart 4 "0" (toString16 (Fin v))) 16 = Fin v
  /\ includes ":" (padStart 4 "0" (toString16 (Fin v))) = false
  /\ includes "/" (padStart 4 "0" (toString16 (Fin v))) = false
  /\ String.length (padStart 4 "0" (toString16 (Fin v))) = 4%nat.
Proof.
  intros H. pose proof hexGroupOk_all as A. rewrite forallb_forall in A.
  specialize (A v (In_zrange (Z.to_nat 65536) 0 v ltac:(lia))). unfold hexGroupOk in A.
  destruct (parseInt (padStart 4 "0" (toString16 (Fin v))) 16) as [| b | v'];
    try discriminate.
  apply andb_true_iff in A as [A A4]. apply andb_true_iff in A as [A A3].
  apply andb_true_iff in A as [A1 A2].
  apply Z.eqb_eq in A1. apply negb_true_iff in A2. apply negb_true_iff in A3.
  apply Nat.eqb_eq in A4. subst v'. repeat split; assumption.
Qed.

(** The mask of the group the prefix ends in has sixteen bits; masking is
    idempotent. *)
Lemma masked_group x rb :
  let m := band (shl 0xFFFF (16 - rb)) 0xFFFF in
  let v := shru (band x m) 0 in
  0 <= v < 65536 /\ shru (band v m) 0 = v.
Proof.
  intros m v.
  assert (Hm : 0 <= m < 65536).
  { unfold m. rewrite band_ffff. apply Z.mod_pos_bound. lia. }
  assert (Em : ToUint32 m = m) by (apply ToUint32_small; lia).
  assert (Eo : Z.land m (Z.ones 16) = m).
  { rewrite Z.land_ones by lia. apply Z.mod_small. exact Hm. }
  assert (Ev : v = Z.land (ToUint32 x) m).
  { unfold v. rewrite shru_band_0, Em. reflexivity. }
  assert (Hv : 0 <= v < 65536).
  { rewrite Ev, <- Eo, Z.land_assoc, Z.land_ones by lia.
    apply Z.mod_pos_bound. lia. }
  split; [exact Hv |].
  rewrite shru_band_0, Em, (ToUint32_small v) by lia.
  rewrite Ev, <- Z.land_assoc, Z.land_diag. reflexivity.
Qed.

Lemma networkParts_shift p ps count : forall i rb,
  networkParts (p :: ps) count (S i) rb = networkParts ps count i rb.
Proof.
  induction count as [| count IH]; intros i rb; [reflexivity |].
  cbn [networkParts nth]. rewrite !IH. reflexivity.
Qed.

Lemma networkParts_zero parts count : forall i rb,
  rb <= 0 -> networkParts parts count i rb = repeat "0000" count.
Proof.
  induction count as [| count IH]; intros i rb H; [reflexivity |].
  cbn [networkParts repeat].
  destruct (Z.leb_spec 16 rb); [lia |]. destruct (Z.ltb_spec 0 rb); [lia |].
  rewrite IH by exact H. reflexivity.
Qed.

Lemma networkParts_cons p ps count rb :
  networkParts (p :: ps) (S count) 0 rb
  = if 16 <=? rb then p :: networkParts ps count 0 (rb - 16)
    else if 0 <? rb then
      padStart 4 "0"
        (toString16
           (Fin (shru (band (integral (parseInt p 16))
                            (band (shl 0xFFFF (16 - rb)) 0xFFFF)) 0)))
        :: repeat "0000" count
    else repeat "0000" (S count).
Proof.
  cbn [networkParts nth]. rewrite !networkParts_shift.
  destruct (16 <=? rb); [reflexivity |].
  destruct (Z.ltb_spec 0 rb).
  - rewrite networkParts_zero by lia. reflexivity.
  - rewrite networkParts_zero by lia. reflexivity.
Qed.

(** With a prefix of [k] whole groups the first [k] groups are kept as they
    are written and the others are zero. *)
Lemma networkParts_whole count : forall G k,
  List.length G = count -> (k <= count)%nat ->
  networkParts G count 0 (16 * Z.of_nat k) = (firstn k G ++ repeat "0000" (count - k))%list.
Proof.
  induction count as [| count IH]; intros G k HG Hk.
  - destruct k; [| lia]. reflexivity.
  - destruct G as [| p ps]; [discriminate |]. destruct k as [| k].
    + rewrite networkParts_zero by lia. reflexivity.
    + rewrite networkParts_cons.
      destruct (Z.leb_spec 16 (16 * Z.of_nat (S k))); [| lia].
      replace (16 * Z.of_nat (S k) - 16) with (16 * Z.of_nat k) by lia.
      rewrite IH by (simpl in HG; lia). reflexivity.
Qed.

Lemma networkParts_groups count : forall G rb,
  List.length G = count ->
  Forall (fun g => includes ":" g = false /\ (4 <= String.length g)%nat) G ->
  List.length (networkParts G count 0 rb) = count
  /\ Forall (fun g => includes ":" g = false /\ (4 <= String.length g)%nat)
            (networkParts G count 0 rb).
Proof.
  assert (Z0 : forall n,
             Forall (fun g => includes ":" g = false /\ (4 <= String.length g)%nat)
                    (repeat "0000" n)).
  { intros n. apply Forall_forall. intros g Hg. apply repeat_spec in Hg. subst g.
    split; [reflexivity | simpl; lia]. }
  induction count as [| count IH]; intros G rb HG HF.
  - split; [reflexivity | constructor].
  - destruct G as [| p ps]; [discriminate |].
    inversion HF as [| ? ? Hp Hps]; subst.
    rewrite networkParts_cons. destruct (16 <=? rb).
    + destruct (IH ps (rb - 16)) as [I1 I2]; [simpl in HG; lia | exact Hps |].
      split; [simpl; rewrite I1; reflexivity | constructor; assumption].
    + destruct (0 <? rb).
      * split; [simpl; rewrite repeat_length; reflexivity |].
        constructor; [| apply Z0].
        destruct (masked_group (integral (parseInt p 16)) rb) as [Hv _].
        destruct (hex_group _ Hv) as (_ & H1 & _ & H2).
        split; [exact H1 | rewrite H2; lia].
      * split; [apply repeat_length | apply Z0].
Qed.

Lemma networkParts_idem count : forall G rb,
  List.length G = count ->
  networkParts (networkParts G count 0 rb) count 0 rb = networkParts G count 0 rb.
Proof.
  induction count as [| count IH]; intros G rb HG; [reflexivity |].
  destruct G as [| p ps]; [discriminate |].
  rewrite networkParts_cons.
  destruct (Z.leb_spec 16 rb) as [H16 | H16].
  - rewrite networkParts_cons. destruct (Z.leb_spec 16 rb); [| lia].
    rewrite IH by (simpl in HG; lia). reflexivity.
  - destruct (Z.ltb_spec 0 rb) as [H0 | H0].
    + rewrite networkParts_cons. destruct (Z.leb_spec 16 rb); [lia |].
      destruct (Z.ltb_spec 0 rb); [| lia].
      destruct (masked_group (integral (parseInt p 16)) rb) as [Hv Hm].
      destruct (hex_group _ Hv) as (Hp & _).
      rewrite Hp. cbn [integral]. rewrite Hm. reflexivity.
    + apply networkParts_zero. exact H0.
Qed.

(** X9.  With a prefix of [k] whole groups the network of an expanded
    address keeps the first [k] groups as they are written and sets the
    others to 0000: prefix 128 gives the address back, prefix 0 the all-zero
    address. *)
Theorem ipv6_network_of_whole_groups (ip e : string) (k : nat) :
  expandIPv6 ip = Some e ->
  (k <= 8)%nat ->
  calculateIPv6Network e (16 * Z.of_nat k)
  = join ":" (firstn k (split ":" e) ++ repeat "0000" (8 - k))%list
  /\ calculateIPv6Network e 128 = e
  /\ calculateIPv6Network e 0 = "0000:0000:0000:0000:0000:0000:0000:0000".
Proof.
  intros H Hk. destruct (expandIPv6_shape ip e H) as (G & -> & H8 & HG).
  unfold calculateIPv6Network.
  rewrite (long_groups_split G (eight_nonempty G H8) HG).
  split; [| split].
  - rewrite (networkParts_whole 8 G k H8 Hk). reflexivity.
  - change 128 with (16 * Z.of_nat 8).
    rewrite (networkParts_whole 8 G 8 H8) by lia.
    rewrite <- H8 at 1. rewrite firstn_all. cbn [Nat.sub repeat].
    rewrite app_nil_r. reflexivity.
  - rewrite networkParts_zero by lia. reflexivity.
Qed.

Lemma ipv6_network_of_whole_groups_witness :
  expandIPv6 "2001:DB8:zz::1" = Some "2001:0DB8:00zz:0000:0000:0000:0000:0001"
  /\ (calculateIPv6Network "2001:0DB8:00zz:0000:0000:0000:0000:0001" (16 * Z.of_nat 3)
      = join ":" (firstn 3 (split ":" "2001:0DB8:00zz:0000:0000:0000:0000:0001")
                    ++ repeat "0000" (8 - 3))%list
      /\ calculateIPv6Network "2001:0DB8:00zz:0000:0000:0000:0000:0001" 128
         = "2001:0DB8:00zz:0000:0000:0000:0000:0001"
      /\ calculateIPv6Network "2001:0DB8:00zz:0000:0000:0000:0000:0001" 0
         = "0000:0000:0000:0000:0000:0000:0000:0000").
Proof.
  split; [vm_compute; reflexivity |].
  apply (ipv6_network_of_whole_groups "2001:DB8:zz::1" _ 3);
    [vm_compute; reflexivity | lia].
Defined.

(** The network of an expanded address is an expanded address and its own network. *)
Lemma network_is_fixed (ip e : string) (cidr : Z) :
  expandIPv6 ip = Some e ->
  expandIPv6 (calculateIPv6Network e cidr) = Some (calculateIPv6Network e cidr)
  /\ calculateIPv6Network (calculateIPv6Network e cidr) cidr
     = calculateIPv6Network e cidr.
Proof.
  intros H. destruct (expandIPv6_shape ip e H) as (G & -> & H8 & HG).
  unfold calculateIPv6Network.
  rewrite (long_groups_split G (eight_nonempty G H8) HG).
  destruct (networkParts_groups 8 G cidr H8 HG) as [N8 NG].
  split.
  - rewrite (expandIPv6_explicit _ (long_groups_isGroup _ NG)), N8.
    cbn [Nat.eqb]. rewrite (long_groups_pad _ NG). reflexivity.
  - rewrite (long_groups_split _ (eight_nonempty _ N8) NG).
    rewrite (networkParts_idem 8 G cidr H8). reflexivity.
Qed.

(** X10.  The network of an expanded address, for any prefix length, is
    again an expanded address, and it is its own network: computing the
    network twice changes nothing. *)
Theorem ipv6_network_is_idempotent (ip e : string) (cidr : Z) :
  expandIPv6 ip = Some e ->
  expandIPv6 (calculateIPv6Network e cidr) = Some (calculateIPv6Network e cidr)
  /\ calculateIPv6Network (calculateIPv6Network e cidr) cidr
     = calculateIPv6Network e cidr.
Proof. exact (network_is_fixed ip e cidr). Qed.

Lemma ipv6_network_is_idempotent_witness :
  expandIPv6 "2001:db8:ffff::1" = Some "2001:0db8:ffff:0000:0000:0000:0000:0001"
  /\ calculateIPv6Network "2001:0db8:ffff:0000:0000:0000:0000:0001" 35
     = "2001:0db8:e000:0000:0000:0000:0000:0000"
  /\ (expandIPv6 (calculateIPv6Network "2001:0db8:ffff:0000:0000:0000:0000:0001" 35)
      = Some (calculateIPv6Network "2001:0db8:ffff:0000:0000:0000:0000:0001" 35)
      /\ calculateIPv6Network
           (calculateIPv6Network "2001:0db8:ffff:0000:0000:0000:0000:0001" 35) 35
         = calculateIPv6Network "2001:0db8:ffff:0000:0000:0000:0000:0001" 35).
Proof.
  split; [vm_compute; reflexivity |]. split; [vm_compute; reflexivity |].
  apply (ipv6_network_is_idempotent "2001:db8:ffff::1" _ 35). vm_compute. reflexivity.
Defined.

End IPv6Network.

(* ================================================================== *)
(** * Containment in an IPv6 network *)
(* ================================================================== *)

Section IPv6Containment.

(** The pieces of a split are made of characters of the text. *)
Lemma splitFrom_without d sep s : forall skip,
  includes (String d "") s = false ->
  Forall (fun p => includes (String d "") p = false) (splitFrom sep skip s).
Proof.
  induction s as [| b s IH]; intros skip H.
  - repeat constructor.
  - rewrite includes_char_cons in H. apply orb_false_iff in H as [H1 H2].
    cbn [splitFrom]. destruct skip as [| k]; [| apply IH; exact H2].
    destruct (startsWith sep (String b s)).
    + constructor; [reflexivity | apply IH; exact H2].
    + specialize (IH 0%nat H2). destruct (splitFrom sep 0 s) as [| p ps].
      * repeat constructor. rewrite includes_char_cons, H1. reflexivity.
      * inversion IH as [| ? ? Hp Hps]; subst. constructor; [| exact Hps].
        rewrite includes_char_cons, H1. exact Hp.
Qed.

Lemma join_without_slash G :
  Forall (fun g => includes "/" g = false) G -> includes "/" (join ":" G) = false.
Proof.
  induction 1 as [| g G Hg HG IH]; [reflexivity |].
  destruct G as [| h G]; [exact Hg |].
  change (join ":" (g :: h :: G)) with (g ++ String ":" (join ":" (h :: G))).
  rewrite includes_char_app, includes_char_cons, Hg, IH. reflexivity.
Qed.

Lemma padStart_no_slash g : includes "/" g = false -> includes "/" (padStart 4 "0" g) = false.
Proof.
  intros H. unfold padStart. rewrite includes_char_app, H, orb_false_r.
  generalize (4 - String.length g)%nat. intros n.
  induction n as [| n IH]; [reflexivity |].
  cbn [repeatChar]. rewrite includes_char_cons, IH. reflexivity.
Qed.

Lemma nth_without_slash l k :
  Forall (fun p => includes "/" p = false) l -> includes "/" (nth k l "") = false.
Proof.
  intros H. revert k. induction H as [| p l Hp Hl IH]; intros [| k]; try reflexivity.
  - exact Hp.
  - apply IH.
Qed.

Lemma side_no_slash s :
  includes "/" s = false ->
  Forall (fun g => includes "/" g = false)
         (if (s =? "")%string then [] else split ":" s).
Proof.
  intros H. destruct (s =? "")%string; [constructor |].
  apply splitFrom_without. exact H.
Qed.

(** The expansion brings no slash into a text that has none. *)
Lemma expandIPv6_no_slash ip e :
  includes "/" ip = false -> expandIPv6 ip = Some e -> includes "/" e = false.
Proof.
  intros Hs. unfold expandIPv6. destruct (includes "::" ip).
  - destruct (2 <? List.length (split "::" ip))%nat; [discriminate |].
    pose proof (splitFrom_without "/" "::" ip 0 Hs) as Hp.
    fold (split "::" ip) in Hp.
    destruct (_ <? 0); [discriminate |].
    intros E. apply Some_inj in E. subst e.
    apply join_without_slash, Forall_map.
    apply Forall_app. split.
    + eapply Forall_impl; [intros g; apply padStart_no_slash |].
      apply side_no_slash, nth_without_slash, Hp.
    + apply Forall_app. split.
      * apply Forall_forall. intros g Hg. apply repeat_spec in Hg. subst g. reflexivity.
      * eapply Forall_impl; [intros g; apply padStart_no_slash |].
        apply side_no_slash, nth_without_slash, Hp.
  - destruct (negb _); [discriminate |].
    intros E. apply Some_inj in E. subst e.
    apply join_without_slash, Forall_map.
    eapply Forall_impl; [intros g; apply padStart_no_slash |].
    apply splitFrom_without. exact Hs.
Qed.

Lemma networkParts_no_slash count : forall G rb,
  List.length G = count ->
  Forall (fun g => includes "/" g = false) G ->
  Forall (fun g => includes "/" g = false) (networkParts G count 0 rb).
Proof.
  assert (Z0 : forall n, Forall (fun g => includes "/" g = false) (repeat "0000" n)).
  { intros n. apply Forall_forall. intros g Hg. apply repeat_spec in Hg. subst g.
    reflexivity. }
  induction count as [| count IH]; intros G rb HG HF; [constructor |].
  destruct G as [| p ps]; [discriminate |].
  inversion HF as [| ? ? Hp Hps]; subst.
  rewrite networkParts_cons. destruct (16 <=? rb).
  - constructor; [exact Hp | apply IH; [simpl in HG; lia | exact Hps]].
  - destruct (0 <? rb); [| apply Z0].
    constructor; [| apply Z0].
    destruct (masked_group (integral (parseInt p 16)) rb) as [Hv _].
    destruct (hex_group _ Hv) as (_ & _ & H1 & _). exact H1.
Qed.

(** The network of an address without a slash has none. *)
Lemma network_no_slash ip e cidr :
  includes "/" ip = false -> expandIPv6 ip = Some e ->
  includes "/" (calculateIPv6Network e cidr) = false.
Proof.
  intros Hs H. pose proof (expandIPv6_no_slash ip e Hs H) as He.
  destruct (expansion_is_fixed ip e H) as (_ & H8 & _).
  apply join_without_slash, networkParts_no_slash; [exact H8 |].
  apply splitFrom_without. exact He.
Qed.

(** The loop of the comparison, group by group. *)
Lemma prefixBitsMatch_shift a A b B count : forall i rb,
  prefixBitsMatch (a :: A) (b :: B) count (S i) rb = prefixBitsMatch A B count i rb.
Proof.
  induction count as [| count IH]; intros i rb; [reflexivity |].
  cbn [prefixBitsMatch nth_error]. rewrite !IH. reflexivity.
Qed.

Lemma prefixBitsMatch_cons a A b B count rb :
  prefixBitsMatch (a :: A) (b :: B) (S count) 0 rb
  = if 16 <=? rb then strictEq a b && prefixBitsMatch A B count 0 (rb - 16)
    else if 0 <? rb then
      band (integral a) (band (shl 0xFFFF (16 - rb)) 0xFFFF)
      =? band (integral b) (band (shl 0xFFFF (16 - rb)) 0xFFFF)
    else true.
Proof.
  cbn [prefixBitsMatch nth_error elemStrictEq elemIntegral].
  rewrite prefixBitsMatch_shift.
  destruct (16 <=? rb); [destruct (strictEq a b); reflexivity |].
  destruct (0 <? rb); [| reflexivity].
  destruct (_ =? _); reflexivity.
Qed.

Lemma strictEq_refl x : x <> NaN -> strictEq x x = true.
Proof.
  destruct x as [| b | z]; intros H; [congruence | apply eqb_reflx | apply Z.eqb_refl].
Qed.

Lemma band_masked x rb :
  let m := band (shl 0xFFFF (16 - rb)) 0xFFFF in
  band (shru (band x m) 0) m = band x m.
Proof.
  intros m.
  assert (Hm : 0 <= m < 65536).
  { unfold m. rewrite band_ffff. apply Z.mod_pos_bound. lia. }
  assert (Eo : Z.land m (Z.ones 16) = m).
  { rewrite Z.land_ones by lia. apply Z.mod_small. exact Hm. }
  assert (Hb : 0 <= band x m < 65536).
  { unfold band. rewrite (ToInt32_small m) by lia.
    rewrite <- Eo, Z.land_assoc, Z.land_ones by lia. apply Z.mod_pos_bound. lia. }
  rewrite shru_0, ToUint32_small by lia.
  unfold band at 1. rewrite (ToInt32_small (band x m)), (ToInt32_small m) by lia.
  unfold band. rewrite (ToInt32_small m) by lia.
  rewrite <- Z.land_assoc, Z.land_diag. reflexivity.
Qed.

(** An address agrees with its own network on the bits of the prefix, when
    its groups are read as numbers. *)
Lemma prefixBitsMatch_own_network count : forall G rb,
  List.length G = count ->
  Forall (fun g => parseInt g 16 <> NaN) G ->
  prefixBitsMatch (map (fun part => parseInt part 16) G)
                  (map (fun part => parseInt part 16) (networkParts G count 0 rb))
                  count 0 rb = true.
Proof.
  induction count as [| count IH]; intros G rb HG HF; [reflexivity |].
  destruct G as [| p ps]; [discriminate |].
  inversion HF as [| ? ? Hp Hps]; subst.
  rewrite networkParts_cons. destruct (Z.leb_spec 16 rb) as [H16 | H16].
  - cbn [map]. rewrite prefixBitsMatch_cons.
    destruct (Z.leb_spec 16 rb); [| lia].
    rewrite (strictEq_refl _ Hp), IH by (simpl in HG; try lia; exact Hps).
    reflexivity.
  - destruct (Z.ltb_spec 0 rb) as [H0 | H0].
    + cbn [map]. rewrite prefixBitsMatch_cons.
      destruct (Z.leb_spec 16 rb); [lia |]. destruct (Z.ltb_spec 0 rb); [| lia].
      destruct (masked_group (integral (parseInt p 16)) rb) as [Hv _].
      destruct (hex_group _ Hv) as (Hq & _). rewrite Hq. cbn [integral].
      rewrite band_masked. apply Z.eqb_refl.
    + cbn [repeat map]. rewrite prefixBitsMatch_cons.
      destruct (Z.leb_spec 16 rb); [lia |]. destruct (Z.ltb_spec 0 rb); [lia |].
      reflexivity.
Qed.

Lemma prefixBitsMatch_refl count : forall A rb,
  Forall (fun x => x <> NaN) A ->
  List.length A = count ->
  prefixBitsMatch A A count 0 rb = true.
Proof.
  induction count as [| count IH]; intros A rb HF HA; [reflexivity |].
  destruct A as [| a A]; [discriminate |].
  inversion HF as [| ? ? Ha HA']; subst.
  rewrite prefixBitsMatch_cons, (strictEq_refl a Ha), IH, Z.eqb_refl
    by (simpl in HA; try lia; exact HA').
  destruct (16 <=? rb); [reflexivity |]. destruct (0 <? rb); reflexivity.
Qed.

Lemma networkParts_numbers count : forall G rb,
  List.length G = count ->
  Forall (fun g => parseInt g 16 <> NaN) G ->
  Forall (fun g => parseInt g 16 <> NaN) (networkParts G count 0 rb).
Proof.
  assert (Z0 : forall n, Forall (fun g => parseInt g 16 <> NaN) (repeat "0000" n)).
  { intros n. apply Forall_forall. intros g Hg. apply repeat_spec in Hg. subst g.
    vm_compute. discriminate. }
  induction count as [| count IH]; intros G rb HG HF; [constructor |].
  destruct G as [| p ps]; [discriminate |].
  inversion HF as [| ? ? Hp Hps]; subst.
  rewrite networkParts_cons. destruct (16 <=? rb).
  - constructor; [exact Hp | apply IH; [simpl in HG; lia | exact Hps]].
  - destruct (0 <? rb); [| apply Z0].
    constructor; [| apply Z0].
    destruct (masked_group (integral (parseInt p 16)) rb) as [Hv _].
    destruct (hex_group _ Hv) as (H1 & _). rewrite H1. discriminate.
Qed.

Lemma truthy_expansion ip e : expandIPv6 ip = Some e -> truthy (Some e) = true.
Proof.
  intros H. destruct (expansion_is_fixed ip e H) as (_ & _ & _ & Hne).
  unfold truthy. destruct (String.eqb_spec e ""); [contradiction | reflexivity].
Qed.

Lemma isIPv6InSubnet_expanded ip e sn en :
  expandIPv6 ip = Some e ->
  expandIPv6 (network sn) = Some en ->
  isIPv6InSubnet ip sn
  = {| result := prefixBitsMatch (map (fun part => parseInt part 16) (split ":" e))
                   (map (fun part => parseInt part 16) (split ":" en)) 8 0 (cidr sn);
       error := None |}.
Proof.
  intros H1 H2. unfold isIPv6InSubnet. rewrite H1, H2.
  rewrite (truthy_expansion ip e H1), (truthy_expansion _ en H2). reflexivity.
Qed.

(** X11.  An IPv6 address whose expanded groups [parseInt] reads as numbers
    in base 16 is inside the subnet computed from it, and so is the network
    address of that subnet. *)
Theorem own_address_is_inside_ipv6 (ip e : string) (cidr : Z) (info : SubnetInfo) :
  calculateIPv6Subnet ip cidr = Some info ->
  includes "/" ip = false ->
  expandIPv6 ip = Some e ->
  Forall (fun g => parseInt g 16 <> NaN) (split ":" e) ->
  isIPInSubnet ip info = {| result := true; error := None |}
  /\ isIPInSubnet (network info) info = {| result := true; error := None |}.
Proof.
  intros H Hs He Hn.
  destruct (calculateIPv6Subnet_inv ip cidr info H)
    as (e' & He' & _ & Hnet & _ & _ & _ & _ & Hc & Hv & _).
  rewrite He in He'. apply Some_inj in He'. subst e'.
  destruct (expansion_is_fixed ip e He) as (_ & H8 & HG & _).
  destruct (network_is_fixed ip e cidr He) as [Hx _].
  pose proof (network_no_slash ip e cidr Hs He) as Hns.
  rewrite <- Hnet in Hx, Hns.
  destruct (networkParts_groups 8 (split ":" e) cidr H8 HG) as [N8 NG].
  assert (Hsplit : split ":" (network info) = networkParts (split ":" e) 8 0 cidr).
  { rewrite Hnet. unfold calculateIPv6Network.
    apply (long_groups_split _ (eight_nonempty _ N8) NG). }
  unfold isIPInSubnet. rewrite Hs, Hns, Hv.
  rewrite (isIPv6InSubnet_expanded ip e info (network info) He Hx).
  rewrite (isIPv6InSubnet_expanded (network info) (network info) info (network info) Hx Hx).
  rewrite Hsplit, Hc. split; f_equal.
  - apply prefixBitsMatch_own_network; assumption.
  - apply prefixBitsMatch_refl; [| rewrite length_map; exact N8].
    apply Forall_map. apply networkParts_numbers; assumption.
Qed.

Lemma own_address_is_inside_ipv6_witness :
  exists info,
    calculateIPv6Subnet "2001:db8:abcd:12::5" 60 = Some info
    /\ network info = "2001:0db8:abcd:0010:0000:0000:0000:0000"
    /\ (isIPInSubnet "2001:db8:abcd:12::5" info = {| result := true; error := None |}
        /\ isIPInSubnet (network info) info = {| result := true; error := None |}).
Proof.
  eexists. split; [vm_compute; reflexivity |]. split; [vm_compute; reflexivity |].
  apply (own_address_is_inside_ipv6 "2001:db8:abcd:12::5"
           "2001:0db8:abcd:0012:0000:0000:0000:0005" 60);
    [vm_compute; reflexivity | vm_compute; reflexivity | vm_compute; reflexivity |].
  let l := eval vm_compute in (split ":" "2001:0db8:abcd:0012:0000:0000:0000:0005") in
  change (split ":" "2001:0db8:abcd:0012:0000:0000:0000:0005") with l.
  repeat (apply Forall_cons; [vm_compute; discriminate |]). apply Forall_nil.
Defined.

Lemma prefixBitsMatch_nan B j : forall count A i rb,
  (i <= j < i + count)%nat ->
  16 * (Z.of_nat j - Z.of_nat i + 1) <= rb ->
  nth_error B j = Some NaN ->
  prefixBitsMatch A B count i rb = false.
Proof.
  induction count as [| count IH]; intros A i rb Hj Hrb HB; [lia |].
  cbn [prefixBitsMatch]. destruct (Z.leb_spec 16 rb); [| lia].
  destruct (Nat.eq_dec i j) as [-> | Hij].
  - rewrite HB. destruct (nth_error A j) as [[| |] |]; reflexivity.
  - destruct (negb _); [reflexivity |]. apply IH; [lia | lia | exact HB].
Qed.

(** X12.  When [parseInt] reads a group of the expanded network as NaN and
    the group lies wholly inside the prefix, no address is found inside the
    subnet, whatever the candidate: not even the network itself. *)
Theorem non_hex_group_contains_nothing (sn : SubnetInfo) (en ip : string) (j : nat) :
  ipVersion sn = V6 ->
  expandIPv6 (network sn) = Some en ->
  (j < 8)%nat ->
  16 * (Z.of_nat j + 1) <= cidr sn ->
  parseInt (nth j (split ":" en) "") 16 = NaN ->
  result (isIPInSubnet ip sn) = false.
Proof.
  intros Hv He Hj Hc Hn. unfold isIPInSubnet. rewrite Hv.
  set (cleanIP := if includes "/" ip then _ else _).
  unfold isIPv6InSubnet. rewrite He.
  destruct (expandIPv6 cleanIP) as [e |]; [| reflexivity].
  destruct (negb (truthy (Some e)) || negb (truthy (Some en))); [reflexivity |].
  cbn [result]. apply (prefixBitsMatch_nan _ j); [lia | lia |].
  destruct (expansion_is_fixed _ en He) as (_ & H8 & _).
  rewrite nth_error_map, (nth_error_nth' _ "") by lia. cbn [option_map].
  rewrite Hn. reflexivity.
Qed.

Lemma non_hex_group_contains_nothing_witness :
  exists sn,
    calculateSubnet "2001:zzzz::/32" = Some sn
    /\ network sn = "2001:zzzz:0000:0000:0000:0000:0000:0000"
    /\ result (isIPInSubnet "2001:zzzz::" sn) = false.
Proof.
  eexists. split; [vm_compute; reflexivity |]. split; [vm_compute; reflexivity |].
  apply (non_hex_group_contains_nothing _ "2001:zzzz:0000:0000:0000:0000:0000:0000" _ 1);
    [reflexivity | vm_compute; reflexivity | lia | simpl; lia | vm_compute; reflexivity].
Defined.

(** X13.  Every IPv6 address that can be expanded is inside a subnet of
    prefix length 0, whatever address the subnet was computed from. *)
Theorem ipv6_prefix0_contains_every_address (ip0 ip e : string) (info : SubnetInfo) :
  calculateIPv6Subnet ip0 0 = Some info ->
  includes "/" ip = false ->
  expandIPv6 ip = Some e ->
  isIPInSubnet ip info = {| result := true; error := None |}.
Proof.
  intros H Hs He.
  destruct (calculateIPv6Subnet_inv ip0 0 info H)
    as (e0 & He0 & _ & Hnet & _ & _ & _ & _ & Hc & Hv & _).
  destruct (network_is_fixed ip0 e0 0 He0) as [Hx _].
  rewrite <- Hnet in Hx.
  unfold isIPInSubnet. rewrite Hs, Hv.
  rewrite (isIPv6InSubnet_expanded ip e info (network info) He Hx), Hc.
  reflexivity.
Qed.

Lemma ipv6_prefix0_contains_every_address_witness :
  exists info,
    calculateIPv6Subnet "2001:db8::1" 0 = Some info
    /\ isIPInSubnet "fe80::zz" info = {| result := true; error := None |}.
Proof.
  eexists. split; [vm_compute; reflexivity |].
  apply (ipv6_prefix0_contains_every_address "2001:db8::1" "fe80::zz"
           "fe80:0000:0000:0000:0000:0000:0000:00zz");
    vm_compute; reflexivity.
Defined.

End IPv6Containment.

(* ================================================================== *)
(** * The address counts of long IPv6 prefixes *)
(* ================================================================== *)

Section IPv6LongPrefixes.

Lemma usableAbove64_all :
  forallb (fun c => Z.max 0 (roundDouble (2 ^ (128 - c) - 2)) =? usableAbove64 c)
          (zrange 65 64) = true.
Proof. vm_compute. reflexivity. Qed.

(** X14.  For an IPv6 prefix longer than 64 bits the total is the exact
    power of two; the usable count is the total itself from /65 to /73,
    where the double cannot hold the difference, the total less 2 from /74
    to /126, and 0 for /127 and /128. *)
Theorem ipv6_counts_above_64 (ip : string) (cidr : Z) (info : SubnetInfo) :
  calculateIPv6Subnet ip cidr = Some info ->
  64 < cidr ->
  totalHosts info = 2 ^ (128 - cidr)
  /\ usableHosts info = usableAbove64 cidr.
Proof.
  intros H Hc.
  destruct (calculateIPv6Subnet_inv ip cidr info H)
    as (e & _ & Hr & _ & _ & _ & Ht & Hu & _).
  destruct (Z.leb_spec 64 (128 - cidr)); [lia |].
  split; [exact Ht |]. rewrite Hu, Ht.
  pose proof usableAbove64_all as A. rewrite forallb_forall in A.
  apply Z.eqb_eq. apply (A cidr). apply In_zrange. simpl. lia.
Qed.

Lemma ipv6_counts_above_64_witness :
  exists info,
    calculateIPv6Subnet "2001:db8::" 70 = Some info
    /\ (totalHosts info = 2 ^ (128 - 70) /\ usableHosts info = usableAbove64 70)
    /\ usableAbove64 70 = 288230376151711744.
Proof.
  eexists. split; [vm_compute; reflexivity |]. split; [| reflexivity].
  apply (ipv6_counts_above_64 "2001:db8::" 70); [vm_compute; reflexivity | lia].
Defined.

End IPv6LongPrefixes.

(* ================================================================== *)
(** * The entry point [processInput] and the option names *)
(* ================================================================== *)

Section ProcessInput.

Lemma trimStart_blank_app w s : trimStart w = "" -> trimStart (w ++ s) = trimStart s.
Proof.
  induction w as [| c w IH]; intros H; [reflexivity |].
  cbn [trimStart append] in *. destruct (isWhiteSpace c); [apply IH, H | discriminate].
Qed.

Lemma trimEnd_blank w : trimStart w = "" -> trimEnd w = "".
Proof.
  induction w as [| c w IH]; intros H; [reflexivity |].
  cbn [trimStart trimEnd] in *. destruct (isWhiteSpace c); [| discriminate].
  rewrite (IH H). reflexivity.
Qed.

Lemma trimEnd_app_blank s w : trimStart w = "" -> trimEnd (s ++ w) = trimEnd s.
Proof.
  intros H. induction s as [| c s IH]; [apply trimEnd_blank, H |].
  cbn [append trimEnd]. rewrite IH. reflexivity.
Qed.

Lemma trim_app_blank s w : trimStart w = "" -> trim (s ++ w) = trim s.
Proof.
  intros H. unfold trim. induction s as [| c s IH].
  - cbn [append trimStart]. rewrite H. reflexivity.
  - cbn [append trimStart]. destruct (isWhiteSpace c); [exact IH |].
    change (String c (s ++ w)) with (String c s ++ w).
    apply trimEnd_app_blank, H.
Qed.

Lemma trim_blank_app w s : trimStart w = "" -> trim (w ++ s) = trim s.
Proof. intros H. unfold trim. rewrite trimStart_blank_app by exact H. reflexivity. Qed.

Lemma trimStart_clean s : startsClean s = true -> trimStart s = s.
Proof.
  destruct s as [| c s]; [discriminate |]. cbn [startsClean trimStart].
  destruct (isWhiteSpace c); [discriminate | reflexivity].
Qed.

Lemma trimEnd_clean s : endsClean s = true -> trimEnd s = s.
Proof.
  induction s as [| c s IH]; [discriminate |].
  cbn [endsClean trimEnd]. destruct s as [| d s].
  - cbn [trimEnd]. destruct (isWhiteSpace c); [discriminate | reflexivity].
  - intros H. rewrite (IH H). rewrite andb_false_r. reflexivity.
Qed.

Lemma trim_clean s : startsClean s = true -> endsClean s = true -> trim s = s.
Proof.
  intros H1 H2. unfold trim. rewrite (trimStart_clean s H1). apply trimEnd_clean, H2.
Qed.

Lemma startsClean_app a b : startsClean a = true -> startsClean (a ++ b) = true.
Proof. destruct a; [discriminate | intros H; exact H]. Qed.

Lemma endsClean_app a b : endsClean b = true -> endsClean (a ++ b) = true.
Proof.
  intros H. induction a as [| c a IH]; [exact H |].
  cbn [append endsClean]. destruct (a ++ b) eqn:E; [| exact IH].
  destruct a; [| discriminate]. cbn in E. subst b. discriminate.
Qed.

(** X20.  [processInput] looks at its input without the white space around
    it, and reports an input of white space only as empty. *)
Theorem processInput_ignores_outer_white_space (before input after : string) :
  trimStart before = "" ->
  trimStart after = "" ->
  processInput (before ++ input ++ after) = processInput input
  /\ processInput before
     = {| resultError := Some "IP address cannot be empty"; subnetInfo := None |}.
Proof.
  intros Hb Ha. split.
  - unfold processInput.
    rewrite (trim_blank_app before _ Hb), (trim_app_blank input after Ha). reflexivity.
  - unfold processInput, trim. rewrite Hb. reflexivity.
Qed.

Lemma processInput_ignores_outer_white_space_witness :
  processInput ("  " ++ "10.0.0.1/8" ++ " ") = processInput "10.0.0.1/8"
  /\ processInput "  "
     = {| resultError := Some "IP address cannot be empty"; subnetInfo := None |}.
Proof.
  apply (processInput_ignores_outer_white_space "  " "10.0.0.1/8" " "); reflexivity.
Defined.

(** X21.  [isValidOption] accepts exactly the texts that are not blank: the
    list of the available options plays no part in the answer. *)
Theorem isValidOption_accepts_every_non_blank_text (option : string) :
  isValidOption option = negb (trim option =? "")%string.
Proof.
  unfold isValidOption.
  destruct (trim option) as [| c t] eqn:E.
  - cbn [String.length Nat.ltb Nat.leb String.eqb negb]. rewrite orb_false_r.
    destruct (existsb (String.eqb option) getAvailableOptions) eqn:X; [| reflexivity].
    apply existsb_exists in X as (x & Hin & Hx). apply String.eqb_eq in Hx. subst x.
    cbn [getAvailableOptions In] in Hin.
    repeat (destruct Hin as [<- | Hin]; [vm_compute in E; discriminate E |]).
    contradiction.
  - cbn [String.eqb negb]. apply orb_true_r.
Qed.

End ProcessInput.

(* ================================================================== *)
(** * Shifting a subnet to another prefix length (main.ts) *)
(* ================================================================== *)

Section Shifting.

Lemma numberTextOk_all : forallb numberTextOk (zrange 0 256) = true.
Proof. vm_compute. reflexivity. Qed.

Lemma number_text k :
  0 <= k <= 255 ->
  startsClean (toString k) = true /\ endsClean (toString k) = true
  /\ includes "/" (toString k) = false /\ includes ":" (toString k) = false.
Proof.
  intros H. pose proof numberTextOk_all as A. rewrite forallb_forall in A.
  specialize (A k (In_zrange 256 0 k ltac:(lia))). unfold numberTextOk in A.
  apply andb_true_iff in A as [A A4]. apply andb_true_iff in A as [A A3].
  apply andb_true_iff in A as [A1 A2].
  apply negb_true_iff in A3. apply negb_true_iff in A4. auto.
Qed.

(** An address without a slash, followed by a slash and a prefix length. *)
Lemma calculateSubnet_with_prefix a k :
  includes "/" a = false -> 0 <= k <= 255 ->
  calculateSubnet (a ++ "/" ++ toString k)
  = if includes ":" a then calculateIPv6Subnet a k else calculateIPv4Subnet a k.
Proof.
  intros Ha Hk. destruct (number_text k Hk) as (_ & _ & Hs & _).
  destruct (octet_facts k Hk) as (Hp & _).
  unfold calculateSubnet.
  change ("/" ++ toString k) with (String "/" (toString k)).
  rewrite includes_char_app, Ha, includes_char_cons. cbn [Ascii.eqb Bool.eqb orb negb].
  rewrite split_char_app by exact Ha. rewrite (split_char_none _ _ Hs).
  cbn [nth]. rewrite Hp. reflexivity.
Qed.

Lemma processInput_clean s info :
  startsClean s = true -> endsClean s = true ->
  calculateSubnet s = Some info ->
  processInput s = {| resultError := None; subnetInfo := Some info |}.
Proof.
  intros H1 H2 H. unfold processInput. rewrite (trim_clean s H1 H2), H.
  destruct s; [discriminate | reflexivity].
Qed.

Lemma shiftedInput_clean sn k :
  startsClean (network sn) = true -> 0 <= k <= 255 ->
  startsClean (App.shiftedInput sn k) = true /\ endsClean (App.shiftedInput sn k) = true.
Proof.
  intros H Hk. destruct (number_text k Hk) as (_ & He & _).
  unfold App.shiftedInput. split.
  - apply startsClean_app, H.
  - apply endsClean_app. apply (endsClean_app "/"), He.
Qed.

Lemma shiftedResult_in_range sn text newCidr shifted :
  text <> "" ->
  parseInt text 10 = Fin newCidr ->
  0 <= newCidr <= (match ipVersion sn with V4 => 32 | V6 => 128 end) ->
  startsClean (network sn) = true ->
  calculateSubnet (App.shiftedInput sn newCidr) = Some shifted ->
  App.shiftedResult sn text
  = App.Shifted {| resultError := None; subnetInfo := Some shifted |}.
Proof.
  intros Ht Hp Hr Hc Hs. unfold App.shiftedResult.
  destruct (String.eqb_spec text ""); [contradiction |].
  rewrite Hp.
  assert (Hk : 0 <= newCidr <= 255) by (destruct (ipVersion sn); lia).
  destruct (shiftedInput_clean sn newCidr Hc Hk) as [C1 C2].
  rewrite (processInput_clean _ shifted C1 C2 Hs). cbn [resultError].
  destruct (Z.ltb_spec newCidr 0); [lia |].
  destruct (ipVersion sn).
  - destruct (Z.ltb_spec 32 newCidr); [lia | reflexivity].
  - destruct (Z.ltb_spec 128 newCidr); [lia | reflexivity].
Qed.

Lemma intToIPv4_starts_clean n : startsClean (intToIPv4 n) = true.
Proof.
  rewrite intToIPv4_octets. cbn [map join].
  apply startsClean_app.
  assert (R : 0 <= octetAt 3 n <= 255).
  { unfold octetAt. pose proof (Z.mod_pos_bound (ToUint32 n / 2 ^ (8 * 3)) 256). lia. }
  apply (number_text _ R).
Qed.

(** The network of a prefix of 1 to 32 bits is left as it is by the mask of
    a longer prefix. *)
Lemma finer_mask_keeps_network a c c' :
  0 <= a < 2 ^ 32 -> 1 <= c <= c' -> c' <= 32 ->
  let n := Z.land a (shru (shl 0xFFFFFFFF (32 - c)) 0) in
  Z.land n (shru (shl 0xFFFFFFFF (32 - c')) 0) = n.
Proof.
  intros Ha Hc Hc' n.
  destruct (network_land_facts a c Ha ltac:(lia)) as [Hn _]. fold n in Hn.
  rewrite (network_value n c') by lia.
  assert (E : n = a - a mod 2 ^ (32 - c)) by (apply network_value; lia).
  assert (D : n mod 2 ^ (32 - c') = 0).
  { replace (32 - c) with ((32 - c') + (c' - c)) in E by lia.
    rewrite Z.pow_add_r in E by lia.
    assert (P : 0 < 2 ^ (32 - c')) by (apply Z.pow_pos_nonneg; lia).
    assert (Q : 0 < 2 ^ (c' - c)) by (apply Z.pow_pos_nonneg; lia).
    pose proof (Z.div_mod a (2 ^ (32 - c') * 2 ^ (c' - c)) ltac:(lia)) as DM.
    replace n with ((a / (2 ^ (32 - c') * 2 ^ (c' - c)) * 2 ^ (c' - c)) * 2 ^ (32 - c'))
      by lia.
    apply Z.mod_mul. lia. }
  lia.
Qed.

(** X18.  Shifting an IPv4 result to a prefix length from 0 to 32 never
    fails: the shifted result is the subnet of the network address with the
    new prefix length.  A longer prefix keeps the network address, and so
    does the prefix length 0. *)
Theorem shifting_an_ipv4_subnet (ip text : string) (cidr newCidr : Z) (info : SubnetInfo) :
  calculateIPv4Subnet ip cidr = Some info ->
  text <> "" ->
  parseInt text 10 = Fin newCidr ->
  0 <= newCidr <= 32 ->
  exists shifted,
    calculateIPv4Subnet (network info) newCidr = Some shifted
    /\ App.shiftedResult info text
       = App.Shifted {| resultError := None; subnetInfo := Some shifted |}
    /\ Utils.cidr shifted = newCidr
    /\ (1 <= cidr <= newCidr \/ newCidr = 0 -> network shifted = network info).
Proof.
  intros H Ht Hp Hr.
  destruct (calculateIPv4Subnet_Some ip cidr info H)
    as (o0 & o1 & o2 & o3 & _ & Hc & Ha & _ & ->).
  set (a := ipv4Value o0 o1 o2 o3) in *.
  set (n := Z.land a (shru (shl 0xFFFFFFFF (32 - cidr)) 0)).
  destruct (network_land_facts a cidr Ha Hc) as [Hn _]. fold n in Hn.
  change (network (ipv4Info a o0 cidr)) with (intToIPv4 n).
  pose proof (calculateIPv4Subnet_intToIPv4 n newCidr Hn Hr) as E.
  exists (ipv4Info n (octetAt 3 n) newCidr).
  split; [exact E |]. split; [| split; [reflexivity |]].
  - apply (shiftedResult_in_range _ text newCidr); try assumption.
    + apply intToIPv4_starts_clean.
    + unfold App.shiftedInput.
      change (network (ipv4Info a o0 cidr)) with (intToIPv4 n).
      rewrite calculateSubnet_with_prefix by (try apply intToIPv4_no_slash; lia).
      rewrite intToIPv4_no_colon. exact E.
  - intros [K | ->].
    + change (network (ipv4Info n (octetAt 3 n) newCidr))
        with (intToIPv4 (Z.land n (shru (shl 0xFFFFFFFF (32 - newCidr)) 0))).
      f_equal. apply finer_mask_keeps_network; lia.
    + change (network (ipv4Info n (octetAt 3 n) 0))
        with (intToIPv4 (Z.land n (shru (shl 0xFFFFFFFF (32 - 0)) 0))).
      f_equal. apply network_value_0. exact Hn.
Qed.

Lemma shifting_an_ipv4_subnet_witness :
  exists info,
    calculateIPv4Subnet "10.1.2.3" 16 = Some info
    /\ exists shifted,
      calculateIPv4Subnet (network info) 20 = Some shifted
      /\ App.shiftedResult info "20"
         = App.Shifted {| resultError := None; subnetInfo := Some shifted |}
      /\ Utils.cidr shifted = 20
      /\ (1 <= 16 <= 20 \/ 20 = 0 -> network shifted = network info).
Proof.
  eexists. split; [vm_compute; reflexivity |].
  apply (shifting_an_ipv4_subnet "10.1.2.3" "20" 16 20);
    [vm_compute; reflexivity | discriminate | vm_compute; reflexivity | lia].
Defined.

Lemma groupMasksNested_all : forallb groupMasksNested (zrange 1 15) = true.
Proof. vm_compute. reflexivity. Qed.

Lemma groupMask_nested rb rb' :
  0 < rb -> rb <= rb' -> rb' < 16 ->
  Z.land (groupMask rb) (groupMask rb') = groupMask rb.
Proof.
  intros H0 H1 H2. pose proof groupMasksNested_all as A. rewrite forallb_forall in A.
  specialize (A rb (In_zrange 15 1 rb ltac:(lia))). unfold groupMasksNested in A.
  rewrite forallb_forall in A.
  specialize (A rb' (In_zrange 15 1 rb' ltac:(lia))).
  destruct (Z.leb_spec rb rb'); [| lia]. apply Z.eqb_eq. exact A.
Qed.

Lemma groupMask_range rb : 0 <= groupMask rb < 65536.
Proof. unfold groupMask. rewrite band_ffff. apply Z.mod_pos_bound. lia. Qed.

(** What the mask of a prefix kept, the mask of a longer prefix keeps. *)
Lemma masked_group_finer x rb rb' :
  0 < rb -> rb <= rb' -> rb' < 16 ->
  let v := shru (band x (groupMask rb)) 0 in
  shru (band v (groupMask rb')) 0 = v.
Proof.
  intros H0 H1 H2 v.
  pose proof (groupMask_range rb) as R. pose proof (groupMask_range rb') as R'.
  destruct (masked_group x rb) as [Hv _]. fold (groupMask rb) in Hv. fold v in Hv.
  assert (Ev : v = Z.land (ToUint32 x) (groupMask rb)).
  { unfold v. rewrite shru_band_0, (ToUint32_small (groupMask rb)) by lia. reflexivity. }
  rewrite shru_band_0, (ToUint32_small v), (ToUint32_small (groupMask rb')) by lia.
  rewrite Ev, <- Z.land_assoc, (groupMask_nested rb rb') by lia. reflexivity.
Qed.

Lemma networkParts_zeros n : forall rb,
  networkParts (repeat "0000" n) n 0 rb = repeat "0000" n.
Proof.
  induction n as [| n IH]; intros rb; [reflexivity |].
  cbn [repeat]. rewrite networkParts_cons, IH.
  destruct (16 <=? rb); [reflexivity |]. destruct (0 <? rb); reflexivity.
Qed.

Lemma networkParts_finer count : forall G rb rb',
  List.length G = count -> rb <= rb' ->
  networkParts (networkParts G count 0 rb) count 0 rb' = networkParts G count 0 rb.
Proof.
  induction count as [| count IH]; intros G rb rb' HG Hr; [reflexivity |].
  destruct G as [| p ps]; [discriminate |].
  rewrite (networkParts_cons p ps count rb).
  destruct (Z.leb_spec 16 rb) as [H16 | H16].
  - rewrite networkParts_cons. destruct (Z.leb_spec 16 rb'); [| lia].
    rewrite IH by (simpl in HG; lia). reflexivity.
  - destruct (Z.ltb_spec 0 rb) as [H0 | H0].
    + rewrite networkParts_cons. destruct (Z.leb_spec 16 rb') as [K | K].
      * rewrite networkParts_zeros. reflexivity.
      * destruct (Z.ltb_spec 0 rb'); [| lia].
        destruct (masked_group (integral (parseInt p 16)) rb) as [Hv _].
        destruct (hex_group _ Hv) as (Hp & _). rewrite Hp. cbn [integral].
        fold (groupMask rb). fold (groupMask rb').
        rewrite (masked_group_finer _ rb rb') by lia. reflexivity.
    + apply networkParts_zeros.
Qed.

Lemma join_has_colon g h G : includes ":" (join ":" (g :: h :: G)) = true.
Proof.
  change (join ":" (g :: h :: G)) with (g ++ String ":" (join ":" (h :: G))).
  rewrite includes_char_app, includes_char_cons. cbn [Ascii.eqb Bool.eqb orb].
  apply orb_true_r.
Qed.

(** The subnet of a text that is its own expansion. *)
Lemma calculateIPv6Subnet_of_expansion e cidr :
  expandIPv6 e = Some e -> 0 <= cidr <= 128 ->
  exists info,
    calculateIPv6Subnet e cidr = Some info
    /\ network info = calculateIPv6Network e cidr
    /\ Utils.cidr info = cidr.
Proof.
  intros He Hc. unfold calculateIPv6Subnet.
  destruct (Z.ltb_spec cidr 0); [lia |]. destruct (Z.ltb_spec 128 cidr); [lia |].
  cbn [orb]. rewrite He.
  destruct (expansion_is_fixed e e He) as (_ & _ & _ & Hne).
  destruct (String.eqb_spec e ""); [contradiction |].
  eexists. split; [reflexivity |]. split; reflexivity.
Qed.

(** X19.  Shifting an IPv6 result to a prefix length from 0 to 128 never
    fails, once the network text does not start with white space: the
    shifted result is the subnet of the network address with the new prefix
    length, and a prefix at least as long keeps the network address.  The
    [prefix] field of a result is the input that shifts it to its own prefix
    length. *)
Theorem shifting_an_ipv6_subnet (ip text : string) (cidr newCidr : Z) (info : SubnetInfo) :
  calculateIPv6Subnet ip cidr = Some info ->
  includes "/" ip = false ->
  trimStart (network info) = network info ->
  text <> "" ->
  parseInt text 10 = Fin newCidr ->
  0 <= newCidr <= 128 ->
  exists shifted,
    calculateIPv6Subnet (network info) newCidr = Some shifted
    /\ App.shiftedResult info text
       = App.Shifted {| resultError := None; subnetInfo := Some shifted |}
    /\ Utils.cidr shifted = newCidr
    /\ (cidr <= newCidr -> network shifted = network info)
    /\ prefix info = Some (App.shiftedInput info cidr).
Proof.
  intros H Hs Hw Ht Hp Hr.
  destruct (calculateIPv6Subnet_inv ip cidr info H)
    as (e & He & Hc & Hnet & _ & _ & _ & _ & Hci & Hv & Hpre).
  destruct (network_is_fixed ip e cidr He) as [Hx _].
  rewrite <- Hnet in Hx.
  destruct (calculateIPv6Subnet_of_expansion (network info) newCidr Hx Hr)
    as (shifted & Hsh & Hn' & Hc').
  destruct (expansion_is_fixed ip e He) as (_ & H8 & HG & _).
  destruct (networkParts_groups 8 (split ":" e) cidr H8 HG) as [N8 NG].
  assert (Hsplit : split ":" (network info) = networkParts (split ":" e) 8 0 cidr).
  { rewrite Hnet. unfold calculateIPv6Network.
    apply (long_groups_split _ (eight_nonempty _ N8) NG). }
  assert (Hcolon : includes ":" (network info) = true).
  { rewrite Hnet. unfold calculateIPv6Network.
    destruct (networkParts (split ":" e) 8 0 cidr) as [| g [| h G]];
      [discriminate | discriminate | apply join_has_colon]. }
  assert (Hclean : startsClean (network info) = true).
  { destruct (expansion_is_fixed _ _ Hx) as (_ & _ & _ & Hne).
    destruct (network info) as [| c s]; [contradiction |].
    cbn [trimStart] in Hw. cbn [startsClean].
    destruct (isWhiteSpace c); [| reflexivity].
    exfalso. clear - Hw.
    assert (L : forall t, (String.length (trimStart t) <= String.length t)%nat).
    { induction t as [| d t IH]; [simpl; lia |].
      cbn [trimStart]. destruct (isWhiteSpace d); simpl in *; lia. }
    pose proof (L s) as Ls. rewrite Hw in Ls. simpl in Ls. lia. }
  exists shifted. split; [exact Hsh |]. split; [| split; [exact Hc' | split]].
  - apply (shiftedResult_in_range _ text newCidr); try assumption.
    + rewrite Hv. exact Hr.
    + unfold App.shiftedInput.
      rewrite calculateSubnet_with_prefix; [| | lia].
      * rewrite Hcolon. exact Hsh.
      * rewrite Hnet. apply (network_no_slash ip e cidr Hs He).
  - intros Hle. rewrite Hn'. unfold calculateIPv6Network.
    rewrite Hsplit, (networkParts_finer 8 _ cidr newCidr H8 Hle).
    symmetry. exact Hnet.
  - rewrite Hpre. reflexivity.
Qed.

Lemma shifting_an_ipv6_subnet_witness :
  exists info,
    calculateIPv6Subnet "2001:db8:abcd:12::5" 60 = Some info
    /\ exists shifted,
      calculateIPv6Subnet (network info) 64 = Some shifted
      /\ App.shiftedResult info "64"
         = App.Shifted {| resultError := None; subnetInfo := Some shifted |}
      /\ Utils.cidr shifted = 64
      /\ (60 <= 64 -> network shifted = network info)
      /\ prefix info = Some (App.shiftedInput info 60).
Proof.
  eexists. split; [vm_compute; reflexivity |].
  apply (shifting_an_ipv6_subnet "2001:db8:abcd:12::5" "64" 60 64);
    [vm_compute; reflexivity | vm_compute; reflexivity | vm_compute; reflexivity
     | discriminate | vm_compute; reflexivity | lia].
Defined.

End Shifting.

(* ================================================================== *)
(** * The compressed form of an IPv6 address (main.ts) *)
(* ================================================================== *)

Section IPv6Compression.

Lemma append_nil_r s : s ++ "" = s.
Proof. induction s as [| c s IH]; [reflexivity | cbn [append]; rewrite IH; reflexivity]. Qed.

Lemma wordChar_not_colon c : isWordChar c = true -> Ascii.eqb c ":" = false.
Proof.
  intros H. destruct (Ascii.eqb_spec c ":") as [-> | _]; [discriminate H | reflexivity].
Qed.

Lemma wordGroup_no_colon g : wordGroup g = true -> includes ":" g = false.
Proof.
  induction g as [| c g IH]; [reflexivity |].
  cbn [wordGroup]. intros H. apply andb_true_iff in H as [H1 H2].
  rewrite includes_char_cons, (IH H2), Ascii.eqb_sym, (wordChar_not_colon c H1).
  reflexivity.
Qed.

Lemma stripZeros_word g : wordGroup g = true -> wordGroup (stripZeros g) = true.
Proof.
  induction g as [| c g IH]; [reflexivity |].
  intros H. cbn [stripZeros]. destruct (Ascii.eqb c "0"); [| exact H].
  cbn [wordGroup] in H. apply andb_true_iff in H as [_ H]. apply IH, H.
Qed.

Lemma stripZeros_head g : startsWith "0" (stripZeros g) = false.
Proof.
  induction g as [| c g IH]; [reflexivity |].
  cbn [stripZeros]. destruct (Ascii.eqb c "0") eqn:E; [exact IH |].
  rewrite startsWith_char_cons, Ascii.eqb_sym. exact E.
Qed.

Lemma stripZeros_split g :
  g = repeatChar "0" (String.length g - String.length (stripZeros g)) ++ stripZeros g
  /\ (String.length (stripZeros g) <= String.length g)%nat.
Proof.
  induction g as [| c g [IH1 IH2]]; [split; reflexivity |].
  cbn [stripZeros]. destruct (Ascii.eqb_spec c "0") as [-> | N].
  - split; [| cbn [String.length]; lia].
    replace (String.length (String "0" g) - String.length (stripZeros g))%nat
      with (S (String.length g - String.length (stripZeros g)))
      by (cbn [String.length]; lia).
    cbn [repeatChar append]. rewrite <- IH1. reflexivity.
  - split; [| lia]. rewrite Nat.sub_diag. reflexivity.
Qed.

Lemma padStart_stripZeros g :
  String.length g = 4%nat -> padStart 4 "0" (stripZeros g) = g.
Proof.
  intros H. destruct (stripZeros_split g) as [E _].
  unfold padStart. rewrite <- H. symmetry. exact E.
Qed.

(** ** The first replacement *)

Lemma dropBoundaryZeros_word g rest :
  wordGroup g = true ->
  App.dropBoundaryZeros true false (g ++ rest) = g ++ App.dropBoundaryZeros true false rest.
Proof.
  induction g as [| c g IH]; intros H; [reflexivity |].
  cbn [wordGroup] in H. apply andb_true_iff in H as [H1 H2].
  cbn [append App.dropBoundaryZeros orb negb]. rewrite andb_false_r, H1, (IH H2).
  reflexivity.
Qed.

Lemma dropBoundaryZeros_group b g rest :
  wordGroup g = true ->
  App.dropBoundaryZeros b b (g ++ String ":" rest)
  = stripZeros g ++ String ":" (App.dropBoundaryZeros false false rest).
Proof.
  revert b. induction g as [| c g IH]; intros b H.
  - cbn. reflexivity.
  - cbn [wordGroup] in H. apply andb_true_iff in H as [H1 H2].
    cbn [append App.dropBoundaryZeros stripZeros].
    destruct (Ascii.eqb c "0").
    + replace (b || negb b) with true by (destruct b; reflexivity).
      cbn [andb]. apply (IH true H2).
    + cbn [andb append]. rewrite H1, (dropBoundaryZeros_word g _ H2). reflexivity.
Qed.

Lemma dropBoundaryZeros_last b g :
  wordGroup g = true -> App.dropBoundaryZeros b b g = stripZeros g.
Proof.
  revert b. induction g as [| c g IH]; intros b H; [reflexivity |].
  cbn [wordGroup] in H. apply andb_true_iff in H as [H1 H2].
  cbn [App.dropBoundaryZeros stripZeros].
  destruct (Ascii.eqb c "0").
  - replace (b || negb b) with true by (destruct b; reflexivity).
    cbn [andb]. apply (IH true H2).
  - cbn [andb]. rewrite H1.
    pose proof (dropBoundaryZeros_word g "" H2) as W.
    cbn [App.dropBoundaryZeros] in W. rewrite !append_nil_r in W.
    rewrite W. reflexivity.
Qed.

Lemma dropBoundaryZeros_join G :
  G <> [] -> Forall (fun g => wordGroup g = true) G ->
  App.dropBoundaryZeros false false (join ":" G) = join ":" (map stripZeros G).
Proof.
  induction G as [| g G IH]; intros Hne HF; [congruence |].
  inversion HF as [| ? ? Hg HG]; subst. destruct G as [| h G].
  - apply dropBoundaryZeros_last, Hg.
  - change (join ":" (g :: h :: G)) with (g ++ String ":" (join ":" (h :: G))).
    rewrite (dropBoundaryZeros_group false g _ Hg), IH by (try discriminate; exact HG).
    reflexivity.
Qed.

(** ** The second replacement *)

Lemma dropZerosAfterColon_inside s rest :
  includes ":" s = false ->
  App.dropZerosAfterColon false (s ++ rest) = s ++ App.dropZerosAfterColon false rest.
Proof.
  induction s as [| c s IH]; intros H; [reflexivity |].
  rewrite includes_char_cons in H. apply orb_false_iff in H as [H1 H2].
  cbn [append App.dropZerosAfterColon]. rewrite andb_false_r.
  rewrite Ascii.eqb_sym, H1, (IH H2). reflexivity.
Qed.

Lemma dropZerosAfterColon_group b s rest :
  includes ":" s = false -> startsWith "0" s = false ->
  App.dropZerosAfterColon b (s ++ String ":" rest)
  = s ++ String ":" (App.dropZerosAfterColon true rest).
Proof.
  intros H Z. destruct s as [| c s].
  - cbn. reflexivity.
  - rewrite includes_char_cons in H. apply orb_false_iff in H as [H1 H2].
    rewrite startsWith_char_cons, Ascii.eqb_sym in Z.
    cbn [append App.dropZerosAfterColon]. rewrite Z. cbn [andb].
    rewrite Ascii.eqb_sym, H1, (dropZerosAfterColon_inside s _ H2). reflexivity.
Qed.

Lemma dropZerosAfterColon_last b s :
  includes ":" s = false -> startsWith "0" s = false ->
  App.dropZerosAfterColon b s = s.
Proof.
  intros H Z. destruct s as [| c s]; [reflexivity |].
  rewrite includes_char_cons in H. apply orb_false_iff in H as [H1 H2].
  rewrite startsWith_char_cons, Ascii.eqb_sym in Z.
  cbn [App.dropZerosAfterColon]. rewrite Z. cbn [andb].
  rewrite Ascii.eqb_sym, H1.
  pose proof (dropZerosAfterColon_inside s "" H2) as W.
  cbn [App.dropZerosAfterColon] in W. rewrite !append_nil_r in W.
  rewrite W. reflexivity.
Qed.

Lemma dropZerosAfterColon_join S : forall b,
  Forall (fun s => includes ":" s = false /\ startsWith "0" s = false) S ->
  App.dropZerosAfterColon b (join ":" S) = join ":" S.
Proof.
  induction S as [| s S IH]; intros b HF; [reflexivity |].
  inversion HF as [| ? ? [H1 H2] HS]; subst. destruct S as [| t S].
  - apply dropZerosAfterColon_last; assumption.
  - change (join ":" (s :: t :: S)) with (s ++ String ":" (join ":" (t :: S))).
    rewrite (dropZerosAfterColon_group b s _ H1 H2), (IH true HS). reflexivity.
Qed.

(** The first two replacements strip the leading zeros of every group. *)
Lemma compressIPv6_groups G :
  G <> [] -> Forall (fun g => wordGroup g = true) G ->
  App.compressIPv6 (join ":" G) = App.squeezeColons 0 (join ":" (map stripZeros G)).
Proof.
  intros Hne HF. unfold App.compressIPv6.
  rewrite (dropBoundaryZeros_join G Hne HF), dropZerosAfterColon_join; [reflexivity |].
  apply Forall_map. eapply Forall_impl; [| exact HF].
  intros g Hg. split; [| apply stripZeros_head].
  apply wordGroup_no_colon, stripZeros_word, Hg.
Qed.

(** ** The third replacement *)

Lemma squeezeColons_inside s rest :
  includes ":" s = false ->
  App.squeezeColons 0 (s ++ rest) = s ++ App.squeezeColons 0 rest.
Proof.
  induction s as [| c s IH]; intros H; [reflexivity |].
  rewrite includes_char_cons in H. apply orb_false_iff in H as [H1 H2].
  cbn [append App.squeezeColons]. rewrite Ascii.eqb_sym, H1, (IH H2). reflexivity.
Qed.

Lemma squeezeColons_group k s rest :
  s <> "" -> includes ":" s = false ->
  App.squeezeColons k (s ++ rest) = s ++ App.squeezeColons 0 rest.
Proof.
  intros Hne H. destruct s as [| c s]; [congruence |].
  rewrite includes_char_cons in H. apply orb_false_iff in H as [H1 H2].
  cbn [append App.squeezeColons].
  rewrite Ascii.eqb_sym, H1, (squeezeColons_inside s _ H2). reflexivity.
Qed.

Lemma squeezeColons_join S : forall k rest,
  S <> [] -> Forall (fun s => s <> "" /\ includes ":" s = false) S ->
  App.squeezeColons k (join ":" S ++ rest) = join ":" S ++ App.squeezeColons 0 rest.
Proof.
  induction S as [| s S IH]; intros k rest Hne HF; [congruence |].
  inversion HF as [| ? ? [H1 H2] HS]; subst. destruct S as [| t S].
  - apply squeezeColons_group; assumption.
  - change (join ":" (s :: t :: S)) with (s ++ String ":" (join ":" (t :: S))).
    rewrite !append_assoc. rewrite (squeezeColons_group k s _ H1 H2).
    change (String ":" (join ":" (t :: S)) ++ rest)
      with (String ":" (join ":" (t :: S) ++ rest)).
    cbn [App.squeezeColons Ascii.eqb Bool.eqb Nat.ltb Nat.leb].
    rewrite (IH 1%nat rest) by (try discriminate; exact HS).
    reflexivity.
Qed.

Lemma squeezeColons_full m : App.squeezeColons 2 (repeatChar ":" m) = "".
Proof. induction m as [| m IH]; [reflexivity | exact IH]. Qed.

Lemma squeezeColons_run m :
  (1 <= m)%nat ->
  App.squeezeColons 0 (repeatChar ":" m) = if (m =? 1)%nat then ":" else "::".
Proof.
  intros H. destruct m as [| [| m]]; [lia | reflexivity |].
  cbn [repeatChar App.squeezeColons Ascii.eqb Bool.eqb Nat.ltb Nat.leb Nat.eqb].
  rewrite squeezeColons_full. reflexivity.
Qed.

(** ** Joined groups *)

Lemma join_app X Y :
  X <> [] -> Y <> [] -> join ":" (X ++ Y) = join ":" X ++ String ":" (join ":" Y).
Proof.
  intros HX HY. induction X as [| x X IH]; [congruence |].
  destruct X as [| x' X].
  - destruct Y as [| y Y]; [congruence | reflexivity].
  - change (join ":" ((x :: x' :: X) ++ Y))
      with (x ++ String ":" (join ":" ((x' :: X) ++ Y))).
    rewrite IH by discriminate.
    change (join ":" (x :: x' :: X)) with (x ++ String ":" (join ":" (x' :: X))).
    rewrite append_assoc. reflexivity.
Qed.

Lemma join_empty_groups m : join ":" ("" :: repeat "" m) = repeatChar ":" m.
Proof.
  induction m as [| m IH]; [reflexivity |].
  change (join ":" ("" :: repeat "" (S m))) with (String ":" (join ":" ("" :: repeat "" m))).
  rewrite IH. reflexivity.
Qed.

Lemma join_then_empty L m :
  L <> [] -> (1 <= m)%nat ->
  join ":" (L ++ repeat "" m) = join ":" L ++ repeatChar ":" m.
Proof.
  intros HL Hm. destruct m as [| m]; [lia |].
  rewrite join_app by (try exact HL; discriminate).
  change (repeat "" (S m)) with ("" :: repeat "" m).
  rewrite join_empty_groups. reflexivity.
Qed.

Lemma stripped_groups A :
  Forall (fun g => wordGroup g = true /\ stripZeros g <> "") A ->
  Forall (fun s => s <> "" /\ includes ":" s = false) (map stripZeros A)
  /\ forallb isGroup (map stripZeros A) = true.
Proof.
  intros H.
  assert (F : Forall (fun s => s <> "" /\ includes ":" s = false) (map stripZeros A)).
  { apply Forall_map. eapply Forall_impl; [| exact H].
    intros g [H1 H2]. split; [exact H2 |].
    apply wordGroup_no_colon, stripZeros_word, H1. }
  split; [exact F |]. apply forallb_forall. intros s Hs.
  rewrite Forall_forall in F. destruct (F s Hs) as [F1 F2].
  unfold isGroup. rewrite F2. destruct s; [congruence | reflexivity].
Qed.

Lemma strip_zero_groups A m :
  map stripZeros (A ++ repeat "0000" m) = (map stripZeros A ++ repeat "" m)%list.
Proof. rewrite map_app, map_repeat. reflexivity. Qed.

Lemma word_groups_with_zeros A m :
  Forall (fun g => wordGroup g = true /\ stripZeros g <> "") A ->
  Forall (fun g => wordGroup g = true) (A ++ repeat "0000" m).
Proof.
  intros H. apply Forall_app. split.
  - eapply Forall_impl; [| exact H]. intros g [Hg _]. exact Hg.
  - apply Forall_forall. intros g Hg. apply repeat_spec in Hg. subst g. reflexivity.
Qed.

Lemma pad_stripped A :
  Forall (fun g => String.length g = 4%nat) A ->
  map (padStart 4 "0") (map stripZeros A) = A.
Proof.
  induction 1 as [| g A Hg _ IH]; [reflexivity |].
  cbn [map]. rewrite IH, (padStart_stripZeros g Hg). reflexivity.
Qed.

(** X22.  A network of [k] groups that are not zero followed by zero groups
    only (the groups being four word characters each) is compressed to its
    groups without their leading zeros, followed by [::], or by [:] when
    there is one zero group; [expandIPv6] gives the network back from the
    compressed text. *)
Theorem compressIPv6_round_trip (A : list string) (m : nat) :
  A <> [] ->
  Forall (fun g => wordGroup g = true /\ stripZeros g <> "") A ->
  Forall (fun g => String.length g = 4%nat) A ->
  (1 <= m)%nat ->
  (List.length A + m = 8)%nat ->
  App.compressIPv6 (join ":" (A ++ repeat "0000" m))
  = join ":" (map stripZeros A) ++ (if (m =? 1)%nat then ":" else "::")
  /\ expandIPv6 (App.compressIPv6 (join ":" (A ++ repeat "0000" m)))
     = Some (join ":" (A ++ repeat "0000" m)).
Proof.
  intros HA HF H4 Hm H8.
  destruct (stripped_groups A HF) as [FS GS].
  assert (HS : map stripZeros A <> []) by (destruct A; [congruence | discriminate]).
  assert (E : App.compressIPv6 (join ":" (A ++ repeat "0000" m))
              = join ":" (map stripZeros A) ++ (if (m =? 1)%nat then ":" else "::")).
  { rewrite compressIPv6_groups;
      [| destruct A; [congruence | discriminate] | apply word_groups_with_zeros, HF].
    rewrite strip_zero_groups, (join_then_empty _ m HS Hm).
    rewrite (squeezeColons_join _ 0%nat _ HS FS), (squeezeColons_run m Hm).
    reflexivity. }
  split; [exact E |]. rewrite E.
  destruct (Nat.eqb_spec m 1) as [-> | Hm1].
  - unfold expandIPv6. rewrite (join_groups_colon _ GS).
    assert (J : join ":" (map stripZeros A) ++ ":"
                = join ":" (map stripZeros A ++ [""])).
    { rewrite join_app by (try exact HS; discriminate). reflexivity. }
    rewrite J, split_char_join.
    + rewrite length_app, length_map. cbn [List.length].
      replace (List.length A + 1 =? 8)%nat with true by (symmetry; apply Nat.eqb_eq; lia).
      cbn [negb]. rewrite map_app, (pad_stripped A H4). reflexivity.
    + destruct (map stripZeros A); discriminate.
    + apply Forall_app. split; [| repeat constructor].
      eapply Forall_impl; [| exact FS]. intros s [_ Hs]. exact Hs.
  - change (join ":" (map stripZeros A) ++ "::")
      with (join ":" (map stripZeros A) ++ "::" ++ join ":" []).
    rewrite (expandIPv6_compressed _ [] GS eq_refl).
    rewrite length_map. cbn [List.length].
    replace (List.length A + 0 <=? 8)%nat with true by (symmetry; apply Nat.leb_le; lia).
    rewrite app_nil_r, map_app, (pad_stripped A H4), map_repeat.
    replace (8 - List.length A - 0)%nat with m by lia. reflexivity.
Qed.

Lemma compressIPv6_round_trip_witness :
  App.compressIPv6 (join ":" (["2001"; "0db8"; "00a0"] ++ repeat "0000" 5))
  = join ":" (map stripZeros ["2001"; "0db8"; "00a0"]) ++ (if (5 =? 1)%nat then ":" else "::")
  /\ expandIPv6 (App.compressIPv6 (join ":" (["2001"; "0db8"; "00a0"] ++ repeat "0000" 5)))
     = Some (join ":" (["2001"; "0db8"; "00a0"] ++ repeat "0000" 5)).
Proof.
  apply (compressIPv6_round_trip ["2001"; "0db8"; "00a0"] 5);
    [discriminate
    | repeat (apply Forall_cons; [split; [reflexivity | discriminate] |]); apply Forall_nil
    | repeat (apply Forall_cons; [reflexivity |]); apply Forall_nil
    | lia | reflexivity].
Defined.

(** X23.  When a zero group stands between groups that are not zero and two
    or more zero groups end the network, the compressed text holds [::]
    twice, and [expandIPv6] rejects it. *)
Theorem compressIPv6_with_two_zero_runs (A B : list string) (m : nat) :
  A <> [] -> B <> [] ->
  Forall (fun g => wordGroup g = true /\ stripZeros g <> "") A ->
  Forall (fun g => wordGroup g = true /\ stripZeros g <> "") B ->
  (2 <= m)%nat ->
  App.compressIPv6 (join ":" (A ++ "0000" :: B ++ repeat "0000" m))
  = join ":" (map stripZeros A) ++ "::" ++ join ":" (map stripZeros B) ++ "::"
  /\ expandIPv6 (App.compressIPv6 (join ":" (A ++ "0000" :: B ++ repeat "0000" m)))
     = None.
Proof.
  intros HA HB FA FB Hm.
  destruct (stripped_groups A FA) as [SA _]. destruct (stripped_groups B FB) as [SB _].
  assert (NA : map stripZeros A <> []) by (destruct A; [congruence | discriminate]).
  assert (NB : map stripZeros B <> []) by (destruct B; [congruence | discriminate]).
  assert (E : App.compressIPv6 (join ":" (A ++ "0000" :: B ++ repeat "0000" m))
              = join ":" (map stripZeros A) ++ "::"
                ++ join ":" (map stripZeros B) ++ "::").
  { rewrite compressIPv6_groups.
    - rewrite map_app. cbn [map].
      change (stripZeros "0000") with "".
      rewrite strip_zero_groups.
      rewrite join_app by (try exact NA; discriminate).
      assert (NY : (map stripZeros B ++ repeat "" m)%list <> []).
      { destruct (map stripZeros B); [congruence | discriminate]. }
      change ("" :: map stripZeros B ++ repeat "" m)%list
        with ([""] ++ (map stripZeros B ++ repeat "" m))%list.
      rewrite (join_app [""] _ ltac:(discriminate) NY).
      cbn [join append].
      rewrite (join_then_empty _ m NB) by lia.
      rewrite (squeezeColons_join _ 0%nat _ NA SA).
      cbn [append App.squeezeColons Ascii.eqb Bool.eqb Nat.ltb Nat.leb].
      rewrite (squeezeColons_join _ 2%nat _ NB SB), squeezeColons_run by lia.
      destruct (Nat.eqb_spec m 1); [lia | reflexivity].
    - destruct A; [congruence | discriminate].
    - apply Forall_app. split.
      + eapply Forall_impl; [| exact FA]. intros g [Hg _]. exact Hg.
      + constructor; [reflexivity |]. apply word_groups_with_zeros, FB. }
  split; [exact E |]. rewrite E. unfold expandIPv6.
  rewrite includes2_intro.
  pose proof (split2_length_ge3 (join ":" (map stripZeros A))
                (join ":" (map stripZeros B)) "") as L.
  destruct (Nat.ltb_spec 2 (List.length
              (split "::" (join ":" (map stripZeros A) ++ "::"
                           ++ join ":" (map stripZeros B) ++ "::")))) as [_ | K];
    [reflexivity |].
  change ("::" ++ "") with "::" in L. lia.
Qed.

Lemma compressIPv6_with_two_zero_runs_witness :
  App.compressIPv6 (join ":" (["2001"; "0db8"] ++ "0000" :: ["0001"] ++ repeat "0000" 4))
  = join ":" (map stripZeros ["2001"; "0db8"]) ++ "::"
    ++ join ":" (map stripZeros ["0001"]) ++ "::"
  /\ expandIPv6
       (App.compressIPv6
          (join ":" (["2001"; "0db8"] ++ "0000" :: ["0001"] ++ repeat "0000" 4)))
     = None.
Proof.
  apply (compressIPv6_with_two_zero_runs ["2001"; "0db8"] ["0001"] 4);
    [discriminate | discriminate
    | repeat (apply Forall_cons; [split; [reflexivity | discriminate] |]); apply Forall_nil
    | repeat (apply Forall_cons; [split; [reflexivity | discriminate] |]); apply Forall_nil
    | lia].
Defined.

End IPv6Compression.

(* ================================================================== *)
(** * The list of IPv6 subnets on an example *)
(* ================================================================== *)

Section IPv6EnumerationExamples.

Lemma generateSubnetList_v6_group_boundary_witness :
  exists sn,
    calculateSubnet "2001:db8::/46" = Some sn
    /\ generateSubnetList sn 48
       = repeat (join ":" (map printPart (partsOf [8193; 3512; 0; 0; 0; 0; 0; 0]))
                 ++ "/" ++ toString 48)
                (Z.to_nat (Z.min (2 ^ (48 - cidr sn)) 256)).
Proof.
  eexists. split; [vm_compute; reflexivity |].
  apply (generateSubnetList_v6_group_boundary _ 48
           "2001:0db8:0000:0000:0000:0000:0000:0000" [8193; 3512; 0; 0; 0; 0; 0; 0]);
    [reflexivity | vm_compute; reflexivity | vm_compute; reflexivity
    | repeat (apply Forall_cons; [lia |]); apply Forall_nil
    | simpl; lia | simpl; lia | reflexivity].
Defined.

Lemma generateSubnetList_v6_within_group_witness :
  exists sn,
    calculateSubnet "2001:db8::/64" = Some sn
    /\ generateSubnetList sn 66
       = map (fun i =>
                join ":" (map printPart
                            (setPart (partsOf [8193; 3512; 0; 0; 0; 0; 0; 0])
                               (Z.to_nat ((66 - 1) / 16))
                               (Fin ((nth (Z.to_nat ((66 - 1) / 16))
                                          [8193; 3512; 0; 0; 0; 0; 0; 0] 0
                                      + i * 2 ^ (16 - Z.rem 66 16)) mod 2 ^ 16))))
                ++ "/" ++ toString 66)
             (indices (Z.min (2 ^ (66 - cidr sn)) 256)).
Proof.
  eexists. split; [vm_compute; reflexivity |].
  apply (generateSubnetList_v6_within_group _ 66
           "2001:0db8:0000:0000:0000:0000:0000:0000" [8193; 3512; 0; 0; 0; 0; 0; 0]);
    [reflexivity | vm_compute; reflexivity | vm_compute; reflexivity
    | repeat (apply Forall_cons; [lia |]); apply Forall_nil
    | simpl; lia | simpl; lia | vm_compute; reflexivity | vm_compute; discriminate].
Defined.

End IPv6EnumerationExamples.

(* ================================================================== *)
(** * What [calculateSubnet] reads and what it returns *)
(* ================================================================== *)

Section CalculateSubnet.

Lemma includes_slash_app a rest : includes "/" (a ++ "/" ++ rest) = true.
Proof.
  change ("/" ++ rest) with (String "/" rest).
  rewrite includes_char_app, includes_char_cons. cbn [Ascii.eqb Bool.eqb orb].
  apply orb_true_r.
Qed.

Lemma decimalTextOk_all : forallb decimalTextOk (zrange 0 256) = true.
Proof. vm_compute. reflexivity. Qed.

Lemma digit_char c :
  isDecimalDigit c = true ->
  isWhiteSpace c = false
  /\ (forall r, stripSign (String c r) = (false, String c r))
  /\ exists d, digitValue c = Some d /\ (d <? 10) = true.
Proof.
  destruct c as [[] [] [] [] [] [] [] []]; intros H;
    try (vm_compute in H; discriminate H);
    (split; [reflexivity | split; [reflexivity | eexists; split; reflexivity]]).
Qed.

Lemma other_char c :
  isDecimalDigit c = false ->
  match digitValue c with
  | Some d => d <? 10
  | None => false
  end = false.
Proof.
  destruct c as [[] [] [] [] [] [] [] []]; intros H;
    try (vm_compute in H; discriminate H); reflexivity.
Qed.

Lemma plain_char c :
  isWhiteSpace c = false -> Ascii.eqb c "+" = false -> Ascii.eqb c "-" = false ->
  forall r, stripSign (String c r) = (false, String c r).
Proof.
  destruct c as [[] [] [] [] [] [] [] []]; intros H1 H2 H3 r;
    try discriminate H2; try discriminate H3; reflexivity.
Qed.

(** The digits of a number end where the decimal digits end. *)
Lemma digits_stop j acc : noDigitAhead j = true -> digits 10 j acc = acc.
Proof.
  destruct j as [| c r]; [reflexivity |]. cbn [noDigitAhead]. intros H.
  apply negb_true_iff in H. pose proof (other_char c H) as O.
  cbn [digits]. destruct (digitValue c) as [d |]; [| reflexivity].
  rewrite O. reflexivity.
Qed.

Lemma digits_app s j : forall acc,
  allDecimalDigits s = true -> noDigitAhead j = true ->
  digits 10 (s ++ j) acc = digits 10 s acc.
Proof.
  induction s as [| c s IH]; intros acc Hs Hj.
  - cbn [append digits]. apply digits_stop. exact Hj.
  - cbn [allDecimalDigits] in Hs. apply andb_true_iff in Hs as [Hc Hs].
    destruct (digit_char c Hc) as (_ & _ & d & Ed & Ld).
    cbn [append digits]. rewrite Ed, Ld. apply IH; assumption.
Qed.

Lemma parseInt_digits_then s j :
  allDecimalDigits s = true -> s <> "" -> noDigitAhead j = true ->
  parseInt (s ++ j) 10 = parseInt s 10.
Proof.
  intros Hs Hne Hj. destruct s as [| c s]; [congruence |].
  pose proof Hs as Hs'. cbn [allDecimalDigits] in Hs'.
  apply andb_true_iff in Hs' as [Hc _].
  destruct (digit_char c Hc) as (Hw & Hsign & _).
  unfold parseInt. cbn [append trimStart]. rewrite Hw, !Hsign.
  cbn [Z.eqb Pos.eqb].
  change (String c (s ++ j)) with (String c s ++ j).
  rewrite (digits_app (String c s) j None Hs Hj). reflexivity.
Qed.

Lemma parseInt_no_number j : noNumberAhead j = true -> parseInt j 10 = NaN.
Proof.
  destruct j as [| c r]; [reflexivity |]. cbn [noNumberAhead]. intros H.
  apply andb_true_iff in H as [H H4]. apply andb_true_iff in H as [H H3].
  apply andb_true_iff in H as [H1 H2].
  apply negb_true_iff in H1. apply negb_true_iff in H2.
  apply negb_true_iff in H3. apply negb_true_iff in H4.
  unfold parseInt. cbn [trimStart]. rewrite H2, (plain_char c H2 H3 H4).
  cbn [Z.eqb Pos.eqb].
  rewrite (digits_stop (String c r) None); [reflexivity |].
  cbn [noDigitAhead]. rewrite H1. reflexivity.
Qed.

(** The first piece of a split goes on to the first separator. *)
Lemma split_head_app c a s :
  includes (String c "") a = false ->
  nth 0 (split (String c "") (a ++ s)) "" = a ++ nth 0 (split (String c "") s) "".
Proof.
  unfold split. induction a as [| b a IH]; intros H; [reflexivity |].
  rewrite includes_char_cons in H. apply orb_false_iff in H as [H1 H2].
  cbn [append splitFrom]. rewrite startsWith_char_cons, H1.
  specialize (IH H2).
  pose proof (splitFrom_nonempty (String c "") 0 (a ++ s)) as N.
  destruct (splitFrom (String c "") 0 (a ++ s)) as [| p ps]; [congruence |].
  cbn [nth] in *. rewrite IH. reflexivity.
Qed.

Lemma first_piece_no_digit junk :
  noDigitAhead junk = true -> noDigitAhead (nth 0 (split "/" junk) "") = true.
Proof.
  destruct junk as [| c r]; [reflexivity |]. intros H.
  unfold split. cbn [splitFrom]. rewrite startsWith_char_cons.
  destruct (Ascii.eqb "/" c); [reflexivity |].
  pose proof (splitFrom_nonempty "/" 0 r) as N.
  destruct (splitFrom "/" 0 r) as [| p ps]; [congruence |]. exact H.
Qed.

Lemma first_piece_no_number junk :
  noNumberAhead junk = true -> noNumberAhead (nth 0 (split "/" junk) "") = true.
Proof.
  destruct junk as [| c r]; [reflexivity |]. intros H.
  unfold split. cbn [splitFrom]. rewrite startsWith_char_cons.
  destruct (Ascii.eqb "/" c); [reflexivity |].
  pose proof (splitFrom_nonempty "/" 0 r) as N.
  destruct (splitFrom "/" 0 r) as [| p ps]; [congruence |]. exact H.
Qed.

Lemma decimal_text k :
  0 <= k <= 255 -> allDecimalDigits (toString k) = true /\ toString k <> "".
Proof.
  intros H. pose proof decimalTextOk_all as A. rewrite forallb_forall in A.
  specialize (A k (In_zrange 256 0 k ltac:(lia))). unfold decimalTextOk in A.
  apply andb_true_iff in A as [A1 A2]. split; [exact A1 |].
  apply negb_true_iff in A2. intros E. rewrite E in A2. discriminate.
Qed.

(** X24.  After the address and a slash, [calculateSubnet] reads a prefix
    length up to 255 from its decimal digits and passes over whatever
    follows them, a second slash and more included: the result is that of
    the address with this prefix length.  A text after the slash that is
    empty, or starts with a character that is neither white space, a sign
    nor a digit, is rejected. *)
Theorem calculateSubnet_reads_prefix_length (ip junk other : string) (k : Z) :
  includes "/" ip = false ->
  0 <= k <= 255 ->
  noDigitAhead junk = true ->
  noNumberAhead other = true ->
  calculateSubnet (ip ++ "/" ++ toString k ++ junk)
  = (if includes ":" ip then calculateIPv6Subnet ip k else calculateIPv4Subnet ip k)
  /\ calculateSubnet (ip ++ "/" ++ other) = None.
Proof.
  intros Hi Hk Hj Hn.
  assert (E : forall rest,
             calculateSubnet (ip ++ "/" ++ rest)
             = match parseInt (nth 0 (split "/" rest) "") 10 with
               | Fin c => if includes ":" ip then calculateIPv6Subnet ip c
                          else calculateIPv4Subnet ip c
               | _ => None
               end).
  { intros rest. unfold calculateSubnet. rewrite includes_slash_app.
    change ("/" ++ rest) with (String "/" rest).
    rewrite (split_char_app _ _ _ Hi).
    pose proof (splitFrom_nonempty "/" 0 rest) as N. unfold split.
    destruct (splitFrom "/" 0 rest) as [| p ps]; [congruence |].
    cbn [negb nth]. destruct (parseInt p 10); reflexivity. }
  split.
  - destruct (number_text k Hk) as (_ & _ & Hs & _).
    destruct (decimal_text k Hk) as [Hd Hne].
    destruct (octet_facts k Hk) as (Hp & _).
    rewrite E, (split_head_app _ _ _ Hs).
    rewrite (parseInt_digits_then _ _ Hd Hne (first_piece_no_digit junk Hj)), Hp.
    reflexivity.
  - rewrite E, (parseInt_no_number _ (first_piece_no_number other Hn)).
    reflexivity.
Qed.

Lemma calculateSubnet_reads_prefix_length_witness :
  calculateSubnet ("10.1.2.3" ++ "/" ++ toString 8 ++ " bits/24")
  = (if includes ":" "10.1.2.3" then calculateIPv6Subnet "10.1.2.3" 8
     else calculateIPv4Subnet "10.1.2.3" 8)
  /\ calculateSubnet ("10.1.2.3" ++ "/" ++ "x8") = None.
Proof.
  apply (calculateSubnet_reads_prefix_length "10.1.2.3" " bits/24" "x8" 8);
    [reflexivity | lia | reflexivity | reflexivity].
Defined.

Lemma calculateSubnet_inv input info :
  calculateSubnet input = Some info ->
  exists ip c,
    (includes ":" ip = true /\ calculateIPv6Subnet ip c = Some info)
    \/ (includes ":" ip = false /\ calculateIPv4Subnet ip c = Some info).
Proof.
  unfold calculateSubnet. destruct (negb (includes "/" input)).
  - destruct (includes ":" input) eqn:E; intros H.
    + exists input, 128. left. split; assumption.
    + exists input, 32. right. split; assumption.
  - destruct (parseInt (nth 1 (split "/" input) "") 10) as [| b | c];
      try discriminate.
    destruct (includes ":" (nth 0 (split "/" input) "")) eqn:E; intros H.
    + exists (nth 0 (split "/" input) ""), c. left. split; assumption.
    + exists (nth 0 (split "/" input) ""), c. right. split; assumption.
Qed.

Lemma ipv6CountsOk_all : forallb ipv6CountsOk (zrange 0 129) = true.
Proof. vm_compute. reflexivity. Qed.

Lemma network_has_colon ip e cidr :
  expandIPv6 ip = Some e -> includes ":" (calculateIPv6Network e cidr) = true.
Proof.
  intros He. destruct (expansion_is_fixed ip e He) as (_ & H8 & HG & _).
  destruct (networkParts_groups 8 (split ":" e) cidr H8 HG) as [N8 _].
  unfold calculateIPv6Network.
  destruct (networkParts (split ":" e) 8 0 cidr) as [| g [| h G]];
    [discriminate | discriminate | apply join_has_colon].
Qed.

(** X25.  Every result of [calculateSubnet] has a usable count between 0 and
    its total, and a total of at least 1.  An IPv4 result has a prefix
    length from 0 to 32, the total [2^(32-cidr)], a broadcast, both masks and
    a class, no [prefix], and no colon in its network; an IPv6 result has a
    prefix length from 0 to 128, no broadcast, mask or class, its first and
    last host equal to the network, the [prefix] network/cidr, and a colon
    in its network. *)
Theorem calculateSubnet_result_invariants (input : string) (info : SubnetInfo) :
  calculateSubnet input = Some info ->
  0 <= usableHosts info <= totalHosts info
  /\ 1 <= totalHosts info
  /\ match ipVersion info with
     | V4 =>
         0 <= cidr info <= 32
         /\ totalHosts info = 2 ^ (32 - cidr info)
         /\ usableHosts info = Z.max 0 (totalHosts info - 2)
         /\ broadcast info <> None /\ subnetMask info <> None
         /\ wildcardMask info <> None /\ networkClass info <> None
         /\ prefix info = None
         /\ includes ":" (network info) = false
     | V6 =>
         0 <= cidr info <= 128
         /\ broadcast info = None /\ subnetMask info = None
         /\ wildcardMask info = None /\ networkClass info = None
         /\ firstHost info = Some (network info)
         /\ lastHost info = Some (network info)
         /\ prefix info = Some (network info ++ "/" ++ toString (cidr info))
         /\ includes ":" (network info) = true
     end.
Proof.
  intros H. destruct (calculateSubnet_inv input info H) as (ip & c & [[_ H6] | [_ H4]]).
  - pose proof H6 as H6'. unfold calculateIPv6Subnet in H6'.
    destruct (calculateIPv6Subnet_inv ip c info H6)
      as (e & He & Hc & Hnet & Hf & Hl & Ht & Hu & Hci & Hv & Hp).
    pose proof ipv6CountsOk_all as A. rewrite forallb_forall in A.
    specialize (A c (In_zrange 129 0 c ltac:(lia))). unfold ipv6CountsOk in A.
    rewrite <- Ht, <- Hu in A.
    apply andb_true_iff in A as [A A3]. apply andb_true_iff in A as [A1 A2].
    assert (B : broadcast info = None /\ subnetMask info = None
                /\ wildcardMask info = None /\ networkClass info = None).
    { destruct (Z.ltb_spec c 0); [lia |]. destruct (Z.ltb_spec 128 c); [lia |].
      cbn [orb] in H6'. rewrite He in H6'.
      destruct (e =? "")%string; [discriminate |].
      apply Some_inj in H6'. subst info. repeat split. }
    destruct B as (B1 & B2 & B3 & B4).
    rewrite Hv, Hci. repeat split; try lia; try assumption.
    rewrite Hnet. apply (network_has_colon ip e c He).
  - destruct (calculateIPv4Subnet_Some ip c info H4)
      as (o0 & o1 & o2 & o3 & _ & Hc & Ha & _ & ->).
    cbn [usableHosts totalHosts ipVersion cidr broadcast subnetMask wildcardMask
         networkClass prefix network ipv4Info].
    assert (P : 1 <= 2 ^ (32 - c)).
    { pose proof (Z.pow_pos_nonneg 2 (32 - c) ltac:(lia) ltac:(lia)). lia. }
    repeat split; try lia; try discriminate.
    apply intToIPv4_no_colon.
Qed.

Lemma calculateSubnet_result_invariants_witness :
  exists info,
    calculateSubnet "2001:db8::/70" = Some info
    /\ 0 <= usableHosts info <= totalHosts info
    /\ 1 <= totalHosts info
    /\ match ipVersion info with
       | V4 =>
           0 <= cidr info <= 32
           /\ totalHosts info = 2 ^ (32 - cidr info)
           /\ usableHosts info = Z.max 0 (totalHosts info - 2)
           /\ broadcast info <> None /\ subnetMask info <> None
           /\ wildcardMask info <> None /\ networkClass info <> None
           /\ prefix info = None
           /\ includes ":" (network info) = false
       | V6 =>
           0 <= cidr info <= 128
           /\ broadcast info = None /\ subnetMask info = None
           /\ wildcardMask info = None /\ networkClass info = None
           /\ firstHost info = Some (network info)
           /\ lastHost info = Some (network info)
           /\ prefix info = Some (network info ++ "/" ++ toString (cidr info))
           /\ includes ":" (network info) = true
       end.
Proof.
  eexists. split; [vm_compute; reflexivity |].
  apply (calculateSubnet_result_invariants "2001:db8::/70"). vm_compute. reflexivity.
Defined.

(** X26.  [isIPInSubnet] never looks at what follows a slash in the
    candidate; an error always comes with the result [false]; and the empty
    candidate is a format error of the version of the subnet. *)
Theorem isIPInSubnet_candidate_text (a rest ip : string) (sn : SubnetInfo) :
  includes "/" a = false ->
  isIPInSubnet (a ++ "/" ++ rest) sn = isIPInSubnet a sn
  /\ (error (isIPInSubnet ip sn) <> None -> result (isIPInSubnet ip sn) = false)
  /\ isIPInSubnet "" sn
     = {| result := false;
          error := Some (match ipVersion sn with
                         | V4 => "Invalid IPv4 address format"
                         | V6 => "Invalid IPv6 address format"
                         end) |}.
Proof.
  intros Ha. split; [apply isIPInSubnet_strip, Ha |]. split.
  - unfold isIPInSubnet. set (cleanIP := if includes "/" ip then _ else _).
    destruct (ipVersion sn).
    + unfold isIPv4InSubnet. destruct (negb _); [reflexivity |].
      destruct (map octet (split "." cleanIP)) as [| [o0 |] [| [o1 |] [| [o2 |] [| [o3 |] [| ? ?]]]]];
        try reflexivity.
      cbn [error]. congruence.
    + unfold isIPv6InSubnet.
      destruct (expandIPv6 cleanIP) as [e |]; [| reflexivity].
      destruct (expandIPv6 (network sn)) as [en |]; [| reflexivity].
      destruct (negb (truthy (Some e)) || negb (truthy (Some en))); [reflexivity |].
      cbn [error]. congruence.
  - unfold isIPInSubnet. cbn [includes startsWith orb].
    destruct (ipVersion sn); reflexivity.
Qed.

Lemma isIPInSubnet_candidate_text_witness :
  isIPInSubnet ("192.168.1.77" ++ "/" ++ "99 or so") net_192_168_1_0_24
  = isIPInSubnet "192.168.1.77" net_192_168_1_0_24
  /\ (error (isIPInSubnet "1.2.3" net_192_168_1_0_24) <> None ->
      result (isIPInSubnet "1.2.3" net_192_168_1_0_24) = false)
  /\ isIPInSubnet "" net_192_168_1_0_24
     = {| result := false;
          error := Some (match ipVersion net_192_168_1_0_24 with
                         | V4 => "Invalid IPv4 address format"
                         | V6 => "Invalid IPv6 address format"
                         end) |}.
Proof.
  apply (isIPInSubnet_candidate_text "192.168.1.77" "99 or so" "1.2.3"). reflexivity.
Defined.

End CalculateSubnet.

(* ================================================================== *)
(** * The binary and hexadecimal notations of a network (main.ts) *)
(* ================================================================== *)

Section Notations.

Lemma octetNotationOk_all : forallb octetNotationOk (zrange 0 256) = true.
Proof. vm_compute. reflexivity. Qed.

Lemma strictEq_Fin x z : strictEq x (Fin z) = true -> x = Fin z.
Proof.
  destruct x as [| b | y]; try discriminate. cbn [strictEq].
  intros H. apply Z.eqb_eq in H. subst. reflexivity.
Qed.

Lemma octet_notation o :
  0 <= o <= 255 ->
  String.length (octetBinary o) = 8%nat /\ parseInt (octetBinary o) 2 = Fin o
  /\ String.length (octetHex o) = 2%nat /\ parseInt (octetHex o) 16 = Fin o.
Proof.
  intros H. pose proof octetNotationOk_all as A. rewrite forallb_forall in A.
  specialize (A o (In_zrange 256 0 o ltac:(lia))). unfold octetNotationOk in A.
  apply andb_true_iff in A as [A A4]. apply andb_true_iff in A as [A A3].
  apply andb_true_iff in A as [A1 A2].
  apply Nat.eqb_eq in A1. apply Nat.eqb_eq in A3.
  apply strictEq_Fin in A2. apply strictEq_Fin in A4. auto.
Qed.

Lemma processInput_Some input info :
  processInput input = {| resultError := None; subnetInfo := Some info |} ->
  calculateSubnet (trim input) = Some info.
Proof.
  unfold processInput. destruct (trim input =? "")%string; [discriminate |].
  destruct (calculateSubnet (trim input)) as [i |]; [| discriminate].
  intros H. congruence.
Qed.

Lemma octetAt_octet k n : 0 <= k -> 0 <= octetAt k n <= 255.
Proof.
  intros Hk. unfold octetAt.
  pose proof (Z.mod_pos_bound (ToUint32 n / 2 ^ (8 * k)) 256 ltac:(lia)). lia.
Qed.

(** X27.  For every input that [processInput] accepts as IPv4, and whatever
    the locale, the binary
    notation is the word Binary and the four octets of the network in eight
    binary digits each, joined by dots, and the hexadecimal notation is the
    word Hex and the four octets in two digits each; every such text reads
    back as its octet. *)
Theorem notations_of_an_ipv4_network
    (toLocaleString : Z -> string) (input : string) (info : SubnetInfo) :
  processInput input = {| resultError := None; subnetInfo := Some info |} ->
  ipVersion info = V4 ->
  exists o0 o1 o2 o3,
    network info = join "." (map toString [o0; o1; o2; o3])
    /\ App.generateCalculationResult toLocaleString input "Binary Notation"
       = "Binary: " ++ join "." (map octetBinary [o0; o1; o2; o3])
    /\ App.generateCalculationResult toLocaleString input "Hexadecimal"
       = "Hex: " ++ join "." (map octetHex [o0; o1; o2; o3])
    /\ Forall (fun o =>
                 0 <= o <= 255
                 /\ String.length (octetBinary o) = 8%nat
                 /\ parseInt (octetBinary o) 2 = Fin o
                 /\ String.length (octetHex o) = 2%nat
                 /\ parseInt (octetHex o) 16 = Fin o)
              [o0; o1; o2; o3].
Proof.
  intros H Hv. pose proof (processInput_Some input info H) as Hc.
  destruct (calculateSubnet_inv _ info Hc) as (ip & c & [[_ H6] | [_ H4]]).
  { destruct (calculateIPv6Subnet_inv ip c info H6)
      as (e & _ & _ & _ & _ & _ & _ & _ & _ & Hv6 & _). congruence. }
  destruct (calculateIPv4Subnet_Some ip c info H4)
    as (a0 & a1 & a2 & a3 & _ & _ & _ & _ & E).
  set (n := Z.land (ipv4Value a0 a1 a2 a3) (shru (shl 0xFFFFFFFF (32 - c)) 0)).
  assert (N : network info = intToIPv4 n) by (rewrite E; reflexivity).
  pose proof (octetAt_octet 3 n ltac:(lia)) as R3.
  pose proof (octetAt_octet 2 n ltac:(lia)) as R2.
  pose proof (octetAt_octet 1 n ltac:(lia)) as R1.
  pose proof (octetAt_octet 0 n ltac:(lia)) as R0.
  destruct (octet_facts _ R3) as (P3 & _). destruct (octet_facts _ R2) as (P2 & _).
  destruct (octet_facts _ R1) as (P1 & _). destruct (octet_facts _ R0) as (P0 & _).
  exists (octetAt 3 n), (octetAt 2 n), (octetAt 1 n), (octetAt 0 n).
  split; [rewrite N; apply intToIPv4_octets |]. split; [| split].
  - unfold App.generateCalculationResult. rewrite H.
    cbn [subnetInfo resultError truthy]. rewrite Hv, N, split_intToIPv4.
    cbn [map]. rewrite P3, P2, P1, P0. reflexivity.
  - unfold App.generateCalculationResult. rewrite H.
    cbn [subnetInfo resultError truthy]. rewrite Hv, N, split_intToIPv4.
    cbn [map]. rewrite P3, P2, P1, P0. reflexivity.
  - repeat (apply Forall_cons;
            [split; [assumption | apply octet_notation; assumption] |]).
    apply Forall_nil.
Qed.

Lemma notations_of_an_ipv4_network_witness :
  exists o0 o1 o2 o3,
    network net_192_168_1_0_24 = join "." (map toString [o0; o1; o2; o3])
    /\ App.generateCalculationResult toString "192.168.1.77/24" "Binary Notation"
       = "Binary: " ++ join "." (map octetBinary [o0; o1; o2; o3])
    /\ App.generateCalculationResult toString "192.168.1.77/24" "Hexadecimal"
       = "Hex: " ++ join "." (map octetHex [o0; o1; o2; o3])
    /\ Forall (fun o =>
                 0 <= o <= 255
                 /\ String.length (octetBinary o) = 8%nat
                 /\ parseInt (octetBinary o) 2 = Fin o
                 /\ String.length (octetHex o) = 2%nat
                 /\ parseInt (octetHex o) 16 = Fin o)
              [o0; o1; o2; o3].
Proof.
  apply (notations_of_an_ipv4_network toString "192.168.1.77/24" net_192_168_1_0_24);
    [vm_compute; reflexivity | reflexivity].
Defined.

End Notations.

(* ================================================================== *)
(** * Private IPv6 addresses, and the size of the subnet list *)
(* ================================================================== *)

Section PrivateIPv6.

Lemma privateGroupOk_all : forallb privateGroupOk (zrange 0 (Z.to_nat 65536)) = true.
Proof. vm_compute. reflexivity. Qed.

Lemma startsWith_within p : forall g r,
  (String.length p <= String.length g)%nat ->
  startsWith p (g ++ r) = startsWith p g.
Proof.
  induction p as [| a p IH]; intros g r H; [reflexivity |].
  destruct g as [| b g]; [simpl in H; lia |].
  cbn [append startsWith]. rewrite IH by (simpl in H; lia). reflexivity.
Qed.

Lemma eqb_group_app g rest t :
  String.length g = 4%nat ->
  (g ++ ":" ++ rest =? "0000:" ++ t)%string = ((g =? "0000") && (rest =? t))%string.
Proof.
  intros H.
  destruct g as [| a [| b [| c [| d [| e g]]]]]; try discriminate H.
  cbn [append String.eqb].
  destruct (Ascii.eqb a "0"); [| reflexivity].
  destruct (Ascii.eqb b "0"); [| reflexivity].
  destruct (Ascii.eqb c "0"); [| reflexivity].
  destruct (Ascii.eqb d "0"); [| reflexivity].
  reflexivity.
Qed.

(** X28.  For an expanded address whose first group is the lower-case
    print of the 16-bit value [v], [isPrivateIPv6] is true exactly when [v]
    lies in fc00 .. fdff, or is fe80, or the address is the loopback
    address. *)
Theorem isPrivateIPv6_ranges (v : Z) (rest : string) :
  0 <= v < 65536 ->
  isPrivateIPv6 (padStart 4 "0" (toString16 (Fin v)) ++ ":" ++ rest)
  = ((64512 <=? v) && (v <=? 65023)) || (v =? 65152)
    || ((v =? 0) && (rest =? "0000:0000:0000:0000:0000:0000:0001")%string).
Proof.
  intros H. destruct (hex_group v H) as (_ & _ & _ & L).
  pose proof privateGroupOk_all as A. rewrite forallb_forall in A.
  specialize (A v (In_zrange (Z.to_nat 65536) 0 v ltac:(lia))).
  unfold privateGroupOk in A. apply andb_true_iff in A as [A1 A2].
  apply eqb_prop in A1. apply eqb_prop in A2.
  unfold isPrivateIPv6.
  rewrite !startsWith_within by (rewrite L; simpl; lia).
  change "0000:0000:0000:0000:0000:0000:0000:0001"
    with ("0000:" ++ "0000:0000:0000:0000:0000:0000:0001").
  rewrite (eqb_group_app _ rest _ L), A2, <- A1. reflexivity.
Qed.

Lemma isPrivateIPv6_ranges_witness :
  isPrivateIPv6 (padStart 4 "0" (toString16 (Fin 65153)) ++ ":" ++ "0000:0000:0000:0000:0000:0000:0001")
  = ((64512 <=? 65153) && (65153 <=? 65023)) || (65153 =? 65152)
    || ((65153 =? 0)
        && ("0000:0000:0000:0000:0000:0000:0001"
            =? "0000:0000:0000:0000:0000:0000:0001")%string).
Proof.
  apply (isPrivateIPv6_ranges 65153 "0000:0000:0000:0000:0000:0000:0001"). lia.
Defined.

(** X29.  For every result of [calculateSubnet] and every longer new prefix
    length, in range or not, [generateSubnetList] returns exactly
    [min(2^(newCidr - cidr), 256)] entries, at least one; so
    [renderSubnetList] always renders, and the count of its heading is the
    number of entries.  Up to 256 subnets the text of the list is the
    entries, one on a line; above 256 it is the 256 entries and one more
    line, which tells how many subnets are left out: the list then shows
    one line more than the heading counts. *)
Theorem subnet_list_count
    (toLocaleString : Z -> string) (input : string) (info : SubnetInfo) (newCidr : Z) :
  calculateSubnet input = Some info ->
  cidr info < newCidr ->
  let total := 2 ^ (newCidr - cidr info) in
  let entries := generateSubnetList info newCidr in
  Z.of_nat (List.length entries) = Z.min total 256
  /\ exists view,
       App.renderSubnetList toLocaleString info newCidr = Some view
       /\ App.displayCount view = Z.of_nat (List.length entries)
       /\ 1 <= App.displayCount view
       /\ App.totalSubnets view = total
       /\ (total <= 256 ->
           App.heading view = "Subnet List (" ++ toString total ++ " subnets)"
           /\ App.subnetContent view = join newline entries)
       /\ (256 < total ->
           App.heading view
           = "Subnet List (256 of " ++ toLocaleString total ++ " subnets)"
           /\ App.subnetContent view
              = join newline entries ++ newline ++ "... and "
                ++ toLocaleString (roundDouble (total - 256)) ++ " more subnets").
Proof.
  intros H Hc total entries.
  assert (P : 1 <= total).
  { pose proof (Z.pow_pos_nonneg 2 (newCidr - cidr info) ltac:(lia) ltac:(lia)).
    unfold total. lia. }
  assert (L : Z.of_nat (List.length entries) = Z.min total 256).
  { unfold entries, total, generateSubnetList.
    destruct (Z.leb_spec newCidr (cidr info)); [lia |].
    destruct (calculateSubnet_inv input info H) as (ip & c & [[_ H6] | [_ H4]]).
    - destruct (calculateIPv6Subnet_inv ip c info H6)
        as (e & He & _ & Hnet & _ & _ & _ & _ & _ & Hv & _).
      destruct (network_is_fixed ip e c He) as [Hx _]. rewrite <- Hnet in Hx.
      rewrite Hv, Hx, (truthy_expansion _ _ Hx), length_map, length_indices.
      fold total. lia.
    - destruct (calculateIPv4Subnet_Some ip c info H4)
        as (o0 & o1 & o2 & o3 & _ & _ & _ & _ & ->).
      cbn [ipVersion ipv4Info]. rewrite length_map, length_indices.
      fold total. lia. }
  split; [exact L |].
  unfold App.renderSubnetList. fold entries. fold total.
  destruct (Nat.eqb_spec (List.length entries) 0) as [Z0 | _].
  { rewrite Z0 in L. simpl in L. lia. }
  eexists. split; [reflexivity |].
  cbn [App.heading App.subnetContent App.displayCount App.totalSubnets].
  split; [symmetry; exact L |]. split; [lia |]. split; [reflexivity |]. split.
  - intros T. destruct (Z.ltb_spec 256 total); [lia |].
    rewrite Z.min_l by lia. rewrite append_nil_r. split; reflexivity.
  - intros T. destruct (Z.ltb_spec 256 total); [| lia].
    rewrite Z.min_r by lia. split; reflexivity.
Qed.

Lemma subnet_list_count_witness :
  exists info,
    calculateSubnet "10.0.0.0/8" = Some info
    /\ let total := 2 ^ (24 - cidr info) in
       let entries := generateSubnetList info 24 in
       Z.of_nat (List.length entries) = Z.min total 256
       /\ exists view,
            App.renderSubnetList toString info 24 = Some view
            /\ App.displayCount view = Z.of_nat (List.length entries)
            /\ 1 <= App.displayCount view
            /\ App.totalSubnets view = total
            /\ (total <= 256 ->
                App.heading view = "Subnet List (" ++ toString total ++ " subnets)"
                /\ App.subnetContent view = join newline entries)
            /\ (256 < total ->
                App.heading view
                = "Subnet List (256 of " ++ toString total ++ " subnets)"
                /\ App.subnetContent view
                   = join newline entries ++ newline ++ "... and "
                     ++ toString (roundDouble (total - 256)) ++ " more subnets").
Proof.
  eexists. split; [vm_compute; reflexivity |].
  apply (subnet_list_count toString "10.0.0.0/8"); [vm_compute; reflexivity | simpl; lia].
Defined.

End PrivateIPv6.
